(** * A shallow embedding of [script.js], the STL viewer and print-cost estimator

    The script keeps a handful of global variables (the three.js scene,
    camera, renderer, controls and current mesh, the estimated volume and
    the file name) and a few DOM elements, and changes them from event
    listeners.  Here the globals and the DOM elements are fields of a state
    record, every function of the script is a state transformer, and every
    listener is one case of a step function over events.

    JavaScript numbers are IEEE 754 binary64 values: they are modelled by
    the primitive floats, so that NaN, the infinities and the rounding of
    each operation are those of the script.  JavaScript strings are modelled
    by [string], read as the UTF-8 encoding of well-formed text.

    What is taken for granted of the surroundings of the script:
    - of three.js, only [loader.parse] throws; a parsed geometry comes with
      the bounding box that [computeBoundingBox] and [center] leave in it;
      rendering changes nothing that the script holds, and
      [controls.update()] moves and turns the camera as the library
      computes it, with no pointer interaction pending;
    - the text of the colour input, the values of the options and the file
      names are well-formed (no lone surrogate): [encodeURIComponent]
      throws on other text, and [updateCostAndEmail] with it, which the
      embedding does not follow;
    - the console is followed for the script's own calls of
      [console.error], not for what three.js or the browser write to it;
    - the page has the elements the script looks up, and its material
      [<select>] has an option of value [""];
    - listeners and frames run one at a time, in any order: a read may end
      in any state, and an input may change while it is disabled. *)

From Stdlib Require Import ZArith NArith List String Ascii Bool Lia.
From Stdlib Require Import DecimalString.
From Stdlib Require Import Floats.
Import ListNotations.

Set Warnings "-inexact-float".

Local Open Scope string_scope.

(** ** Strings *)

Module JSString.

Definition LF : string := String (ascii_of_N 10) "".
Definition DQUOTE : string := String (ascii_of_N 34) "".

(** Truthiness of a string: every string but the empty one. *)
Definition truthy (s : string) : bool :=
  match s with EmptyString => false | String _ _ => true end.

(** [a || b] on strings. *)
Definition or_else (a b : string) : string := if truthy a then a else b.

(** *** [String.prototype.trim]

    The white space and line terminator code points of ECMAScript, each
    by its UTF-8 encoding. *)
Definition whitespace_codes : list (list N) :=
  [ [9]; [10]; [11]; [12]; [13]; [32]          (* TAB LF VT FF CR SP *)
  ; [194; 160]                                 (* U+00A0 *)
  ; [225; 154; 128]                            (* U+1680 *)
  ; [226; 128; 128]; [226; 128; 129]; [226; 128; 130]; [226; 128; 131]
  ; [226; 128; 132]; [226; 128; 133]; [226; 128; 134]; [226; 128; 135]
  ; [226; 128; 136]; [226; 128; 137]; [226; 128; 138]   (* U+2000..U+200A *)
  ; [226; 128; 168]; [226; 128; 169]           (* U+2028 U+2029 *)
  ; [226; 128; 175]                            (* U+202F *)
  ; [226; 129; 159]                            (* U+205F *)
  ; [227; 128; 128]                            (* U+3000 *)
  ; [239; 187; 191] ]%N.                       (* U+FEFF *)

Definition whitespace : list (list ascii) :=
  map (map ascii_of_N) whitespace_codes.

(** [strip_prefix p l] is what follows [p] in [l], when [l] starts with [p]. *)
Fixpoint strip_prefix (p l : list ascii) : option (list ascii) :=
  match p, l with
  | [], _ => Some l
  | _ :: _, [] => None
  | a :: p', b :: l' => if Ascii.eqb a b then strip_prefix p' l' else None
  end.

Fixpoint strip_any (ps : list (list ascii)) (l : list ascii) : option (list ascii) :=
  match ps with
  | [] => None
  | p :: ps' =>
      match strip_prefix p l with
      | Some r => Some r
      | None => strip_any ps' l
      end
  end.

(** Drops leading members of [ps] for as long as there is one. *)
Fixpoint strip_leading (ps : list (list ascii)) (fuel : nat) (l : list ascii) : list ascii :=
  match fuel with
  | O => l
  | S fuel' =>
      match strip_any ps l with
      | Some r => strip_leading ps fuel' r
      | None => l
      end
  end.

Definition trimStart_chars (l : list ascii) : list ascii :=
  strip_leading whitespace (List.length l) l.

Definition trimEnd_chars (l : list ascii) : list ascii :=
  rev (strip_leading (map (@rev ascii) whitespace) (List.length l) (rev l)).

Definition trim (s : string) : string :=
  string_of_list_ascii (trimEnd_chars (trimStart_chars (list_ascii_of_string s))).

(** No member of [ps] is empty, and none starts another. *)
Definition nonempty_prefix_free (ps : list (list ascii)) : bool :=
  forallb (fun p =>
    match p with
    | [] => false
    | _ :: _ =>
        forallb (fun q =>
          match strip_prefix p q with Some (_ :: _) => false | _ => true end) ps
    end) ps.

(** A string made of white space only: a concatenation of white space
    characters. *)
Inductive concat_of (ps : list (list ascii)) : list ascii -> Prop :=
| concat_nil : concat_of ps []
| concat_cons p l : In p ps -> concat_of ps l -> concat_of ps (p ++ l)%list.

Definition only_whitespace (s : string) : Prop :=
  concat_of whitespace (list_ascii_of_string s).

(** *** [encodeURIComponent]

    Every byte of the UTF-8 encoding is escaped as [%XX], but for the
    unreserved characters: letters, digits and [- _ . ! ~ * ' ( )]. *)
Definition unreserved (a : ascii) : bool :=
  let n := N_of_ascii a in
  (((65 <=? n) && (n <=? 90)) || ((97 <=? n) && (n <=? 122))
   || ((48 <=? n) && (n <=? 57))
   || existsb (N.eqb n) [45; 95; 46; 33; 126; 42; 39; 40; 41])%N.

Definition hex_digit (n : N) : ascii :=
  match get (N.to_nat n) "0123456789ABCDEF" with
  | Some c => c
  | None => "0"%char
  end.

Fixpoint encodeURIComponent (s : string) : string :=
  match s with
  | EmptyString => EmptyString
  | String a r =>
      if unreserved a then String a (encodeURIComponent r)
      else
        let n := N_of_ascii a in
        String "%" (String (hex_digit (n / 16)) (String (hex_digit (n mod 16))
          (encodeURIComponent r)))
  end.

End JSString.

(** ** Numbers *)

Module JSNumber.

Local Open Scope float_scope.

Definition decimal (n : N) : string := NilZero.string_of_uint (N.to_uint n).

(** The value [m * 2^e] of a finite float, when it is an integer. *)
Definition integer_value (m : positive) (e : Z) : option N :=
  if (0 <=? e)%Z then Some (N.shiftl (Npos m) (Z.to_N e))
  else
    let k := Z.to_N (- e) in
    if (N.land (Npos m) (N.ones k) =? 0)%N then Some (N.shiftr (Npos m) k) else None.

(** [Number::toString]: the cases the language fixes outright are written
    out; the shortest round-trip digits of the other finite numbers are
    left to [digits]. *)
Definition toString (digits : float -> string) (x : float) : string :=
  match Prim2SF x with
  | S754_nan => "NaN"
  | S754_zero _ => "0"
  | S754_infinity s => if s then "-Infinity" else "Infinity"
  | S754_finite s m e =>
      let sign := if s then "-" else "" in
      match integer_value m e with
      | Some n => if (n <? 2 ^ 53)%N then sign ++ decimal n else sign ++ digits (abs x)
      | None => sign ++ digits (abs x)
      end
  end.

(** The integer [n] nearest to [100 * m * 2^e], the larger one on a tie. *)
Definition nearest_hundredth (m : positive) (e : Z) : N :=
  if (0 <=? e)%Z then (100 * N.shiftl (Npos m) (Z.to_N e))%N
  else
    let k := Z.to_N (- e) in
    N.shiftr (200 * Npos m + N.shiftl 1 k) (k + 1).

Definition two_digits (n : N) : string :=
  if (n <? 10)%N then "0" ++ decimal n else decimal n.

(** [Number.prototype.toFixed(2)]. *)
Definition toFixed2 (digits : float -> string) (x : float) : string :=
  match Prim2SF x with
  | S754_nan => "NaN"
  | S754_infinity s => if s then "-Infinity" else "Infinity"
  | S754_zero _ => "0.00"
  | S754_finite s m e =>
      let sign := if s then "-" else "" in
      if 1e21 <=? abs x then sign ++ toString digits (abs x)
      else
        let n := nearest_hundredth m e in
        sign ++ decimal (n / 100) ++ "." ++ two_digits (n mod 100)
  end.

(** [Math.max] of two numbers: NaN when either is, and [+0] above [-0]. *)
Definition max2 (a b : float) : float :=
  if is_nan a || is_nan b then nan
  else if a <? b then b
  else if b <? a then a
  else match classify a with NZero => b | _ => a end.

(** [Math.max(a, b, c)]. *)
Definition max3 (a b c : float) : float := max2 (max2 a b) c.

Definition PI : float := 3.141592653589793.

(** A number that is not below zero: NaN, or a number that compares at
    least zero (a zero of either sign, a positive number, [+Infinity]). *)
Definition not_negative (v : float) : Prop := is_nan v = true \/ (0 <=? v) = true.

(** The same on the specification of a float: anything but a negative
    number or [-Infinity]. *)
Definition sf_not_negative (f : spec_float) : bool :=
  match f with
  | S754_nan | S754_zero _ => true
  | S754_infinity s | S754_finite s _ _ => negb s
  end.

End JSNumber.

(** ** The three.js objects of the script

    three.js is a library the script imports.  Its objects are records of
    the properties the script sets or reads; a bounding box answers
    [getSize] and [getCenter] as the library documents them. *)

Module Three.

Local Open Scope float_scope.

Record Vector3 : Type := vec3 { x : float; y : float; z : float }.

Definition origin : Vector3 := vec3 0 0 0.

Record Box3 : Type := { min : Vector3; max : Vector3 }.

(** A box is empty when its maximum lies below its minimum on some axis. *)
Definition isEmpty (b : Box3) : bool :=
  (x (max b) <? x (min b)) || (y (max b) <? y (min b)) || (z (max b) <? z (min b)).

(** The extents of the box along the three axes, zero for an empty box. *)
Definition getSize (b : Box3) : Vector3 :=
  if isEmpty b then origin
  else vec3 (x (max b) - x (min b)) (y (max b) - y (min b)) (z (max b) - z (min b)).

Definition getCenter (b : Box3) : Vector3 :=
  if isEmpty b then origin
  else vec3 ((x (min b) + x (max b)) * 0.5) ((y (min b) + y (max b)) * 0.5)
            ((z (min b) + z (max b)) * 0.5).

(** A parsed geometry, with the bounding box that [computeBoundingBox] and
    [center] leave in it. *)
Record BufferGeometry : Type := { boundingBox : Box3 }.

Record MeshStandardMaterial : Type := {
  material_color : Z;
  metalness : float;
  roughness : float
}.

(** The objects the script holds in variables have an identity, a number
    taken when the object is created: [mesh_id] tells two meshes of equal
    geometry and material apart, and so for the scene, the camera, the
    renderer and the controls. *)
Record Mesh : Type := {
  mesh_id : nat;
  geometry : BufferGeometry;
  material : MeshStandardMaterial
}.

Inductive Object3D : Type :=
| AmbientLight (color : Z) (intensity : float)
| DirectionalLight (color : Z) (intensity : float) (position : Vector3)
| MeshObject (m : Mesh).

Record Scene : Type := {
  scene_id : nat;
  background : Z;
  children : list Object3D
}.

Definition is_mesh (id : nat) (o : Object3D) : bool :=
  match o with
  | MeshObject m => Nat.eqb (mesh_id m) id
  | _ => false
  end.

(** [scene.add(object)] *)
Definition add (o : Object3D) (sc : Scene) : Scene :=
  {| scene_id := scene_id sc; background := background sc;
     children := (children sc ++ [o])%list |}.

(** [scene.remove(mesh)] *)
Definition remove (m : Mesh) (sc : Scene) : Scene :=
  {| scene_id := scene_id sc; background := background sc;
     children := filter (fun o => negb (is_mesh (mesh_id m) o)) (children sc) |}.

Record PerspectiveCamera : Type := {
  camera_id : nat;
  fov : float;
  aspect : float;
  near : float;
  far : float;
  position : Vector3;
  lookAt : option Vector3      (* the point the camera was last turned to *)
}.

Record WebGLRenderer : Type := {
  renderer_id : nat;
  antialias : bool;
  width : float;
  height : float
}.

Record OrbitControls : Type := {
  controls_id : nat;
  enableDamping : bool;
  dampingFactor : float;
  screenSpacePanning : bool;
  maxPolarAngle : float;
  target : Vector3
}.

(** What [dispose] was called on: the geometry or the material of the mesh
    of that identity. *)
Inductive Disposable : Type :=
| GeometryOf (id : nat)
| MaterialOf (id : nat).

End Three.

(** ** The page and the script's variables *)

(** An option of the material [<select>]: its [value] and its
    [data-density] attribute, which may be missing. *)
Record MaterialOption : Type := {
  option_value : string;
  dataset_density : option string
}.

(** [#viewer]: its layout size and whether it holds the renderer's canvas
    (once [initThreeJS] has replaced its markup). *)
Record Viewer : Type := {
  clientWidth : float;
  clientHeight : float;
  has_canvas : bool
}.

Record TextInput : Type := { input_value : string; input_disabled : bool }.

(** The [<select>] always has a selected option: the page has an option of
    value [""], which is the one [materialInput.value = ''] selects. *)
Record Select : Type := { selected : MaterialOption; select_disabled : bool }.

(** [#emailLink]: the [href] attribute, when there is one, and whether the
    class list holds ['disabled']. *)
Record Anchor : Type := { href : option string; class_disabled : bool }.

(** The global variables of the script; [None] is [undefined] or [null]. *)
Record Globals : Type := Build_Globals {
  scene : option Three.Scene;
  camera : option Three.PerspectiveCamera;
  renderer : option Three.WebGLRenderer;
  controls : option Three.OrbitControls;
  currentMesh : option Three.Mesh;
  modelVolumeCm3 : float;
  loadedFileName : string
}.

Definition set_scene (v : option Three.Scene) (r : Globals) : Globals :=
  {| scene := v; camera := camera r; renderer := renderer r; controls := controls r;
     currentMesh := currentMesh r; modelVolumeCm3 := modelVolumeCm3 r;
     loadedFileName := loadedFileName r |}.
Definition set_camera (v : option Three.PerspectiveCamera) (r : Globals) : Globals :=
  {| scene := scene r; camera := v; renderer := renderer r; controls := controls r;
     currentMesh := currentMesh r; modelVolumeCm3 := modelVolumeCm3 r;
     loadedFileName := loadedFileName r |}.
Definition set_renderer (v : option Three.WebGLRenderer) (r : Globals) : Globals :=
  {| scene := scene r; camera := camera r; renderer := v; controls := controls r;
     currentMesh := currentMesh r; modelVolumeCm3 := modelVolumeCm3 r;
     loadedFileName := loadedFileName r |}.
Definition set_controls (v : option Three.OrbitControls) (r : Globals) : Globals :=
  {| scene := scene r; camera := camera r; renderer := renderer r; controls := v;
     currentMesh := currentMesh r; modelVolumeCm3 := modelVolumeCm3 r;
     loadedFileName := loadedFileName r |}.
Definition set_currentMesh (v : option Three.Mesh) (r : Globals) : Globals :=
  {| scene := scene r; camera := camera r; renderer := renderer r; controls := controls r;
     currentMesh := v; modelVolumeCm3 := modelVolumeCm3 r;
     loadedFileName := loadedFileName r |}.
Definition set_modelVolumeCm3 (v : float) (r : Globals) : Globals :=
  {| scene := scene r; camera := camera r; renderer := renderer r; controls := controls r;
     currentMesh := currentMesh r; modelVolumeCm3 := v;
     loadedFileName := loadedFileName r |}.
Definition set_loadedFileName (v : string) (r : Globals) : Globals :=
  {| scene := scene r; camera := camera r; renderer := renderer r; controls := controls r;
     currentMesh := currentMesh r; modelVolumeCm3 := modelVolumeCm3 r;
     loadedFileName := v |}.

Record Page : Type := Build_Page {
  fileInfo : string;  (* textContent of #fileInfo *)
  viewer : Viewer;  (* #viewer *)
  viewerMessage : string;  (* textContent of #viewerMessage *)
  colorInput : TextInput;  (* #colorInput *)
  materialInput : Select;  (* #materialInput *)
  costResult : string;  (* innerHTML of #costResult *)
  emailLink : Anchor;  (* #emailLink *)
  emailStatus : string  (* textContent of #emailStatus *)
}.

Definition set_fileInfo (v : string) (r : Page) : Page :=
  {| fileInfo := v; viewer := viewer r; viewerMessage := viewerMessage r;
     colorInput := colorInput r; materialInput := materialInput r;
     costResult := costResult r; emailLink := emailLink r; emailStatus := emailStatus r |}.
Definition set_viewer (v : Viewer) (r : Page) : Page :=
  {| fileInfo := fileInfo r; viewer := v; viewerMessage := viewerMessage r;
     colorInput := colorInput r; materialInput := materialInput r;
     costResult := costResult r; emailLink := emailLink r; emailStatus := emailStatus r |}.
Definition set_viewerMessage (v : string) (r : Page) : Page :=
  {| fileInfo := fileInfo r; viewer := viewer r; viewerMessage := v;
     colorInput := colorInput r; materialInput := materialInput r;
     costResult := costResult r; emailLink := emailLink r; emailStatus := emailStatus r |}.
Definition set_colorInput (v : TextInput) (r : Page) : Page :=
  {| fileInfo := fileInfo r; viewer := viewer r; viewerMessage := viewerMessage r;
     colorInput := v; materialInput := materialInput r; costResult := costResult r;
     emailLink := emailLink r; emailStatus := emailStatus r |}.
Definition set_materialInput (v : Select) (r : Page) : Page :=
  {| fileInfo := fileInfo r; viewer := viewer r; viewerMessage := viewerMessage r;
     colorInput := colorInput r; materialInput := v; costResult := costResult r;
     emailLink := emailLink r; emailStatus := emailStatus r |}.
Definition set_costResult (v : string) (r : Page) : Page :=
  {| fileInfo := fileInfo r; viewer := viewer r; viewerMessage := viewerMessage r;
     colorInput := colorInput r; materialInput := materialInput r; costResult := v;
     emailLink := emailLink r; emailStatus := emailStatus r |}.
Definition set_emailLink (v : Anchor) (r : Page) : Page :=
  {| fileInfo := fileInfo r; viewer := viewer r; viewerMessage := viewerMessage r;
     colorInput := colorInput r; materialInput := materialInput r;
     costResult := costResult r; emailLink := v; emailStatus := emailStatus r |}.
Definition set_emailStatus (v : string) (r : Page) : Page :=
  {| fileInfo := fileInfo r; viewer := viewer r; viewerMessage := viewerMessage r;
     colorInput := colorInput r; materialInput := materialInput r;
     costResult := costResult r; emailLink := emailLink r; emailStatus := v |}.

(** What the script has done to the world outside its variables and the
    page, kept to state what it releases and how often it initialises. *)
Record Effects : Type := Build_Effects {
  initCalls : nat;  (* calls of initThreeJS so far *)
  nextId : nat;  (* identity of the next object created *)
  disposed : list Three.Disposable;  (* dispose calls so far, oldest first *)
  console_errors : list string;  (* the script's console.error calls, oldest first *)
  animating : bool;  (* requestAnimationFrame: a call of animate is due *)
  resizeListener : bool  (* onWindowResize listens to window resize *)
}.

Definition set_initCalls (v : nat) (r : Effects) : Effects :=
  {| initCalls := v; nextId := nextId r; disposed := disposed r;
     console_errors := console_errors r; animating := animating r;
     resizeListener := resizeListener r |}.
Definition set_nextId (v : nat) (r : Effects) : Effects :=
  {| initCalls := initCalls r; nextId := v; disposed := disposed r;
     console_errors := console_errors r; animating := animating r;
     resizeListener := resizeListener r |}.
Definition set_disposed (v : list Three.Disposable) (r : Effects) : Effects :=
  {| initCalls := initCalls r; nextId := nextId r; disposed := v;
     console_errors := console_errors r; animating := animating r;
     resizeListener := resizeListener r |}.
Definition set_console_errors (v : list string) (r : Effects) : Effects :=
  {| initCalls := initCalls r; nextId := nextId r; disposed := disposed r;
     console_errors := v; animating := animating r; resizeListener := resizeListener r |}.
Definition set_animating (v : bool) (r : Effects) : Effects :=
  {| initCalls := initCalls r; nextId := nextId r; disposed := disposed r;
     console_errors := console_errors r; animating := v;
     resizeListener := resizeListener r |}.
Definition set_resizeListener (v : bool) (r : Effects) : Effects :=
  {| initCalls := initCalls r; nextId := nextId r; disposed := disposed r;
     console_errors := console_errors r; animating := animating r; resizeListener := v |}.

Record State : Type := Build_State {
  vars : Globals;
  page : Page;
  effects : Effects
}.

Definition set_vars (v : Globals) (r : State) : State :=
  {| vars := v; page := page r; effects := effects r |}.
Definition set_page (v : Page) (r : State) : State :=
  {| vars := vars r; page := v; effects := effects r |}.
Definition set_effects (v : Effects) (r : State) : State :=
  {| vars := vars r; page := page r; effects := v |}.

Definition upd_vars (f : Globals -> Globals) (s : State) : State := set_vars (f (vars s)) s.
Definition upd_page (f : Page -> Page) (s : State) : State := set_page (f (page s)) s.
Definition upd_effects (f : Effects -> Effects) (s : State) : State :=
  set_effects (f (effects s)) s.

Definition with_value (v : string) (i : TextInput) : TextInput :=
  {| input_value := v; input_disabled := input_disabled i |}.
Definition with_input_disabled (b : bool) (i : TextInput) : TextInput :=
  {| input_value := input_value i; input_disabled := b |}.
Definition with_selected (o : MaterialOption) (i : Select) : Select :=
  {| selected := o; select_disabled := select_disabled i |}.
Definition with_select_disabled (b : bool) (i : Select) : Select :=
  {| selected := selected i; select_disabled := b |}.
Definition with_href (h : option string) (a : Anchor) : Anchor :=
  {| href := h; class_disabled := class_disabled a |}.
Definition with_class_disabled (b : bool) (a : Anchor) : Anchor :=
  {| href := href a; class_disabled := b |}.

Definition upd_colorInput (f : TextInput -> TextInput) (p : Page) : Page :=
  set_colorInput (f (colorInput p)) p.
Definition upd_materialInput (f : Select -> Select) (p : Page) : Page :=
  set_materialInput (f (materialInput p)) p.
Definition upd_emailLink (f : Anchor -> Anchor) (p : Page) : Page :=
  set_emailLink (f (emailLink p)) p.

Declare Scope script_scope.
Delimit Scope script_scope with script.
Notation "s |> f" := (f s) (at level 65, left associativity, only parsing) : script_scope.
Local Open Scope script_scope.

(** A function of the script either returns or throws; both leave a state. *)
Inductive Outcome : Type :=
| Returned (s : State)
| Thrown (s : State).

Definition final (o : Outcome) : State :=
  match o with Returned s | Thrown s => s end.

Definition and_then (o : Outcome) (k : State -> Outcome) : Outcome :=
  match o with Returned s => k s | Thrown s => Thrown s end.

Notation "o >>= k" := (and_then o k) (at level 66, left associativity) : script_scope.

(** ** What the script takes from its surroundings

    [Math.tan], the digits of [Number::toString] and [parseFloat] are
    built-ins of the language; [OrbitControls_update c p] is the position
    that [controls.update()] of three.js gives a camera standing at [p],
    for the controls [c]; the text of [#fileInfo], the size of [#viewer]
    and the [data-density] of the option of value [""] come from the
    page's markup. *)
Record Host : Type := {
  Math_tan : float -> float;
  shortest_digits : float -> string;
  parseFloat : string -> float;
  OrbitControls_update : Three.OrbitControls -> Three.Vector3 -> Three.Vector3;
  html_fileInfo : string;
  html_viewer_width : float;
  html_viewer_height : float;
  html_placeholder_density : option string
}.

(** A file of the file input: [file.name] and [file.size]. *)
Record File : Type := { file_name : string; file_size : float }.

Section Script.

Context (host : Host).

Import JSString.
Local Open Scope float_scope.

Definition toString : float -> string := JSNumber.toString (shortest_digits host).
Definition toFixed2 : float -> string := JSNumber.toFixed2 (shortest_digits host).

(** *** Configuration *)

Definition COST_PER_GRAM : float := 10.
Definition TARGET_EMAIL : string := "your-print-service@example.com".

(** The option that [materialInput.value = ''] selects. *)
Definition placeholder : MaterialOption :=
  {| option_value := ""; dataset_density := html_placeholder_density host |}.

(** *** The controls and the animation loop *)

(** [controls.update()], for the controls [c] of the script's camera: the
    camera is moved to the position that the controls compute and turned
    to their target. *)
Definition controls_update (c : Three.OrbitControls) (s : State) : State :=
  match camera (vars s) with
  | Some cam =>
      s |> upd_vars (set_camera (Some
             {| Three.camera_id := Three.camera_id cam; Three.fov := Three.fov cam;
                Three.aspect := Three.aspect cam; Three.near := Three.near cam;
                Three.far := Three.far cam;
                Three.position := OrbitControls_update host c (Three.position cam);
                Three.lookAt := Some (Three.target c) |}))
  | None => s
  end.

Definition animate (s : State) : State :=
  match renderer (vars s) with
  | None => s                                  (* Stop if not initialized *)
  | Some _ =>
      let s := s |> upd_effects (set_animating true) in  (* requestAnimationFrame(animate) *)
      match controls (vars s) with
      | Some c => controls_update c s
      | None => s
      end                                      (* renderer.render(scene, camera) *)
  end.

(** *** Initialization *)

Definition initThreeJS (s : State) : State :=
  let w := clientWidth (viewer (page s)) in
  let h := clientHeight (viewer (page s)) in
  (* Scene *)
  let id := nextId (effects s) in
  let scene0 :=
    {| Three.scene_id := id; Three.background := 0xeeeeee; Three.children := [] |} in
  (* Camera *)
  let camera0 :=
    {| Three.camera_id := id + 1; Three.fov := 75; Three.aspect := w / h;
       Three.near := 0.1; Three.far := 1000;
       Three.position := Three.vec3 50 50 50; Three.lookAt := None |} in
  (* Renderer *)
  let renderer0 :=
    {| Three.renderer_id := id + 2; Three.antialias := true;
       Three.width := w; Three.height := h |} in
  (* Lights *)
  let ambientLight := Three.AmbientLight 0xffffff 0.6 in
  let directionalLight := Three.DirectionalLight 0xffffff 0.8 (Three.vec3 50 50 50) in
  (* Controls *)
  let controls0 :=
    {| Three.controls_id := id + 3;
       Three.enableDamping := true; Three.dampingFactor := 0.25;
       Three.screenSpacePanning := false; Three.maxPolarAngle := JSNumber.PI / 2;
       Three.target := Three.origin |} in
  s |> upd_effects (fun e => set_initCalls (S (initCalls e)) e)
    |> upd_effects (set_nextId (id + 4))
    |> upd_vars (set_scene (Some scene0))
    |> upd_vars (set_camera (Some camera0))
    |> upd_vars (set_renderer (Some renderer0))
    |> upd_page (fun p =>
         set_viewer {| clientWidth := w; clientHeight := h; has_canvas := true |} p)
    |> upd_vars (set_scene (Some (scene0 |> Three.add ambientLight |> Three.add directionalLight)))
    |> upd_vars (set_controls (Some controls0))
    |> animate
    |> upd_effects (set_resizeListener true).

Definition onWindowResize (s : State) : State :=
  match camera (vars s), renderer (vars s) with
  | Some cam, Some ren =>
      let w := clientWidth (viewer (page s)) in
      let h := clientHeight (viewer (page s)) in
      s |> upd_vars (set_camera (Some
             {| Three.camera_id := Three.camera_id cam; Three.fov := Three.fov cam;
                Three.aspect := w / h; Three.near := Three.near cam;
                Three.far := Three.far cam; Three.position := Three.position cam;
                Three.lookAt := Three.lookAt cam |}))
        |> upd_vars (set_renderer (Some
             {| Three.renderer_id := Three.renderer_id ren;
                Three.antialias := Three.antialias ren; Three.width := w; Three.height := h |}))
  | _, _ => s
  end.

(** *** Camera helper

    [camera] and [controls] are the script's globals at the one call of this
    function.  The mesh has no transform of its own, so the box of
    [setFromObject] is the bounding box of its geometry. *)
Definition fitCameraToObject (object : Three.Mesh) (offset : float) (s : State) : Outcome :=
  let boundingBox := Three.boundingBox (Three.geometry object) in
  let center := Three.getCenter boundingBox in
  let size := Three.getSize boundingBox in
  let maxDim := JSNumber.max3 (Three.x size) (Three.y size) (Three.z size) in
  match camera (vars s) with
  | None => Thrown s
  | Some cam =>
      let fov := Three.fov cam * (JSNumber.PI / 180) in
      let cameraZ := abs (maxDim / 2 / Math_tan host (fov / 2)) in
      let cameraZ := cameraZ * offset in
      let minZ := Three.z (Three.min boundingBox) in
      let cameraToFarEdge := if minZ <? 0 then - minZ + cameraZ else cameraZ - minZ in
      let cam' :=
        {| Three.camera_id := Three.camera_id cam;
           Three.fov := Three.fov cam; Three.aspect := Three.aspect cam;
           Three.near := Three.near cam; Three.far := cameraToFarEdge * 3;
           Three.position :=
             Three.vec3 (Three.x center) (Three.y center) (Three.z center + cameraZ);
           Three.lookAt := Some center |} in
      let s := s |> upd_vars (set_camera (Some cam')) in
      match controls (vars s) with
      | Some c =>
          let c' :=
            {| Three.controls_id := Three.controls_id c;
               Three.enableDamping := Three.enableDamping c;
               Three.dampingFactor := Three.dampingFactor c;
               Three.screenSpacePanning := Three.screenSpacePanning c;
               Three.maxPolarAngle := Three.maxPolarAngle c;
               Three.target := center |} in
          Returned (s |> upd_vars (set_controls (Some c')) |> controls_update c')
      | None => Returned s
      end
  end.

(** *** Cost calculation and email link *)

(** The three messages of [#costResult] that stand for "no estimate" share
    everything but their first paragraph. *)
Definition cost_prompt (message : string) : string :=
  "<p>" ++ message ++ "</p><p>Rate: ₹" ++ toString COST_PER_GRAM
  ++ " per gram</p><p class=" ++ DQUOTE ++ "warning" ++ DQUOTE
  ++ "><strong>Note:</strong> Volume calculation is an approximation.</p>".

Definition prompt_upload : string := cost_prompt "Please upload a file and select material.".
Definition prompt_material : string := cost_prompt "Please select a valid material.".

Definition estimate_html (volume : float) (materialName : string) (density massGrams
  estimatedCost : float) : string :=
  LF ++ "        <p>Est. Volume: " ++ toFixed2 volume ++ " cm³ (Approximate)</p>" ++ LF
  ++ "        <p>Material: " ++ materialName ++ " (" ++ toString density ++ " g/cm³)</p>" ++ LF
  ++ "        <p>Est. Mass: " ++ toFixed2 massGrams ++ " g</p>" ++ LF
  ++ "        <p><strong>Estimated Cost: ₹" ++ toFixed2 estimatedCost ++ "</strong></p>" ++ LF
  ++ "         <p class=" ++ DQUOTE ++ "warning" ++ DQUOTE
  ++ "><strong>Note:</strong> Volume calculation is an approximation.</p>" ++ LF
  ++ "    ".

Definition quote_subject (fileName : string) : string :=
  "3D Print Quote Request - " ++ fileName.

Definition quote_body (fileName color materialName : string) (volume massGrams
  estimatedCost : float) : string :=
  "Hello," ++ LF ++ LF
  ++ "Please find the details for a 3D printing quote request below:" ++ LF ++ LF
  ++ "File Name: " ++ fileName ++ LF
  ++ "Color: " ++ color ++ LF
  ++ "Material: " ++ materialName ++ LF
  ++ "Estimated Volume: " ++ toFixed2 volume ++ " cm³ (approx.)" ++ LF
  ++ "Estimated Mass: " ++ toFixed2 massGrams ++ " g (approx.)" ++ LF
  ++ "Estimated Cost: ₹" ++ toFixed2 estimatedCost ++ " (approx.)" ++ LF ++ LF
  ++ "(Remember to attach the STL file: " ++ fileName ++ ")" ++ LF ++ LF
  ++ "Thank you.".

Definition mailto (subject body : string) : string :=
  "mailto:" ++ TARGET_EMAIL ++ "?subject=" ++ encodeURIComponent subject
  ++ "&body=" ++ encodeURIComponent body.

(** The end of both early returns: the message, no link, no status. *)
Definition no_estimate (message : string) (s : State) : State :=
  s |> upd_page (set_costResult message)
    |> upd_page (upd_emailLink (with_class_disabled true))
    |> upd_page (upd_emailLink (with_href None))
    |> upd_page (set_emailStatus "").

Definition is_null {A : Type} (o : option A) : bool :=
  match o with Some _ => false | None => true end.

(** [selectedOption.dataset.density], read as a string by [parseFloat]. *)
Definition density_of (selectedOption : MaterialOption) : float :=
  parseFloat host
    (match dataset_density selectedOption with Some d => d | None => "undefined" end).

(** [colorInput.value.trim() || 'Not specified'] *)
Definition color_of (value : string) : string := or_else (trim value) "Not specified".

Definition updateCostAndEmail (s : State) : State :=
  let volume := modelVolumeCm3 (vars s) in
  if is_null (currentMesh (vars s)) || (volume <=? 0) then
    no_estimate prompt_upload s
  else
    let selectedOption := selected (materialInput (page s)) in
    let density := density_of selectedOption in
    let materialName := option_value selectedOption in
    let color := color_of (input_value (colorInput (page s))) in
    if negb (truthy materialName) || (density <=? 0) then
      no_estimate prompt_material s
    else
      (* Calculate mass and cost *)
      let massGrams := volume * density in
      let estimatedCost := massGrams * COST_PER_GRAM in
      (* Prepare Mailto Link *)
      let subject := quote_subject (loadedFileName (vars s)) in
      let body :=
        quote_body (loadedFileName (vars s)) color materialName volume massGrams
          estimatedCost in
      s |> upd_page (set_costResult
             (estimate_html volume materialName density massGrams estimatedCost))
        |> upd_page (upd_emailLink (with_href (Some (mailto subject body))))
        |> upd_page (upd_emailLink (with_class_disabled false))
        |> upd_page (set_emailStatus "Ready to generate email draft.").

(** *** Helper functions *)

Definition resetState (s : State) : Outcome :=
  (* Clear 3D scene *)
  (match scene (vars s), currentMesh (vars s) with
   | Some sc, Some m =>
       let s :=
         s |> upd_vars (set_scene (Some (Three.remove m sc)))
           |> upd_effects (fun e =>
                set_disposed (disposed e ++ [Three.GeometryOf (Three.mesh_id m)])%list e)
           |> upd_effects (fun e =>
                set_disposed (disposed e ++ [Three.MaterialOf (Three.mesh_id m)])%list e)
           |> upd_vars (set_currentMesh None) in
       (* renderer.render(scene, camera) *)
       if is_null (renderer (vars s)) then Thrown s else Returned s
   | _, _ => Returned s
   end) >>= fun s =>
  Returned
    (s |> upd_page (set_viewerMessage
            (if is_null (renderer (vars s)) then "Please upload an STL file to view." else ""))
       (* Reset inputs/results *)
       |> upd_page (upd_colorInput (with_value ""))
       |> upd_page (upd_materialInput (with_selected placeholder))
       |> upd_vars (set_modelVolumeCm3 0)
       |> upd_vars (set_loadedFileName "")
       |> upd_page (set_costResult prompt_upload)
       |> upd_page (upd_emailLink (with_class_disabled true))
       |> upd_page (upd_emailLink (with_href None))
       |> upd_page (set_emailStatus "")
       |> upd_page (upd_colorInput (with_input_disabled true))
       |> upd_page (upd_materialInput (with_select_disabled true))).

Definition enableInputsAndCalc (s : State) : State :=
  s |> upd_page (upd_colorInput (with_input_disabled false))
    |> upd_page (upd_materialInput (with_select_disabled false)).

(** *** STL loading *)

(** The listener of the file input, up to the start of the read.  [file] is
    [event.target.files[0]]. *)
Definition fileInput_change (file : option File) (s : State) : Outcome :=
  match file with
  | None => Returned s
  | Some file =>
      s |> upd_vars (set_loadedFileName (file_name file))
        |> upd_page (set_fileInfo
             ("File: " ++ file_name file ++ " ("
              ++ toFixed2 (file_size file / 1024 / 1024) ++ " MB)"))
        |> upd_page (set_viewerMessage "Loading model...")
        |> resetState        (* Clear previous model and cost *)
  end.

(** The placeholder volume calculation: the product of the extents of the
    bounding box, taken as mm^3, brought to cm^3, of which 40% is kept. *)
Definition estimate_volume (size : Three.Vector3) : float :=
  let modelVolumeCm3 := (Three.x size * Three.y size * Three.z size) / 1000 in
  modelVolumeCm3 * 0.4.

(** The body of the [try] of [reader.onload].  [parsed] is the result of
    [loader.parse]: [None] when it throws. *)
Definition onload_try (parsed : option Three.BufferGeometry) (s : State) : Outcome :=
  match parsed with
  | None => Thrown s
  | Some geometry =>
      (* Initialize Three.js only when first file is loaded *)
      let s :=
        if is_null (scene (vars s)) then initThreeJS s
        else s |> upd_page (set_viewerMessage "") in
      (* Placeholder volume calculation *)
      let size := Three.getSize (Three.boundingBox geometry) in
      let s := s |> upd_vars (set_modelVolumeCm3 (estimate_volume size)) in
      (* Material and Mesh *)
      let material :=
        {| Three.material_color := 0xcccccc; Three.metalness := 0.1;
           Three.roughness := 0.75 |} in
      let mesh :=
        {| Three.mesh_id := nextId (effects s); Three.geometry := geometry;
           Three.material := material |} in
      let s :=
        s |> upd_effects (fun e => set_nextId (S (nextId e)) e)
          |> upd_vars (set_currentMesh (Some mesh)) in
      match scene (vars s) with
      | None => Thrown s
      | Some sc =>
          let s := s |> upd_vars (set_scene (Some (Three.add (Three.MeshObject mesh) sc))) in
          (* Adjust camera to fit the model *)
          fitCameraToObject mesh 1.5 s >>= fun s =>
          (* Enable inputs and calculation *)
          Returned (s |> enableInputsAndCalc |> updateCostAndEmail)
      end
  end.

Definition onload_catch (s : State) : Outcome :=
  s |> upd_effects (fun e => set_console_errors (console_errors e ++ ["Error loading STL:"])%list e)
    |> upd_page (set_viewerMessage "Error loading STL file. Please check the file format.")
    |> upd_page (set_fileInfo ("File: " ++ loadedFileName (vars s) ++ " - Load Error"))
    |> resetState.

Definition reader_onload (parsed : option Three.BufferGeometry) (s : State) : Outcome :=
  match onload_try parsed s with
  | Returned s' => Returned s'
  | Thrown s' => onload_catch s'
  end.

Definition reader_onerror (s : State) : Outcome :=
  s |> upd_effects (fun e => set_console_errors (console_errors e ++ ["Error reading file"])%list e)
    |> upd_page (set_viewerMessage "Error reading file.")
    |> upd_page (set_fileInfo ("File: " ++ loadedFileName (vars s) ++ " - Read Error"))
    |> resetState.

(** *** Events

    What happens to the page, one event at a time: a file is chosen, the
    read of a chosen file ends, the user edits the colour or picks a
    material, the window is resized, a frame of the animation is due. *)
Inductive Event : Type :=
| FileChosen (file : option File)
| FileRead (parsed : option Three.BufferGeometry)
| FileReadError
| ColorEdited (value : string)
| MaterialSelected (option : MaterialOption)
| WindowResized (width height : float)
| AnimationFrame.

Definition handle (e : Event) (s : State) : Outcome :=
  match e with
  | FileChosen file => fileInput_change file s
  | FileRead parsed => reader_onload parsed s
  | FileReadError => reader_onerror s
  | ColorEdited value =>
      Returned (s |> upd_page (upd_colorInput (with_value value)) |> updateCostAndEmail)
  | MaterialSelected option =>
      Returned (s |> upd_page (upd_materialInput (with_selected option)) |> updateCostAndEmail)
  | WindowResized w h =>
      let s :=
        s |> upd_page (fun p =>
               set_viewer {| clientWidth := w; clientHeight := h;
                             has_canvas := has_canvas (viewer p) |} p) in
      Returned (if resizeListener (effects s) then onWindowResize s else s)
  | AnimationFrame =>
      (* the callback that requestAnimationFrame holds, when it holds one *)
      Returned (if animating (effects s)
                then s |> upd_effects (set_animating false) |> animate
                else s)
  end.

(** An exception no listener catches ends the listener and leaves the state
    as it was when thrown. *)
Definition step (s : State) (e : Event) : State := final (handle e s).

Definition run (s : State) (events : list Event) : State := fold_left step events s.

(** *** Initial state *)

(** The page as the markup gives it, before the script has run.  Of the
    page, the script's first [resetState] leaves only the text of
    [#fileInfo] and the size of [#viewer] as they were. *)
Definition document : State :=
  {| vars :=
       {| scene := None; camera := None; renderer := None; controls := None;
          currentMesh := None; modelVolumeCm3 := 0; loadedFileName := "" |};
     page :=
       {| fileInfo := html_fileInfo host;
          viewer := {| clientWidth := html_viewer_width host;
                       clientHeight := html_viewer_height host; has_canvas := false |};
          viewerMessage := "";
          colorInput := {| input_value := ""; input_disabled := false |};
          materialInput := {| selected := placeholder; select_disabled := false |};
          costResult := "";
          emailLink := {| href := None; class_disabled := false |};
          emailStatus := "" |};
     effects :=
       {| initCalls := 0; nextId := 0; disposed := []; console_errors := [];
          animating := false; resizeListener := false |} |}.

(** The state once the script has run to its end. *)
Definition initial : State := final (resetState document).

Definition reachable (s : State) : Prop := exists events, s = run initial events.

(** *** What holds of every reachable state *)

(** The rendering context is whole or absent: [initThreeJS] sets the scene,
    the camera, the renderer and the controls together, and nothing unsets
    them. *)
Definition context_ok (s : State) : Prop :=
  match scene (vars s), camera (vars s), renderer (vars s), controls (vars s) with
  | None, None, None, None =>
      currentMesh (vars s) = None /\ initCalls (effects s) = 0%nat
  | Some _, Some _, Some _, Some _ => initCalls (effects s) = 1%nat
  | _, _, _, _ => False
  end.

(** What [updateCostAndEmail] writes: the estimate, the link, the status. *)
Definition display (s : State) : string * Anchor * string :=
  (costResult (page s), emailLink (page s), emailStatus (page s)).

(** The display is up to date: [updateCostAndEmail] would not change it. *)
Definition in_sync (s : State) : Prop := display (updateCostAndEmail s) = display s.

Definition mesh_ids (sc : Three.Scene) : list nat :=
  flat_map (fun o => match o with Three.MeshObject m => [Three.mesh_id m] | _ => [] end)
    (Three.children sc).

(** The meshes of the scene are distinct objects, older than the next
    identity, and the current mesh is one of them. *)
Definition meshes_ok (s : State) : Prop :=
  (forall sc, scene (vars s) = Some sc ->
     NoDup (mesh_ids sc) /\ forall id, In id (mesh_ids sc) -> (id < nextId (effects s))%nat)
  /\ (forall m, currentMesh (vars s) = Some m ->
       exists sc, scene (vars s) = Some sc /\ In (Three.MeshObject m) (Three.children sc)).

Definition invariant (s : State) : Prop :=
  context_ok s /\ loadedFileName (vars s) = "" /\ in_sync s /\ meshes_ok s
  /\ JSNumber.not_negative (modelVolumeCm3 (vars s)).

(** The identities of the scene, the camera, the renderer and the controls. *)
Definition identities (s : State) : option nat * option nat * option nat * option nat :=
  (option_map Three.scene_id (scene (vars s)),
   option_map Three.camera_id (camera (vars s)),
   option_map Three.renderer_id (renderer (vars s)),
   option_map Three.controls_id (controls (vars s))).

(** A read that ends with a file the STL loader parses. *)
Definition parsed (e : Event) : bool :=
  match e with FileRead (Some _) => true | _ => false end.

End Script.

(** ** A sample page

    A host to run the script on examples.  Its tangent is a truncated
    series; its [parseFloat] and its digits know the numbers of the sample
    options only; its controls leave the camera where it stands. *)

Module Sample.

Local Open Scope float_scope.

Definition host : Host :=
  {| Math_tan := fun a => a + a * a * a / 3 + 2 * a * a * a * a * a / 15;
     shortest_digits := fun v => if v =? 1.24 then "1.24" else "";
     parseFloat := fun t =>
       if String.eqb t "1.24" then 1.24 else if String.eqb t "0" then 0 else nan;
     OrbitControls_update := fun _ p => p;
     html_fileInfo := "";
     html_viewer_width := 800;
     html_viewer_height := 600;
     html_placeholder_density := Some "0" |}.

Definition PLA : MaterialOption :=
  {| option_value := "PLA"; dataset_density := Some "1.24" |}.

Definition cube_stl : File := {| file_name := "cube.stl"; file_size := 684 |}.

(** A cube of side 10, centred. *)
Definition cube : Three.BufferGeometry :=
  {| Three.boundingBox :=
       {| Three.min := Three.vec3 (-5) (-5) (-5); Three.max := Three.vec3 5 5 5 |} |}.

(** A flat square: no extent along z. *)
Definition plate : Three.BufferGeometry :=
  {| Three.boundingBox :=
       {| Three.min := Three.vec3 (-5) (-5) 0; Three.max := Three.vec3 5 5 0 |} |}.

(** The geometry of a binary STL file whose vertex coordinates are NaN:
    its bounding box is NaN on every axis. *)
Definition nan_mesh : Three.BufferGeometry :=
  {| Three.boundingBox :=
       {| Three.min := Three.vec3 nan nan nan; Three.max := Three.vec3 nan nan nan |} |}.

(** The cube is uploaded and parsed. *)
Definition cube_loaded : list Event := [FileChosen (Some cube_stl); FileRead (Some cube)].

(** The state once the cube is uploaded and PLA is selected. *)
Definition quoted : State :=
  run host (initial host) (cube_loaded ++ [MaterialSelected PLA]).

(** The state once a file of NaN coordinates is uploaded and PLA is selected. *)
Definition nan_quoted : State :=
  run host (initial host)
    [FileChosen (Some cube_stl); FileRead (Some nan_mesh); MaterialSelected PLA].

(** The state once the flat square is uploaded. *)
Definition plate_loaded : State :=
  run host (initial host) [FileChosen (Some cube_stl); FileRead (Some plate)].

(** The state once the flat square is uploaded and PLA is selected. *)
Definition plate_quoted : State :=
  run host (initial host)
    [FileChosen (Some cube_stl); FileRead (Some plate); MaterialSelected PLA].

End Sample.

(** ** More of what holds of every reachable state *)

(** The text [resetState] writes to [#viewerMessage] while there is no
    renderer. *)
Definition upload_invitation : string := "Please upload an STL file to view.".

(** The inputs are enabled exactly while a mesh is loaded; the text of
    [#viewerMessage] is the invitation or nothing, and the invitation while
    there is no renderer; the listener of window resizes, the animation loop
    and the canvas are there exactly when there is a renderer. *)
Definition widgets_ok (s : State) : Prop :=
  input_disabled (colorInput (page s)) = is_null (currentMesh (vars s))
  /\ select_disabled (materialInput (page s)) = is_null (currentMesh (vars s))
  /\ (viewerMessage (page s) = upload_invitation
      \/ (viewerMessage (page s) = "" /\ renderer (vars s) <> None))
  /\ resizeListener (effects s) = negb (is_null (renderer (vars s)))
  /\ animating (effects s) = negb (is_null (renderer (vars s)))
  /\ has_canvas (viewer (page s)) = negb (is_null (renderer (vars s))).

(** The renderer has the size of [#viewer] and the camera its aspect
    ratio. *)
Definition viewport_ok (s : State) : Prop :=
  forall cam ren, camera (vars s) = Some cam -> renderer (vars s) = Some ren ->
    Three.width ren = clientWidth (viewer (page s))
    /\ Three.height ren = clientHeight (viewer (page s))
    /\ Three.aspect cam
       = (clientWidth (viewer (page s)) / clientHeight (viewer (page s)))%float.

(** The camera, the renderer and the controls keep the settings that
    [initThreeJS] gave them. *)
Definition settings_ok (s : State) : Prop :=
  (forall cam, camera (vars s) = Some cam ->
     Three.fov cam = 75%float /\ Three.near cam = 0.1%float)
  /\ (forall ren, renderer (vars s) = Some ren -> Three.antialias ren = true)
  /\ (forall c, controls (vars s) = Some c ->
        Three.enableDamping c = true /\ Three.dampingFactor c = 0.25%float
        /\ Three.screenSpacePanning c = false
        /\ Three.maxPolarAngle c = (JSNumber.PI / 2)%float).

(** The two lights that [initThreeJS] adds to the scene. *)
Definition lights : list Three.Object3D :=
  [ Three.AmbientLight 0xffffff 0.6%float;
    Three.DirectionalLight 0xffffff 0.8%float (Three.vec3 50 50 50) ].

Definition is_mesh_object (o : Three.Object3D) : bool :=
  match o with Three.MeshObject _ => true | _ => false end.

(** The scene has its grey background and holds the two lights, then
    meshes only. *)
Definition scene_ok (s : State) : Prop :=
  forall sc, scene (vars s) = Some sc ->
    Three.background sc = 0xeeeeee%Z
    /\ exists meshes,
         Three.children sc = (lights ++ meshes)%list
         /\ forallb is_mesh_object meshes = true.

(** The [dispose] calls that release the meshes of these identities, one
    after the other: the geometry, then the material. *)
Definition released (ids : list nat) : list Three.Disposable :=
  flat_map (fun id => [Three.GeometryOf id; Three.MaterialOf id]) ids.

(** The identities of the meshes in the scene. *)
Definition scene_meshes (s : State) : list nat :=
  match scene (vars s) with Some sc => mesh_ids sc | None => [] end.

(** The meshes released so far, [ids], were released once each and are no
    longer in the scene; every mesh created so far (the identities from 4
    on: the first four are taken by [initThreeJS]) is in the scene or was
    released. *)
Definition disposal_of (ids : list nat) (s : State) : Prop :=
  disposed (effects s) = released ids
  /\ NoDup ids
  /\ (forall id, In id ids -> ~ In id (scene_meshes s))
  /\ (forall id, (4 <= id < nextId (effects s))%nat <-> In id (scene_meshes s) \/ In id ids)
  /\ (if is_null (scene (vars s)) then nextId (effects s) = 0 else 4 <= nextId (effects s))%nat.

Definition disposal_ok (s : State) : Prop := exists ids, disposal_of ids s.

(** A mesh that is in the scene without being the current one, and was
    not released. *)
Definition orphan (m : Three.Mesh) (s : State) : Prop :=
  (exists sc, scene (vars s) = Some sc /\ In (Three.MeshObject m) (Three.children sc))
  /\ (forall c, currentMesh (vars s) = Some c -> Three.mesh_id c <> Three.mesh_id m)
  /\ ~ In (Three.GeometryOf (Three.mesh_id m)) (disposed (effects s))
  /\ ~ In (Three.MaterialOf (Three.mesh_id m)) (disposed (effects s)).

Definition more_invariant (host : Host) (s : State) : Prop :=
  invariant host s /\ widgets_ok s /\ viewport_ok s /\ settings_ok s /\ scene_ok s
  /\ disposal_ok s.

(** *** Kinds of events *)

(** The events whose listener leaves the text of [#fileInfo] alone, when it
    does not throw: all but the choice of a file and the two failures of a
    read. *)
Definition keeps_fileInfo (e : Event) : bool :=
  match e with
  | FileChosen (Some _) | FileRead None | FileReadError => false
  | _ => true
  end.

(** The events that load or unload nothing: an edit of the colour, a choice
    of material, a resize of the window. *)
Definition loads_nothing (e : Event) : bool :=
  match e with
  | ColorEdited _ | MaterialSelected _ | WindowResized _ _ => true
  | _ => false
  end.

(** The uploads do not overlap: a file is chosen only while no read is
    pending, and a read ends only while one is. *)
Fixpoint no_overlap (pending : bool) (events : list Event) : bool :=
  match events with
  | [] => true
  | FileChosen (Some _) :: rest => negb pending && no_overlap true rest
  | FileRead _ :: rest | FileReadError :: rest => pending && no_overlap false rest
  | _ :: rest => no_overlap pending rest
  end.

(** The identity of the current mesh, when there is one. *)
Definition current_meshes (s : State) : list nat :=
  match currentMesh (vars s) with Some m => [Three.mesh_id m] | None => [] end.

(** The events whose listener calls [updateCostAndEmail]: a read that the
    loader parses, an edit of the colour, a choice of material. *)
Definition estimates (e : Event) : bool :=
  match e with
  | FileRead (Some _) | ColorEdited _ | MaterialSelected _ => true
  | _ => false
  end.

(** *** Characters of a link *)

Fixpoint occurrences (c : ascii) (s : string) : nat :=
  match s with
  | EmptyString => 0
  | String a r => (if Ascii.eqb a c then 1 else 0) + occurrences c r
  end.

Fixpoint all_chars (p : ascii -> bool) (s : string) : bool :=
  match s with
  | EmptyString => true
  | String a r => p a && all_chars p r
  end.

(** The characters of an escaped component: the unreserved ones and [%]. *)
Definition escaped_char (a : ascii) : bool :=
  JSString.unreserved a || Ascii.eqb a "%".

(** ** More samples *)

Module MoreSamples.

Local Open Scope float_scope.

(** The geometry of an STL file with no triangle: its bounding box is the
    empty one, from [+Infinity] to [-Infinity]. *)
Definition no_triangle : Three.BufferGeometry :=
  {| Three.boundingBox :=
       {| Three.min := Three.vec3 infinity infinity infinity;
          Three.max := Three.vec3 neg_infinity neg_infinity neg_infinity |} |}.

(** Two files are chosen one after the other, and the read of the first,
    the cube, has ended; the read of the second is still to end. *)
Definition first_of_two_reads : list Event :=
  [ FileChosen (Some Sample.cube_stl); FileChosen (Some Sample.cube_stl);
    FileRead (Some Sample.cube) ].

(** A file of 2.5 MB. *)
Definition bracket_stl : File := {| file_name := "bracket.stl"; file_size := 2621440 |}.

(** The first mesh that the script creates, when it is the cube: the
    identities 0 to 3 go to the scene, the camera, the renderer and the
    controls. *)
Definition first_cube : Three.Mesh :=
  {| Three.mesh_id := 4; Three.geometry := Sample.cube;
     Three.material :=
       {| Three.material_color := 0xcccccc; Three.metalness := 0.1;
          Three.roughness := 0.75 |} |}.

(** Two uploads, one after the other. *)
Definition two_uploads : list Event :=
  [ FileChosen (Some Sample.cube_stl); FileRead (Some Sample.cube);
    FileChosen (Some bracket_stl); FileRead (Some Sample.plate) ].

(** A colour that tries to add a recipient to the link. *)
Definition sly_color : string := "red&cc=someone@example.com?x".

End MoreSamples.

(** ** Proof tools *)

Arguments prompt_upload : simpl never.
Arguments prompt_material : simpl never.
Arguments estimate_html : simpl never.
Arguments quote_subject : simpl never.
Arguments quote_body : simpl never.
Arguments mailto : simpl never.
Arguments toFixed2 : simpl never.
Arguments toString : simpl never.
Arguments density_of : simpl never.
Arguments color_of : simpl never.
Arguments estimate_volume : simpl never.
Arguments updateCostAndEmail : simpl never.
Arguments PrimFloat.leb : simpl never.
Arguments PrimFloat.ltb : simpl never.

(** Unfolds [reader.onload] down to [updateCostAndEmail]. *)
Ltac unfold_onload :=
  unfold reader_onload, onload_try, fitCameraToObject, initThreeJS, animate,
    controls_update.

Ltac open_state s :=
  destruct s as [[sc cam ren ctl mesh vol fname]
                 [info view msg color material cost link status]
                 [inits next gone errs anim resize]].

(** * Facts *)

(** ** Trimming *)

Module TrimFacts.

Import JSString.
Local Open Scope list_scope.

Lemma strip_prefix_Some (p l r : list ascii) :
  strip_prefix p l = Some r <-> l = p ++ r.
Proof.
  revert l. induction p as [ | a p IH]; intros l; simpl.
  - split; congruence.
  - destruct l as [ | b l]; [split; discriminate | ].
    destruct (Ascii.eqb_spec a b) as [-> | Hab].
    + rewrite IH. split; congruence.
    + split; congruence.
Qed.

Lemma strip_any_Some (ps : list (list ascii)) (l r : list ascii) :
  strip_any ps l = Some r -> exists p, In p ps /\ l = p ++ r.
Proof.
  induction ps as [ | q ps IH]; simpl; [discriminate | ].
  destruct (strip_prefix q l) as [r' | ] eqn:E.
  - intros [= ->]. exists q. apply strip_prefix_Some in E. auto.
  - intros H. destruct (IH H) as (p & Hp & ->). eauto.
Qed.

Lemma strip_any_None (ps : list (list ascii)) (l : list ascii) :
  strip_any ps l = None -> forall p r, In p ps -> l <> p ++ r.
Proof.
  induction ps as [ | q ps IH]; simpl; [tauto | ].
  destruct (strip_prefix q l) as [r' | ] eqn:E; [discriminate | ].
  intros H p r [-> | Hp] Hl.
  - apply strip_prefix_Some in Hl. congruence.
  - exact (IH H p r Hp Hl).
Qed.

Lemma concat_of_app (ps : list (list ascii)) (u v : list ascii) :
  concat_of ps u -> concat_of ps v -> concat_of ps (u ++ v).
Proof.
  induction 1 as [ | p l Hp Hl IH]; intros Hv; [exact Hv | ].
  rewrite <- app_assoc. constructor; auto.
Qed.

Lemma concat_of_one (ps : list (list ascii)) (p : list ascii) :
  In p ps -> concat_of ps p.
Proof.
  intros Hp. rewrite <- (app_nil_r p). constructor; [exact Hp | constructor].
Qed.

Lemma concat_of_rev (ps : list (list ascii)) (w : list ascii) :
  concat_of (map (@rev ascii) ps) w -> concat_of ps (rev w).
Proof.
  induction 1 as [ | p l Hp Hl IH]; [constructor | ].
  rewrite rev_app_distr. apply concat_of_app; [exact IH | ].
  apply in_map_iff in Hp. destruct Hp as (q & <- & Hq).
  rewrite rev_involutive. apply concat_of_one, Hq.
Qed.

(** What [strip_leading] drops is a concatenation of members of [ps]. *)
Lemma strip_leading_split (ps : list (list ascii)) (fuel : nat) (l : list ascii) :
  exists w, concat_of ps w /\ l = w ++ strip_leading ps fuel l.
Proof.
  revert l. induction fuel as [ | fuel IH]; intros l; simpl.
  - exists []. split; [constructor | reflexivity].
  - destruct (strip_any ps l) as [r | ] eqn:E.
    + destruct (strip_any_Some _ _ _ E) as (p & Hp & ->).
      destruct (IH r) as (w & Hw & Hr).
      exists (p ++ w). split; [constructor; assumption | ].
      rewrite <- app_assoc. congruence.
    + exists []. split; [constructor | reflexivity].
Qed.

Lemma prefix_free_unique (ps : list (list ascii)) :
  nonempty_prefix_free ps = true ->
  forall p q r r', In p ps -> In q ps -> p ++ r = q ++ r' -> p = q /\ r = r'.
Proof.
  unfold nonempty_prefix_free. rewrite forallb_forall. intros H p q r r' Hp Hq E.
  assert (Hfree : forall a b t, In a ps -> In b ps -> b = a ++ t -> t = []).
  { intros a b t Ha Hb ->. specialize (H a Ha). destruct a as [ | c a]; [discriminate | ].
    rewrite forallb_forall in H. specialize (H _ Hb).
    destruct (strip_prefix (c :: a) ((c :: a) ++ t)) as [u | ] eqn:Eu.
    - apply strip_prefix_Some in Eu. apply app_inv_head in Eu. subst u.
      destruct t; [reflexivity | discriminate].
    - assert (Hs : strip_prefix (c :: a) ((c :: a) ++ t) = Some t)
        by (apply strip_prefix_Some; reflexivity).
      congruence. }
  apply app_eq_app in E. destruct E as (t & [[-> ->] | [-> ->]]).
  - rewrite (Hfree q (q ++ t) t Hq Hp eq_refl). rewrite app_nil_r. auto.
  - rewrite (Hfree p (p ++ t) t Hp Hq eq_refl). rewrite app_nil_r. auto.
Qed.

(** With fuel for every character, [strip_leading] drops the whole of a
    concatenation of members of [ps]. *)
Lemma strip_leading_all (ps : list (list ascii)) (fuel : nat) (l : list ascii) :
  nonempty_prefix_free ps = true ->
  concat_of ps l -> List.length l <= fuel -> strip_leading ps fuel l = [].
Proof.
  intros Hps. revert l. induction fuel as [ | fuel IH]; intros l Hl Hlen.
  - destruct l; [reflexivity | simpl in Hlen; lia].
  - simpl. destruct Hl as [ | p l Hp Hl].
    + destruct (strip_any ps []) as [r | ] eqn:E; [ | reflexivity].
      destruct (strip_any_Some _ _ _ E) as (p & Hp & Hnil).
      symmetry in Hnil. apply app_eq_nil in Hnil. destruct Hnil as [-> ->].
      unfold nonempty_prefix_free in Hps. rewrite forallb_forall in Hps.
      specialize (Hps _ Hp). discriminate.
    + destruct (strip_any ps (p ++ l)) as [r | ] eqn:E.
      * destruct (strip_any_Some _ _ _ E) as (q & Hq & Hr).
        destruct (prefix_free_unique ps Hps p q l r Hp Hq Hr) as [-> ->].
        apply IH; [exact Hl | ].
        assert (q <> []).
        { unfold nonempty_prefix_free in Hps. rewrite forallb_forall in Hps.
          specialize (Hps _ Hq). destruct q; [discriminate | discriminate]. }
        rewrite length_app in Hlen. destruct q; [congruence | simpl in Hlen; lia].
      * exfalso. exact (strip_any_None _ _ E p l Hp eq_refl).
Qed.

Lemma whitespace_prefix_free : nonempty_prefix_free whitespace = true.
Proof. vm_compute. reflexivity. Qed.

Lemma string_of_list_ascii_nil (l : list ascii) :
  string_of_list_ascii l = EmptyString <-> l = [].
Proof. destruct l; simpl; split; congruence. Qed.

(** [trim] leaves nothing exactly of the strings of white space only. *)
Lemma trim_empty_iff (v : string) : trim v = EmptyString <-> only_whitespace v.
Proof.
  unfold trim, only_whitespace. rewrite string_of_list_ascii_nil.
  set (l := list_ascii_of_string v). split.
  - unfold trimEnd_chars. intros H.
    apply (f_equal (@rev ascii)) in H. rewrite rev_involutive in H.
    change (rev []) with (@nil ascii) in H.
    destruct (strip_leading_split whitespace (List.length l) l) as (w & Hw & Hl).
    fold (trimStart_chars l) in Hl, H.
    destruct (strip_leading_split (map (@rev ascii) whitespace)
                (List.length (trimStart_chars l)) (rev (trimStart_chars l)))
      as (w' & Hw' & Hl').
    rewrite H, app_nil_r in Hl'. subst w'.
    apply concat_of_rev in Hw'. rewrite rev_involutive in Hw'.
    rewrite Hl. apply concat_of_app; assumption.
  - intros H. unfold trimStart_chars.
    rewrite (strip_leading_all whitespace _ l whitespace_prefix_free H (le_n _)).
    reflexivity.
Qed.

Lemma only_whitespace_dec (v : string) : {only_whitespace v} + {~ only_whitespace v}.
Proof.
  destruct (string_dec (trim v) EmptyString) as [E | E].
  - left. apply trim_empty_iff, E.
  - right. intros H. apply E, trim_empty_iff, H.
Qed.

End TrimFacts.

(** ** Floating-point numbers *)

Module FloatFacts.

Import JSNumber.
Local Open Scope float_scope.

Lemma Prim2SF_zero : Prim2SF 0 = S754_zero false.
Proof. reflexivity. Qed.

Lemma ltb_zero_sf (v : float) : (v <? 0) = negb (sf_not_negative (Prim2SF v)).
Proof.
  rewrite ltb_spec, Prim2SF_zero.
  destruct (Prim2SF v) as [s | s | | s m e]; try destruct s; reflexivity.
Qed.

Lemma SFcompare_refl (f : spec_float) : f <> S754_nan -> SFcompare f f = Some Eq.
Proof.
  destruct f as [s | s | | s m e]; try destruct s; simpl; intros H; try reflexivity;
    try congruence; rewrite Z.compare_refl, Pos.compare_cont_refl; reflexivity.
Qed.

Lemma is_nan_sf (v : float) :
  is_nan v = match Prim2SF v with S754_nan => true | _ => false end.
Proof.
  unfold is_nan. rewrite eqb_spec. unfold SFeqb.
  destruct (Prim2SF v) as [s | s | | s m e] eqn:E; try reflexivity;
    rewrite SFcompare_refl by discriminate; reflexivity.
Qed.

(** Not negative: not below zero. *)
Lemma not_negative_iff (v : float) : not_negative v <-> (v <? 0) = false.
Proof.
  unfold not_negative. rewrite is_nan_sf, ltb_zero_sf, leb_spec, Prim2SF_zero.
  destruct (Prim2SF v) as [s | s | | s m e]; try destruct s; cbv; intuition congruence.
Qed.

Lemma not_negative_sf (v : float) :
  not_negative v <-> sf_not_negative (Prim2SF v) = true.
Proof. rewrite not_negative_iff, ltb_zero_sf, negb_false_iff. reflexivity. Qed.

(** Rounding keeps the sign it is given. *)
Lemma binary_round_aux_sign (m e : Z) (l : location) :
  sf_not_negative (binary_round_aux prec emax false m e l) = true.
Proof.
  unfold binary_round_aux.
  destruct (shr_fexp prec emax m e l) as [mrs' e'].
  destruct (shr_fexp prec emax _ e' loc_Exact) as [mrs'' e''].
  destruct (shr_m mrs''); try reflexivity.
  destruct (e'' <=? emax - prec)%Z; reflexivity.
Qed.

Lemma SFmul_sign (a b : spec_float) :
  sf_not_negative a = true -> sf_not_negative b = true ->
  sf_not_negative (SF64mul a b) = true.
Proof.
  destruct a as [sa | sa | | sa ma ea], b as [sb | sb | | sb mb eb]; simpl;
    intros Ha Hb; try reflexivity;
    try (apply negb_true_iff in Ha; subst sa);
    try (apply negb_true_iff in Hb; subst sb);
    try reflexivity; try (destruct sa; reflexivity); try (destruct sb; reflexivity).
  apply binary_round_aux_sign.
Qed.

Lemma SFdiv_sign (a : spec_float) (m : positive) (e : Z) :
  sf_not_negative a = true ->
  sf_not_negative (SF64div a (S754_finite false m e)) = true.
Proof.
  destruct a as [sa | sa | | sa ma ea]; simpl; intros Ha; try reflexivity;
    try (apply negb_true_iff in Ha; subst sa); try reflexivity.
  destruct (SFdiv_core_binary prec emax (Z.pos ma) ea (Z.pos m) e) as [[mz ez] lz].
  apply binary_round_aux_sign.
Qed.

Lemma mul_not_negative (a b : float) :
  not_negative a -> not_negative b -> not_negative (a * b).
Proof. rewrite !not_negative_sf, mul_spec. apply SFmul_sign. Qed.

Lemma div_1000_not_negative (a : float) : not_negative a -> not_negative (a / 1000).
Proof.
  rewrite !not_negative_sf, div_spec.
  change (Prim2SF 1000) with (S754_finite false 8796093022208000 (-43)).
  apply SFdiv_sign.
Qed.

Lemma zero_not_negative : not_negative 0.
Proof. right. reflexivity. Qed.

Lemma nan_not_nonnegative : (0 <=? nan) = false.
Proof. reflexivity. Qed.

(** A number that does not compare [<= 0] is positive or NaN. *)
Lemma leb_zero_false (d : float) : (d <=? 0) = false -> not_negative d.
Proof.
  rewrite not_negative_iff, ltb_spec, leb_spec. unfold SFltb, SFleb.
  destruct (SFcompare (Prim2SF d) (Prim2SF 0)) as [[ | | ] | ]; simpl; congruence.
Qed.

Lemma ltb_zero_true (d : float) : (0 <? d) = true -> (d <=? 0) = false.
Proof.
  rewrite ltb_spec, leb_spec, Prim2SF_zero.
  destruct (Prim2SF d) as [s | s | | s m e]; try destruct s; cbv; congruence.
Qed.

Lemma positive_or_nan (d : float) :
  (d <=? 0) = false -> (0 <? d) = true \/ is_nan d = true.
Proof.
  rewrite leb_spec, ltb_spec, is_nan_sf, Prim2SF_zero.
  destruct (Prim2SF d) as [s | s | | s m e]; try destruct s; cbv; auto; discriminate.
Qed.

(** *** The sign of a difference *)

Lemma digits2_pos_bounds (m : positive) :
  (2 ^ (Z.pos (digits2_pos m) - 1) <= Z.pos m < 2 ^ Z.pos (digits2_pos m))%Z.
Proof.
  induction m as [p IH | p IH | ]; simpl digits2_pos.
  - rewrite Pos2Z.inj_succ, (Pos2Z.inj_xI p).
    replace (Z.succ (Z.pos (digits2_pos p)) - 1)%Z
      with (Z.succ (Z.pos (digits2_pos p) - 1)) by lia.
    rewrite !Z.pow_succ_r by lia. lia.
  - rewrite Pos2Z.inj_succ, (Pos2Z.inj_xO p).
    replace (Z.succ (Z.pos (digits2_pos p)) - 1)%Z
      with (Z.succ (Z.pos (digits2_pos p) - 1)) by lia.
    rewrite !Z.pow_succ_r by lia. lia.
  - simpl. lia.
Qed.

Lemma iter_xO_value (m p : positive) :
  Z.pos (Pos.iter xO m p) = (Z.pos m * 2 ^ Z.pos p)%Z.
Proof.
  induction p as [ | p IH] using Pos.peano_ind.
  - simpl. lia.
  - rewrite Pos.iter_succ, (Pos2Z.inj_xO (Pos.iter xO m p)), IH, Pos2Z.inj_succ,
      Z.pow_succ_r by lia. lia.
Qed.

Lemma shl_align_value (m : positive) (e ez : Z) :
  (ez <= e)%Z -> Z.pos (fst (shl_align m e ez)) = (Z.pos m * 2 ^ (e - ez))%Z.
Proof.
  intros H. unfold shl_align. destruct (ez - e)%Z as [ | p | p] eqn:E.
  - replace (e - ez)%Z with 0%Z by lia. simpl. lia.
  - lia.
  - replace (e - ez)%Z with (Z.pos p) by lia. apply iter_xO_value.
Qed.

(** A valid mantissa has at most 53 digits, and exactly 53 above the least
    exponent. *)
Lemma bounded_digits (m : positive) (e : Z) :
  bounded prec emax m e = true ->
  (-1074 <= e /\ Z.pos m < 2 ^ 53 /\ (-1074 < e -> 2 ^ 52 <= Z.pos m))%Z.
Proof.
  unfold bounded, canonical_mantissa, fexp, emin, prec, emax.
  intros H. apply andb_true_iff in H. destruct H as [H _]. apply Z.eqb_eq in H.
  pose proof (digits2_pos_bounds m) as [Hlo Hhi].
  set (d := Z.pos (digits2_pos m)) in *.
  assert (Hd : (0 < d)%Z) by (unfold d; lia).
  split; [lia | split].
  - assert (d <= 53)%Z by lia.
    apply Z.lt_le_trans with (1 := Hhi). apply Z.pow_le_mono_r; lia.
  - intros He. assert (d = 53)%Z by lia.
    replace 52%Z with (d - 1)%Z by lia. exact Hlo.
Qed.

Lemma aligned_order (mx my : positive) (ex ey : Z) :
  bounded prec emax mx ex = true -> bounded prec emax my ey = true ->
  (ey < ex)%Z ->
  (Z.pos my * 2 ^ (ey - Z.min ex ey) <= Z.pos mx * 2 ^ (ex - Z.min ex ey))%Z.
Proof.
  intros Hx Hy Hlt.
  destruct (bounded_digits _ _ Hx) as (_ & _ & Hmx).
  destruct (bounded_digits _ _ Hy) as (Hey & Hmy & _).
  rewrite Z.min_r by lia. rewrite Z.sub_diag. simpl (2 ^ 0)%Z.
  assert (H2 : (2 ^ 1 <= 2 ^ (ex - ey))%Z) by (apply Z.pow_le_mono_r; lia).
  specialize (Hmx ltac:(lia)). simpl (2 ^ 1)%Z in H2.
  change (2 ^ 53)%Z with 9007199254740992%Z in Hmy.
  change (2 ^ 52)%Z with 4503599627370496%Z in Hmx.
  nia.
Qed.

Lemma binary_normalize_sign (m e : Z) :
  (0 <= m)%Z -> sf_not_negative (binary_normalize prec emax m e false) = true.
Proof.
  intros H. destruct m as [ | p | p]; simpl; [reflexivity | | lia].
  unfold binary_round. destruct (shl_align p e _) as [mz ez].
  apply binary_round_aux_sign.
Qed.

Lemma SFsub_finite_sign (sx : bool) (mx : positive) (ex : Z) (sy : bool)
  (my : positive) (ey : Z) :
  bounded prec emax mx ex = true -> bounded prec emax my ey = true ->
  SFltb (S754_finite sx mx ex) (S754_finite sy my ey) = false ->
  sf_not_negative (SF64sub (S754_finite sx mx ex) (S754_finite sy my ey)) = true.
Proof.
  intros Hx Hy Hlt. unfold SF64sub, SFsub.
  apply binary_normalize_sign.
  rewrite !shl_align_value by lia.
  assert (Hpx : (0 < 2 ^ (ex - Z.min ex ey))%Z) by (apply Z.pow_pos_nonneg; lia).
  assert (Hpy : (0 < 2 ^ (ey - Z.min ex ey))%Z) by (apply Z.pow_pos_nonneg; lia).
  unfold SFltb, SFcompare in Hlt.
  destruct sx, sy; cbv beta iota delta [cond_Zopp].
  - (* both negative *)
    destruct (Z.compare_spec ex ey) as [E | E | E]; try discriminate.
    + subst ey. rewrite Z.min_id, Z.sub_diag. simpl (2 ^ 0)%Z.
      change (Pos.compare_cont Eq mx my) with (Pos.compare mx my) in Hlt.
      destruct (Pos.compare_spec mx my); simpl in Hlt; try discriminate; lia.
    + pose proof (aligned_order my mx ey ex Hy Hx E) as H.
      rewrite Z.min_comm in H. lia.
  - discriminate.
  - nia.
  - (* both positive *)
    destruct (Z.compare_spec ex ey) as [E | E | E]; try discriminate.
    + subst ey. rewrite Z.min_id, Z.sub_diag. simpl (2 ^ 0)%Z.
      change (Pos.compare_cont Eq mx my) with (Pos.compare mx my) in Hlt.
      destruct (Pos.compare_spec mx my); simpl in Hlt; try discriminate; lia.
    + pose proof (aligned_order mx my ex ey Hx Hy E) as H. lia.
Qed.

(** When [a] is not below [b], [a - b] is not below zero. *)
Lemma sub_not_negative (a b : float) : (a <? b) = false -> not_negative (a - b).
Proof.
  rewrite not_negative_sf, ltb_spec, sub_spec.
  pose proof (Prim2SF_valid a) as Ha. pose proof (Prim2SF_valid b) as Hb.
  destruct (Prim2SF a) as [sa | sa | | sa ma ea], (Prim2SF b) as [sb | sb | | sb mb eb];
    try (intros H; apply SFsub_finite_sign; assumption);
    try destruct sa; try destruct sb; cbv; congruence.
Qed.

End FloatFacts.

(** ** The script *)

Section ScriptFacts.

Context (host : Host).

Local Open Scope float_scope.

(** *** [updateCostAndEmail] writes the display and nothing else *)

Lemma update_vars (s : State) : vars (updateCostAndEmail host s) = vars s.
Proof.
  unfold updateCostAndEmail.
  destruct (_ || _); [reflexivity | ]. destruct (_ || _); reflexivity.
Qed.

Lemma update_effects (s : State) : effects (updateCostAndEmail host s) = effects s.
Proof.
  unfold updateCostAndEmail.
  destruct (_ || _); [reflexivity | ]. destruct (_ || _); reflexivity.
Qed.

Lemma update_page (s : State) :
  let p := page s in
  let p' := page (updateCostAndEmail host s) in
  fileInfo p' = fileInfo p /\ viewer p' = viewer p /\ viewerMessage p' = viewerMessage p
  /\ colorInput p' = colorInput p /\ materialInput p' = materialInput p.
Proof.
  unfold updateCostAndEmail.
  destruct (_ || _); [repeat split | ]. destruct (_ || _); repeat split.
Qed.

(** The display that [updateCostAndEmail] writes depends on the mesh, the
    volume, the file name and the two inputs only. *)
Lemma display_update_ext (s1 s2 : State) :
  currentMesh (vars s1) = currentMesh (vars s2) ->
  modelVolumeCm3 (vars s1) = modelVolumeCm3 (vars s2) ->
  loadedFileName (vars s1) = loadedFileName (vars s2) ->
  colorInput (page s1) = colorInput (page s2) ->
  materialInput (page s1) = materialInput (page s2) ->
  display (updateCostAndEmail host s1) = display (updateCostAndEmail host s2).
Proof.
  intros Hm Hv Hn Hc Hi. unfold display, updateCostAndEmail. rewrite Hm, Hv, Hn, Hc, Hi.
  destruct (_ || _); [reflexivity | ]. destruct (_ || _); reflexivity.
Qed.

Lemma update_in_sync (s : State) : in_sync host (updateCostAndEmail host s).
Proof.
  unfold in_sync. apply display_update_ext; try (rewrite update_vars; reflexivity);
    apply (update_page s).
Qed.

(** *** [resetState] *)

Lemma mesh_ids_remove (m : Three.Mesh) (sc : Three.Scene) :
  mesh_ids (Three.remove m sc)
  = filter (fun id => negb (Nat.eqb id (Three.mesh_id m))) (mesh_ids sc).
Proof.
  unfold mesh_ids, Three.remove. simpl Three.children.
  induction (Three.children sc) as [ | o l IH]; [reflexivity | ].
  destruct o as [c i | c i p | m']; simpl; try exact IH.
  destruct (Nat.eqb (Three.mesh_id m') (Three.mesh_id m)); simpl; [exact IH | ].
  f_equal. exact IH.
Qed.

Lemma mesh_ids_add (m : Three.Mesh) (sc : Three.Scene) :
  mesh_ids (Three.add (Three.MeshObject m) sc) = (mesh_ids sc ++ [Three.mesh_id m])%list.
Proof.
  unfold mesh_ids, Three.add. simpl Three.children.
  rewrite flat_map_app. reflexivity.
Qed.

Lemma reset_returns (s : State) :
  context_ok s -> resetState host s = Returned (final (resetState host s)).
Proof.
  open_state s. unfold context_ok, resetState. simpl.
  destruct sc, mesh, ren, cam, ctl; simpl; try tauto; intros; reflexivity.
Qed.

Lemma reset_context_ok (s : State) : context_ok s -> context_ok (final (resetState host s)).
Proof.
  open_state s. unfold context_ok, resetState. simpl.
  destruct sc, mesh, ren, cam, ctl; simpl; tauto.
Qed.

Lemma reset_vars (s : State) :
  context_ok s ->
  let s' := final (resetState host s) in
  modelVolumeCm3 (vars s') = 0 /\ loadedFileName (vars s') = EmptyString
  /\ currentMesh (vars s') = None.
Proof.
  open_state s. unfold context_ok, resetState. simpl.
  destruct sc, mesh, ren, cam, ctl; simpl; try tauto; intros [H _] || intros _;
    repeat split; try reflexivity; try exact H.
Qed.

Lemma reset_in_sync (s : State) : context_ok s -> in_sync host (final (resetState host s)).
Proof.
  open_state s. unfold context_ok, in_sync, display, updateCostAndEmail, resetState. simpl.
  destruct sc, mesh, ren, cam, ctl; simpl; try tauto; intros [-> _] || intros _;
    try reflexivity.
Qed.

Lemma reset_meshes_ok (s : State) :
  context_ok s -> meshes_ok s -> meshes_ok (final (resetState host s)).
Proof.
  open_state s. unfold context_ok, meshes_ok, resetState. simpl.
  destruct sc as [sc | ], mesh as [m | ], ren, cam, ctl; simpl;
    try tauto; intros Hc [Hs Hm]; (split; [ | try discriminate]).
  intros sc' [= <-]. destruct (Hs sc eq_refl) as [Hnd Hlt].
  rewrite mesh_ids_remove. split; [apply NoDup_filter, Hnd | ].
  intros id Hid. apply filter_In in Hid. apply Hlt, Hid.
Qed.

(** All that [resetState] does to a state whose rendering context is whole
    or absent. *)
Lemma reset_spec (s : State) :
  context_ok s ->
  let s' := final (resetState host s) in
  (camera (vars s') = camera (vars s) /\ renderer (vars s') = renderer (vars s)
   /\ controls (vars s') = controls (vars s)
   /\ scene (vars s')
      = match currentMesh (vars s) with
        | Some m => option_map (Three.remove m) (scene (vars s))
        | None => scene (vars s)
        end)
  /\ (disposed (effects s')
      = (disposed (effects s)
         ++ match currentMesh (vars s) with
            | Some m => [Three.GeometryOf (Three.mesh_id m); Three.MaterialOf (Three.mesh_id m)]
            | None => []
            end)%list
     /\ initCalls (effects s') = initCalls (effects s)
     /\ nextId (effects s') = nextId (effects s)
     /\ console_errors (effects s') = console_errors (effects s))
  /\ (display s' = (prompt_upload host, {| href := None; class_disabled := true |}, EmptyString)
     /\ colorInput (page s') = {| input_value := EmptyString; input_disabled := true |}
     /\ materialInput (page s') = {| selected := placeholder host; select_disabled := true |}
     /\ fileInfo (page s') = fileInfo (page s)
     /\ viewerMessage (page s')
        = if is_null (renderer (vars s)) then "Please upload an STL file to view."%string
          else EmptyString).
Proof.
  open_state s. unfold context_ok, resetState. simpl.
  destruct sc, mesh, ren, cam, ctl; simpl; try tauto; intros [H _] || intros _;
    try discriminate H; rewrite <- ?app_assoc, ?app_nil_r; repeat split.
Qed.

(** *** A successful read *)

Lemma context_ok_update (s : State) :
  context_ok (updateCostAndEmail host s) <-> context_ok s.
Proof. unfold context_ok. rewrite update_vars, update_effects. reflexivity. Qed.

Lemma meshes_ok_update (s : State) :
  meshes_ok (updateCostAndEmail host s) <-> meshes_ok s.
Proof. unfold meshes_ok. rewrite update_vars, update_effects. reflexivity. Qed.

Lemma meshes_ok_add (sc : Three.Scene) (m : Three.Mesh) (next : nat) :
  NoDup (mesh_ids sc) -> (forall id, In id (mesh_ids sc) -> id < next)%nat ->
  (next <= Three.mesh_id m)%nat ->
  NoDup (mesh_ids (Three.add (Three.MeshObject m) sc))
  /\ forall id, In id (mesh_ids (Three.add (Three.MeshObject m) sc)) ->
       (id < S (Three.mesh_id m))%nat.
Proof.
  intros Hnd Hlt Hm. rewrite mesh_ids_add. split.
  - apply NoDup_app; [exact Hnd | repeat constructor; simpl; tauto | ].
    intros id Hid [<- | []]. apply Hlt in Hid. lia.
  - intros id Hid. apply in_app_iff in Hid. destruct Hid as [Hid | [<- | []]].
    + apply Hlt in Hid. lia.
    + lia.
Qed.

(** After a read that the loader parses, the listener ends in
    [updateCostAndEmail], run on a state [s1] that holds the new mesh and
    its volume. *)
Lemma onload_parsed (s : State) (g : Three.BufferGeometry) :
  context_ok s -> meshes_ok s ->
  exists s1 m,
    reader_onload host (Some g) s = Returned (updateCostAndEmail host s1)
    /\ context_ok s1 /\ meshes_ok s1
    /\ currentMesh (vars s1) = Some m /\ Three.geometry m = g
    /\ modelVolumeCm3 (vars s1) = estimate_volume (Three.getSize (Three.boundingBox g))
    /\ loadedFileName (vars s1) = loadedFileName (vars s)
    /\ initCalls (effects s1) = 1%nat
    /\ disposed (effects s1) = disposed (effects s)
    /\ (scene (vars s) <> None -> identities s1 = identities s).
Proof.
  open_state s. unfold context_ok, meshes_ok. simpl.
  destruct sc as [sc | ], cam as [cam | ], ren as [ren | ], ctl as [ctl | ]; try tauto.
  - intros Hi [Hs Hm]. destruct (Hs sc eq_refl) as [Hnd Hlt].
    unfold_onload. simpl.
    eexists. eexists. split; [reflexivity | ]. simpl.
    repeat split; try assumption; try reflexivity;
      try (match goal with H : Some _ = Some _ |- _ => injection H as <- end).
    + match goal with |- context [Three.MeshObject ?m] =>
        exact (proj1 (meshes_ok_add sc m next Hnd Hlt (le_n _))) end.
    + match goal with |- context [Three.MeshObject ?m] =>
        exact (proj2 (meshes_ok_add sc m next Hnd Hlt (le_n _))) end.
    + intros m' [= <-]. eexists. split; [reflexivity | ].
      unfold Three.add. simpl. apply in_app_iff. right. left. reflexivity.
  - intros [-> ->] [Hs Hm].
    unfold_onload. simpl.
    eexists. eexists. split; [reflexivity | ]. simpl.
    repeat split; try assumption; try reflexivity; try congruence;
      try (match goal with H : Some _ = Some _ |- _ => injection H as <- end).
    + unfold mesh_ids. simpl. repeat constructor; simpl; tauto.
    + unfold mesh_ids. simpl. intros id [<- | []]. lia.
    + intros m' [= <-]. eexists. split; [reflexivity | ].
      unfold Three.add. simpl. tauto.
Qed.

(** *** The volume estimate is not negative *)

Lemma getSize_not_negative (b : Three.Box3) :
  let size := Three.getSize b in
  JSNumber.not_negative (Three.x size) /\ JSNumber.not_negative (Three.y size)
  /\ JSNumber.not_negative (Three.z size).
Proof.
  unfold Three.getSize, Three.isEmpty.
  destruct (Three.x (Three.max b) <? Three.x (Three.min b)) eqn:Hx;
    [simpl; repeat split; apply FloatFacts.zero_not_negative | ].
  destruct (Three.y (Three.max b) <? Three.y (Three.min b)) eqn:Hy;
    [simpl; repeat split; apply FloatFacts.zero_not_negative | ].
  destruct (Three.z (Three.max b) <? Three.z (Three.min b)) eqn:Hz;
    [simpl; repeat split; apply FloatFacts.zero_not_negative | ].
  simpl. repeat split; apply FloatFacts.sub_not_negative; assumption.
Qed.

Lemma estimate_volume_not_negative (b : Three.Box3) :
  JSNumber.not_negative (estimate_volume (Three.getSize b)).
Proof.
  destruct (getSize_not_negative b) as (Hx & Hy & Hz). unfold estimate_volume.
  apply FloatFacts.mul_not_negative; [ | right; reflexivity].
  apply FloatFacts.div_1000_not_negative.
  repeat apply FloatFacts.mul_not_negative; assumption.
Qed.

(** *** A frame of the animation *)

(** A frame moves and turns the camera, and nothing else; the loop goes on
    when there is a renderer. *)
Lemma frame_spec (s : State) :
  let s' := step host s AnimationFrame in
  page s' = page s
  /\ (scene (vars s') = scene (vars s) /\ renderer (vars s') = renderer (vars s)
      /\ controls (vars s') = controls (vars s)
      /\ currentMesh (vars s') = currentMesh (vars s)
      /\ modelVolumeCm3 (vars s') = modelVolumeCm3 (vars s)
      /\ loadedFileName (vars s') = loadedFileName (vars s))
  /\ (initCalls (effects s') = initCalls (effects s)
      /\ nextId (effects s') = nextId (effects s)
      /\ disposed (effects s') = disposed (effects s)
      /\ console_errors (effects s') = console_errors (effects s)
      /\ resizeListener (effects s') = resizeListener (effects s))
  /\ animating (effects s') = animating (effects s) && negb (is_null (renderer (vars s)))
  /\ match camera (vars s), camera (vars s') with
     | Some cam, Some cam' =>
         Three.camera_id cam' = Three.camera_id cam /\ Three.fov cam' = Three.fov cam
         /\ Three.aspect cam' = Three.aspect cam /\ Three.near cam' = Three.near cam
         /\ Three.far cam' = Three.far cam
     | None, None => True
     | _, _ => False
     end.
Proof.
  open_state s. unfold step, handle, animate, controls_update. simpl.
  destruct anim, ren, ctl, cam; simpl; repeat split.
Qed.

(** *** The invariant *)

Lemma invariant_reset (s : State) :
  context_ok s -> meshes_ok s -> invariant host (final (resetState host s)).
Proof.
  intros Hc Hm. destruct (reset_vars s Hc) as (Hv & Hn & _).
  split; [apply reset_context_ok, Hc | ].
  split; [exact Hn | ].
  split; [apply reset_in_sync, Hc | ].
  split; [apply reset_meshes_ok; assumption | ].
  rewrite Hv. apply FloatFacts.zero_not_negative.
Qed.

Lemma invariant_initial : invariant host (initial host).
Proof.
  apply invariant_reset.
  - split; reflexivity.
  - split; intros ? H; discriminate H.
Qed.

Lemma invariant_update (s : State) :
  context_ok s -> loadedFileName (vars s) = EmptyString -> meshes_ok s ->
  JSNumber.not_negative (modelVolumeCm3 (vars s)) ->
  invariant host (updateCostAndEmail host s).
Proof.
  intros Hc Hn Hm Hv.
  split; [apply context_ok_update, Hc | ].
  split; [rewrite update_vars; exact Hn | ].
  split; [apply update_in_sync | ].
  split; [apply meshes_ok_update, Hm | ].
  rewrite update_vars. exact Hv.
Qed.

Lemma invariant_step (s : State) (e : Event) :
  invariant host s -> invariant host (step host s e).
Proof.
  intros (Hc & Hn & Hs & Hm & Hv).
  destruct e as [[file | ] | [g | ] | | value | option | w h | ]; unfold step, handle.
  - apply invariant_reset; [exact Hc | exact Hm].
  - split; [exact Hc | split; [exact Hn | split; [exact Hs | split; [exact Hm | exact Hv]]]].
  - destruct (onload_parsed s g Hc Hm) as (s1 & m & -> & Hc1 & Hm1 & _ & _ & Hv1 & Hn1 & _).
    apply invariant_update; try assumption.
    + congruence.
    + rewrite Hv1. apply estimate_volume_not_negative.
  - apply invariant_reset; [exact Hc | exact Hm].
  - apply invariant_reset; [exact Hc | exact Hm].
  - apply invariant_update; [exact Hc | exact Hn | exact Hm | exact Hv].
  - apply invariant_update; [exact Hc | exact Hn | exact Hm | exact Hv].
  - simpl final. set (s1 := upd_page _ s).
    assert (Hsync : forall s2,
      currentMesh (vars s2) = currentMesh (vars s) ->
      modelVolumeCm3 (vars s2) = modelVolumeCm3 (vars s) ->
      loadedFileName (vars s2) = loadedFileName (vars s) ->
      page s2 = page s1 -> in_sync host s2).
    { intros s2 H1 H2 H3 H4. unfold in_sync. etransitivity; [ | etransitivity; [exact Hs | ]].
      - apply display_update_ext; try assumption; rewrite H4; reflexivity.
      - unfold display. rewrite H4. reflexivity. }
    destruct (resizeListener (effects s)).
    + unfold onWindowResize. change (vars s1) with (vars s).
      destruct (camera (vars s)) as [cam | ] eqn:Ecam;
        [destruct (renderer (vars s)) as [ren | ] eqn:Eren | ].
      * split; [ | split; [exact Hn | split; [ | split; [exact Hm | exact Hv]]]].
        -- revert Hc. unfold context_ok. simpl. rewrite Ecam, Eren. tauto.
        -- apply Hsync; reflexivity.
      * split; [exact Hc | split; [exact Hn | split; [ | split; [exact Hm | exact Hv]]]].
        apply Hsync; reflexivity.
      * split; [exact Hc | split; [exact Hn | split; [ | split; [exact Hm | exact Hv]]]].
        apply Hsync; reflexivity.
    + split; [exact Hc | split; [exact Hn | split; [ | split; [exact Hm | exact Hv]]]].
      apply Hsync; reflexivity.
  - change (invariant host (step host s AnimationFrame)).
    destruct (frame_spec s)
      as (Hp & (Hsc & Hren & Hctl & Hmesh & Hvol & Hname) & (Hic & Hnx & _) & _ & Hcam).
    set (s' := step host s AnimationFrame) in *.
    split; [ | split; [rewrite Hname; exact Hn | split; [ | split; [ | rewrite Hvol; exact Hv]]]].
    + revert Hc. unfold context_ok. rewrite Hsc, Hren, Hctl, Hmesh, Hic.
      destruct (camera (vars s)), (camera (vars s')); tauto.
    + unfold in_sync. etransitivity; [ | etransitivity; [exact Hs | ]].
      * apply display_update_ext; congruence.
      * unfold display. rewrite Hp. reflexivity.
    + unfold meshes_ok. rewrite Hsc, Hmesh, Hnx. exact Hm.
Qed.

Lemma run_app (s : State) (l1 l2 : list Event) :
  run host s (l1 ++ l2) = run host (run host s l1) l2.
Proof. apply fold_left_app. Qed.

Lemma invariant_run (s : State) (events : list Event) :
  invariant host s -> invariant host (run host s events).
Proof.
  revert s. induction events as [ | e events IH]; intros s Hs; [exact Hs | ].
  apply IH, invariant_step, Hs.
Qed.

Lemma invariant_reachable (events : list Event) :
  invariant host (run host (initial host) events).
Proof. apply invariant_run, invariant_initial. Qed.

Lemma reachable_invariant (s : State) : reachable host s -> invariant host s.
Proof. intros (events & ->). apply invariant_reachable. Qed.

End ScriptFacts.

(** * The claims *)

Section Claims.

Context (host : Host).

Local Open Scope float_scope.

(** ** The three ends of [updateCostAndEmail] *)

Lemma truthy_iff (t : string) : JSString.truthy t = true <-> t <> EmptyString.
Proof. destruct t; simpl; split; congruence. Qed.

Lemma update_no_model (s : State) :
  is_null (currentMesh (vars s)) || (modelVolumeCm3 (vars s) <=? 0) = true ->
  display (updateCostAndEmail host s)
  = (prompt_upload host, {| href := None; class_disabled := true |}, EmptyString).
Proof. intros H. unfold updateCostAndEmail. rewrite H. reflexivity. Qed.

Lemma update_no_material (s : State) :
  let option := selected (materialInput (page s)) in
  is_null (currentMesh (vars s)) || (modelVolumeCm3 (vars s) <=? 0) = false ->
  negb (JSString.truthy (option_value option)) || (density_of host option <=? 0) = true ->
  display (updateCostAndEmail host s)
  = (prompt_material host, {| href := None; class_disabled := true |}, EmptyString).
Proof.
  intros option H1 H2. unfold updateCostAndEmail. fold option. rewrite H1, H2. reflexivity.
Qed.

Lemma update_estimate (s : State) :
  let volume := modelVolumeCm3 (vars s) in
  let option := selected (materialInput (page s)) in
  let density := density_of host option in
  let massGrams := volume * density in
  let estimatedCost := massGrams * COST_PER_GRAM in
  let fileName := loadedFileName (vars s) in
  is_null (currentMesh (vars s)) || (volume <=? 0) = false ->
  negb (JSString.truthy (option_value option)) || (density <=? 0) = false ->
  display (updateCostAndEmail host s)
  = (estimate_html host volume (option_value option) density massGrams estimatedCost,
     {| href := Some (mailto (quote_subject fileName)
                        (quote_body host fileName
                           (color_of (input_value (colorInput (page s))))
                           (option_value option) volume massGrams estimatedCost));
        class_disabled := false |},
     "Ready to generate email draft."%string).
Proof.
  intros volume option density massGrams estimatedCost fileName H1 H2.
  unfold updateCostAndEmail. fold volume option density. rewrite H1, H2. reflexivity.
Qed.

(** The first characters tell the estimate from the two prompts. *)
Lemma estimate_is_no_prompt (message : string) (volume : float) (materialName : string)
  (density massGrams estimatedCost : float) :
  estimate_html host volume materialName density massGrams estimatedCost
  <> cost_prompt host message.
Proof.
  intros H. apply (f_equal (String.get 0)) in H.
  unfold estimate_html, cost_prompt, JSString.LF in H. simpl in H. discriminate H.
Qed.

Lemma prompts_differ : prompt_upload host <> prompt_material host.
Proof.
  intros H. apply (f_equal (String.get 10)) in H.
  unfold prompt_upload, prompt_material, cost_prompt in H. simpl in H. discriminate H.
Qed.


(** ** C1: the volume estimate *)

(** C1.  A read that the STL loader parses stores, as the estimated volume
    in cm^3, the product of the three extents of the bounding box divided
    by 1000 and then multiplied by 0.4: whatever happened before, this is
    the volume held once the listener has run. *)
Theorem C1_volume_estimate (events : list Event) (geometry : Three.BufferGeometry) :
  let size := Three.getSize (Three.boundingBox geometry) in
  modelVolumeCm3 (vars (run host (initial host) (events ++ [FileRead (Some geometry)])))
  = Three.x size * Three.y size * Three.z size / 1000 * 0.4.
Proof.
  intros size. rewrite run_app. simpl run.
  destruct (invariant_reachable host events) as (Hc & _ & _ & Hm & _).
  unfold step, handle.
  destruct (onload_parsed host _ geometry Hc Hm) as (s1 & m & -> & _ & _ & _ & _ & Hv & _).
  simpl final. rewrite update_vars. exact Hv.
Qed.

(** ** C2: mass and cost *)

(** C2, amended.  With a mesh loaded whose volume does not compare [<= 0]
    and a material selected whose name is not empty and whose density is
    positive, [updateCostAndEmail] computes the mass [volume * density] and
    the cost [mass * 10], and these two products are what the estimate
    shows. *)
Theorem C2_mass_and_cost (s : State) :
  let volume := modelVolumeCm3 (vars s) in
  let option := selected (materialInput (page s)) in
  let density := density_of host option in
  let massGrams := volume * density in
  let estimatedCost := massGrams * 10 in
  let s' := updateCostAndEmail host s in
  currentMesh (vars s) <> None ->
  (volume <=? 0) = false ->
  option_value option <> EmptyString ->
  (0 <? density) = true ->
  costResult (page s')
  = estimate_html host volume (option_value option) density massGrams estimatedCost.
Proof.
  intros volume option density massGrams estimatedCost s' Hmesh Hvol Hname Hdensity.
  assert (H1 : is_null (currentMesh (vars s)) || (volume <=? 0) = false).
  { rewrite Hvol. destruct (currentMesh (vars s)); [reflexivity | congruence]. }
  assert (H2 : negb (JSString.truthy (option_value option)) || (density <=? 0) = false).
  { apply truthy_iff in Hname. rewrite Hname.
    rewrite (FloatFacts.ltb_zero_true _ Hdensity). reflexivity. }
  pose proof (update_estimate s H1 H2) as H. unfold display in H.
  injection H as Hc _ _. exact Hc.
Qed.

(** ** C3: nothing is negative *)

(** C3, amended.  In every reachable state the stored volume is not
    negative: it is NaN or compares at least zero.  When the page holds a
    link, it shows an estimate whose mass [volume * density] and whose cost
    [mass * COST_PER_GRAM] are not negative either. *)
Theorem C3_never_negative (events : list Event) :
  let s := run host (initial host) events in
  let volume := modelVolumeCm3 (vars s) in
  let option := selected (materialInput (page s)) in
  let density := density_of host option in
  let massGrams := volume * density in
  let estimatedCost := massGrams * COST_PER_GRAM in
  JSNumber.not_negative volume
  /\ (href (emailLink (page s)) <> None ->
      costResult (page s)
      = estimate_html host volume (option_value option) density massGrams estimatedCost
      /\ JSNumber.not_negative massGrams /\ JSNumber.not_negative estimatedCost).
Proof.
  intros s volume option density massGrams estimatedCost.
  destruct (invariant_reachable host events) as (_ & _ & Hs & _ & Hv).
  fold s in Hs, Hv. split; [exact Hv | ]. intros Hlink.
  unfold in_sync in Hs.
  destruct (is_null (currentMesh (vars s)) || (volume <=? 0)) eqn:H1.
  { rewrite (update_no_model s H1) in Hs. unfold display in Hs.
    injection Hs as _ Hl _. rewrite <- Hl in Hlink. simpl in Hlink. congruence. }
  destruct (negb (JSString.truthy (option_value option)) || (density <=? 0)) eqn:H2.
  { rewrite (update_no_material s H1 H2) in Hs. unfold display in Hs.
    injection Hs as _ Hl _. rewrite <- Hl in Hlink. simpl in Hlink. congruence. }
  rewrite (update_estimate s H1 H2) in Hs. unfold display in Hs.
  injection Hs as Hc _ _. split; [symmetry; exact Hc | ].
  apply orb_false_iff in H2. destruct H2 as [_ H2].
  assert (Hm : JSNumber.not_negative massGrams).
  { apply FloatFacts.mul_not_negative; [exact Hv | apply FloatFacts.leb_zero_false, H2]. }
  split; [exact Hm | ].
  apply FloatFacts.mul_not_negative; [exact Hm | right; reflexivity].
Qed.

(** ** C4: a malformed upload *)

(** C4.  When the STL loader throws, the listener logs the error, writes
    the load error to [#fileInfo] and resets the state: no mesh, a volume
    of zero, the prompt in place of an estimate, a link with no [href], the
    inputs emptied and disabled.  The scene, the camera, the renderer and
    the controls are the ones there were, and [initThreeJS] is not run. *)
Theorem C4_malformed_upload (events : list Event) :
  let s := run host (initial host) events in
  let s' := step host s (FileRead None) in
  (fileInfo (page s') = "File:  - Load Error"%string
   /\ console_errors (effects s')
      = (console_errors (effects s) ++ ["Error loading STL:"%string])%list)
  /\ (currentMesh (vars s') = None /\ modelVolumeCm3 (vars s') = 0
      /\ loadedFileName (vars s') = EmptyString)
  /\ (costResult (page s') = prompt_upload host
      /\ emailLink (page s') = {| href := None; class_disabled := true |}
      /\ emailStatus (page s') = EmptyString
      /\ colorInput (page s') = {| input_value := EmptyString; input_disabled := true |}
      /\ materialInput (page s') = {| selected := placeholder host; select_disabled := true |})
  /\ (identities s' = identities s /\ initCalls (effects s') = initCalls (effects s)
      /\ camera (vars s') = camera (vars s) /\ renderer (vars s') = renderer (vars s)
      /\ controls (vars s') = controls (vars s)).
Proof.
  intros s s'.
  destruct (invariant_reachable host events) as (Hc & Hn & _ & Hm & _). fold s in Hc, Hn, Hm.
  unfold s', step, handle, reader_onload, onload_try, onload_catch.
  set (s2 := upd_page _ (upd_page _ (upd_effects _ s))).
  assert (Hc2 : context_ok s2) by exact Hc.
  destruct (reset_spec host s2 Hc2)
    as ((Hcam & Hren & Hctl & Hsc) & (_ & Hi & _ & He) & Hd & Hci & Hmi & Hf & _).
  destruct (reset_vars host s2 Hc2) as (Hv & Hn2 & Hmesh).
  unfold display in Hd. injection Hd as Hd1 Hd2 Hd3.
  repeat split; try assumption.
  - rewrite Hf. unfold s2. simpl. rewrite Hn. reflexivity.
  - unfold identities. rewrite Hcam, Hren, Hctl, Hsc.
    change (vars s2) with (vars s).
    destruct (currentMesh (vars s)), (scene (vars s)); reflexivity.
Qed.

(** The text that the same listener writes to [#viewerMessage] does not
    outlast it: [resetState], called last, writes over it. *)
Lemma load_error_viewer_message (events : list Event) :
  let s := run host (initial host) events in
  let s' := step host s (FileRead None) in
  viewerMessage (page s')
  = if is_null (renderer (vars s)) then "Please upload an STL file to view."%string
    else EmptyString.
Proof.
  intros s s'.
  destruct (invariant_reachable host events) as (Hc & _). fold s in Hc.
  unfold s', step, handle, reader_onload, onload_try, onload_catch.
  set (s2 := upd_page _ (upd_page _ (upd_effects _ s))).
  assert (Hc2 : context_ok s2) by exact Hc.
  destruct (reset_spec host s2 Hc2) as (_ & _ & _ & _ & _ & _ & Hmsg).
  exact Hmsg.
Qed.

(** ** C5: one initialisation *)

Lemma reset_initCalls (s : State) :
  context_ok s -> initCalls (effects (final (resetState host s))) = initCalls (effects s).
Proof. intros H. destruct (reset_spec host s H) as (_ & (_ & Hi & _) & _). exact Hi. Qed.

Lemma step_initCalls (s : State) (e : Event) :
  invariant host s ->
  initCalls (effects (step host s e))
  = if parsed e then 1%nat else initCalls (effects s).
Proof.
  intros (Hc & _ & _ & Hm & _).
  assert (Hreset : forall s2, context_ok s2 ->
                     initCalls (effects s2) = initCalls (effects s) ->
                     initCalls (effects (final (resetState host s2))) = initCalls (effects s)).
  { intros s2 Hc2 <-. apply reset_initCalls, Hc2. }
  destruct e as [[file | ] | [g | ] | | value | option | w h | ]; unfold step, handle; simpl parsed.
  - apply Hreset; [exact Hc | reflexivity].
  - reflexivity.
  - destruct (onload_parsed host s g Hc Hm) as (s1 & m & -> & _ & _ & _ & _ & _ & _ & Hi & _).
    simpl final. rewrite update_effects. exact Hi.
  - apply Hreset; [exact Hc | reflexivity].
  - apply Hreset; [exact Hc | reflexivity].
  - simpl final. rewrite update_effects. reflexivity.
  - simpl final. rewrite update_effects. reflexivity.
  - simpl final. destruct (resizeListener _); [ | reflexivity].
    unfold onWindowResize. destruct (camera _); [ | reflexivity].
    destruct (renderer _); reflexivity.
  - change (initCalls (effects (step host s AnimationFrame)) = initCalls (effects s)).
    apply (frame_spec host s).
Qed.

Lemma step_identities (s : State) (e : Event) :
  invariant host s -> scene (vars s) <> None -> identities (step host s e) = identities s.
Proof.
  intros (Hc & _ & _ & Hm & _) Hsc.
  assert (Hreset : forall s2, context_ok s2 ->
                     identities s2 = identities s ->
                     identities (final (resetState host s2)) = identities s).
  { intros s2 Hc2 <-. destruct (reset_spec host s2 Hc2) as ((H1 & H2 & H3 & H4) & _).
    unfold identities. rewrite H1, H2, H3, H4.
    destruct (currentMesh (vars s2)), (scene (vars s2)); reflexivity. }
  destruct e as [[file | ] | [g | ] | | value | option | w h | ]; unfold step, handle.
  - apply Hreset; [exact Hc | reflexivity].
  - reflexivity.
  - destruct (onload_parsed host s g Hc Hm) as (s1 & m & -> & H).
    simpl final. unfold identities. rewrite update_vars. apply H, Hsc.
  - apply Hreset; [exact Hc | reflexivity].
  - apply Hreset; [exact Hc | reflexivity].
  - simpl final. unfold identities. rewrite update_vars. reflexivity.
  - simpl final. unfold identities. rewrite update_vars. reflexivity.
  - simpl final. destruct (resizeListener _); [ | reflexivity].
    unfold onWindowResize. destruct (camera _) eqn:E1; [ | reflexivity].
    destruct (renderer _) eqn:E2; [ | reflexivity].
    unfold identities. simpl in *. rewrite E1, E2. reflexivity.
  - change (identities (step host s AnimationFrame) = identities s).
    destruct (frame_spec host s) as (_ & (H1 & H2 & H3 & _) & _ & _ & H4).
    unfold identities. rewrite H1, H2, H3.
    destruct (camera (vars s)), (camera (vars (step host s AnimationFrame)));
      try tauto. destruct H4 as (H4 & _). simpl. rewrite H4. reflexivity.
Qed.

Lemma run_initCalls (events : list Event) (s : State) :
  invariant host s ->
  initCalls (effects (run host s events))
  = if existsb parsed events then 1%nat else initCalls (effects s).
Proof.
  revert s. induction events as [ | e events IH]; intros s Hs; [reflexivity | ].
  simpl run. rewrite (IH _ (invariant_step host s e Hs)), (step_initCalls s e Hs).
  simpl existsb. destruct (parsed e), (existsb parsed events); reflexivity.
Qed.

Lemma context_cases (s : State) :
  context_ok s ->
  (initCalls (effects s) = 0%nat /\ identities s = (None, None, None, None))
  \/ (initCalls (effects s) = 1%nat /\ scene (vars s) <> None
      /\ exists a b c d, identities s = (Some a, Some b, Some c, Some d)).
Proof.
  unfold context_ok, identities.
  destruct (scene (vars s)), (camera (vars s)), (renderer (vars s)), (controls (vars s));
    try contradiction.
  - intros H. right. split; [exact H | split; [discriminate | simpl; eauto]].
  - intros [_ H]. left. split; [exact H | reflexivity].
Qed.

(** C5.  [initThreeJS] has run once when some read so far ended with a
    parsed file, and not at all otherwise.  Before that, there is no scene,
    camera, renderer or controls; after it there are all four, and every
    event, an upload as any other, leaves the count at one and the four
    objects the same objects. *)
Theorem C5_initialised_once (events : list Event) :
  let s := run host (initial host) events in
  if existsb parsed events
  then initCalls (effects s) = 1%nat
       /\ (exists a b c d, identities s = (Some a, Some b, Some c, Some d))
       /\ forall e, initCalls (effects (step host s e)) = 1%nat
                    /\ identities (step host s e) = identities s
  else initCalls (effects s) = 0%nat
       /\ identities s = (None, None, None, None).
Proof.
  intros s. pose proof (invariant_reachable host events) as Hinv. fold s in Hinv.
  pose proof (run_initCalls events (initial host) (invariant_initial host)) as Hi.
  fold s in Hi. change (initCalls (effects (initial host))) with 0%nat in Hi.
  destruct (context_cases s (proj1 Hinv)) as [[H0 Hnone] | (H1 & Hsc & Hids)];
    destruct (existsb parsed events); try congruence.
  - split; assumption.
  - split; [exact Hi | split; [exact Hids | ]].
    intros e. split.
    + rewrite (step_initCalls s e Hinv), Hi. destruct (parsed e); reflexivity.
    + apply step_identities; assumption.
Qed.

(** ** C6: the link *)

(** The file name is gone by the time a listener ends: the listener of the
    file input assigns it and calls [resetState], which empties it. *)
Lemma file_name_always_empty (events : list Event) :
  loadedFileName (vars (run host (initial host) events)) = EmptyString.
Proof. apply (invariant_reachable host events). Qed.

(** Every link on the page is the [mailto:] URI of the target address,
    with the escaped subject and body of the request, built from the state
    as it is; the file name in it is the empty one. *)
Lemma link_of_reachable (events : list Event) (h : string) :
  let s := run host (initial host) events in
  let volume := modelVolumeCm3 (vars s) in
  let option := selected (materialInput (page s)) in
  let massGrams := volume * density_of host option in
  href (emailLink (page s)) = Some h ->
  h = ("mailto:" ++ TARGET_EMAIL
       ++ "?subject=" ++ JSString.encodeURIComponent (quote_subject EmptyString)
       ++ "&body=" ++ JSString.encodeURIComponent
            (quote_body host EmptyString (color_of (input_value (colorInput (page s))))
               (option_value option) volume massGrams (massGrams * COST_PER_GRAM)))%string.
Proof.
  intros s volume option massGrams Hlink.
  destruct (invariant_reachable host events) as (_ & Hn & Hs & _). fold s in Hn, Hs.
  unfold in_sync in Hs.
  destruct (is_null (currentMesh (vars s)) || (volume <=? 0)) eqn:H1.
  { rewrite (update_no_model s H1) in Hs. unfold display in Hs.
    injection Hs as _ Hl _. rewrite <- Hl in Hlink. discriminate Hlink. }
  destruct (negb (JSString.truthy (option_value option)) || (density_of host option <=? 0))
    eqn:H2.
  { rewrite (update_no_material s H1 H2) in Hs. unfold display in Hs.
    injection Hs as _ Hl _. rewrite <- Hl in Hlink. discriminate Hlink. }
  rewrite (update_estimate s H1 H2) in Hs. unfold display in Hs.
  injection Hs as _ Hl _. rewrite <- Hl in Hlink. simpl in Hlink.
  rewrite Hn in Hlink. injection Hlink as <-. reflexivity.
Qed.

(** ** C7: what a new file releases *)

Lemma remove_unique (m : Three.Mesh) (before after : list Three.Object3D) :
  ~ In (Three.mesh_id m)
      (flat_map (fun o => match o with Three.MeshObject m' => [Three.mesh_id m'] | _ => [] end)
         (before ++ after)) ->
  filter (fun o => negb (Three.is_mesh (Three.mesh_id m) o))
    (before ++ Three.MeshObject m :: after)
  = (before ++ after)%list.
Proof.
  intros Hnot.
  assert (Hkeep : forall l,
    ~ In (Three.mesh_id m)
        (flat_map (fun o => match o with Three.MeshObject m' => [Three.mesh_id m'] | _ => [] end) l)
    -> filter (fun o => negb (Three.is_mesh (Three.mesh_id m) o)) l = l).
  { induction l as [ | o l IH]; [reflexivity | ]. simpl. intros H.
    rewrite in_app_iff in H.
    destruct o as [c i | c i p | m']; simpl; try (f_equal; apply IH; tauto).
    destruct (Nat.eqb_spec (Three.mesh_id m') (Three.mesh_id m)) as [E | E]; simpl.
    - exfalso. apply H. left. simpl. auto.
    - f_equal. apply IH. tauto. }
  rewrite flat_map_app, in_app_iff in Hnot.
  rewrite filter_app. simpl. rewrite Nat.eqb_refl. simpl.
  rewrite !Hkeep by tauto. reflexivity.
Qed.

(** C7.  When a file is chosen while a mesh is displayed, the listener
    removes that one mesh from the scene, whose other children stay as
    they are, disposes of its geometry and of its material, and of nothing
    else; the renderer, the camera and the controls are not touched. *)
Theorem C7_one_object_released (events : list Event) (file : File) (m : Three.Mesh) :
  let s := run host (initial host) events in
  let s' := step host s (FileChosen (Some file)) in
  currentMesh (vars s) = Some m ->
  disposed (effects s')
  = (disposed (effects s)
     ++ [Three.GeometryOf (Three.mesh_id m); Three.MaterialOf (Three.mesh_id m)])%list
  /\ currentMesh (vars s') = None
  /\ (exists sc before after,
        scene (vars s) = Some sc
        /\ Three.children sc = (before ++ Three.MeshObject m :: after)%list
        /\ scene (vars s')
           = Some {| Three.scene_id := Three.scene_id sc;
                     Three.background := Three.background sc;
                     Three.children := (before ++ after)%list |})
  /\ renderer (vars s') = renderer (vars s)
  /\ camera (vars s') = camera (vars s)
  /\ controls (vars s') = controls (vars s).
Proof.
  intros s s' Hmesh.
  destruct (invariant_reachable host events) as (Hc & _ & _ & (Hids & Hin) & _).
  fold s in Hc, Hids, Hin.
  unfold s', step, handle, fileInput_change.
  set (s1 := upd_page _ (upd_page _ (upd_vars _ s))).
  assert (Hc1 : context_ok s1) by exact Hc.
  destruct (reset_spec host s1 Hc1) as ((Hcam & Hren & Hctl & Hsc) & (Hd & _) & _).
  destruct (reset_vars host s1 Hc1) as (_ & _ & Hnone).
  change (currentMesh (vars s1)) with (currentMesh (vars s)) in Hsc, Hd.
  change (scene (vars s1)) with (scene (vars s)) in Hsc.
  rewrite Hmesh in Hsc, Hd.
  destruct (Hin m Hmesh) as (sc & Esc & Hm).
  destruct (Hids sc Esc) as [Hnd _].
  destruct (in_split _ _ Hm) as (before & after & Hsplit).
  repeat split; try assumption.
  exists sc, before, after. split; [exact Esc | split; [exact Hsplit | ]].
  rewrite Hsc, Esc. simpl. unfold Three.remove. rewrite Hsplit. f_equal. f_equal.
  apply remove_unique.
  unfold mesh_ids in Hnd. rewrite Hsplit, flat_map_app in Hnd. simpl in Hnd.
  apply NoDup_remove_2 in Hnd. rewrite flat_map_app. exact Hnd.
Qed.

(** ** C8: no link without an estimate *)

(** C8, amended.  Whenever no mesh is loaded or the stored volume compares
    [<= 0], [updateCostAndEmail] removes the [href] of the link, adds the
    class ['disabled'] and empties the status.  So a link with an [href]
    exists only in states where a mesh is loaded whose volume does not
    compare [<= 0]: it is positive, or NaN. *)
Theorem C8_no_link_without_estimate :
  (forall s,
     is_null (currentMesh (vars s)) || (modelVolumeCm3 (vars s) <=? 0) = true ->
     emailLink (page (updateCostAndEmail host s)) = {| href := None; class_disabled := true |}
     /\ emailStatus (page (updateCostAndEmail host s)) = EmptyString)
  /\ (forall events,
        let s := run host (initial host) events in
        href (emailLink (page s)) <> None ->
        currentMesh (vars s) <> None
        /\ (modelVolumeCm3 (vars s) <=? 0) = false
        /\ ((0 <? modelVolumeCm3 (vars s)) = true \/ is_nan (modelVolumeCm3 (vars s)) = true)).
Proof.
  split.
  - intros s H. pose proof (update_no_model s H) as Hd. unfold display in Hd.
    injection Hd as _ Hl Hs. split; assumption.
  - intros events s Hlink.
    destruct (invariant_reachable host events) as (_ & _ & Hs & _ & Hv). fold s in Hs, Hv.
    unfold in_sync in Hs.
    destruct (is_null (currentMesh (vars s)) || (modelVolumeCm3 (vars s) <=? 0)) eqn:H1.
    { rewrite (update_no_model s H1) in Hs. unfold display in Hs.
      injection Hs as _ Hl _. rewrite <- Hl in Hlink. simpl in Hlink. congruence. }
    apply orb_false_iff in H1. destruct H1 as [Hm Hle].
    split; [destruct (currentMesh (vars s)); [discriminate | discriminate Hm] | ].
    split; [exact Hle | ].
    apply FloatFacts.positive_or_nan, Hle.
Qed.

(** ** C9: the colour of the request *)

Lemma append_assoc (a b c : string) : ((a ++ b) ++ c = a ++ (b ++ c))%string.
Proof. induction a as [ | x a IH]; simpl; [reflexivity | rewrite IH; reflexivity]. Qed.

(** [color_of] is ['Not specified'] for white space only, the trimmed value
    otherwise. *)
Lemma color_of_cases (value : string) :
  (JSString.only_whitespace value -> color_of value = "Not specified"%string)
  /\ (~ JSString.only_whitespace value -> color_of value = JSString.trim value).
Proof.
  unfold color_of, JSString.or_else. split; intros H.
  - apply TrimFacts.trim_empty_iff in H. rewrite H. reflexivity.
  - destruct (JSString.trim value) eqn:E; [ | reflexivity].
    exfalso. apply H, TrimFacts.trim_empty_iff, E.
Qed.

(** C9.  In every link that [updateCostAndEmail] builds, the body has a
    line ["Color: "] followed by ['Not specified'] when the colour input is
    empty or holds white space only, and by the trimmed value of the input
    otherwise. *)
Theorem C9_color_field (s : State) (h : string) :
  let value := input_value (colorInput (page s)) in
  href (emailLink (page (updateCostAndEmail host s))) = Some h ->
  exists color before after,
    h = mailto (quote_subject (loadedFileName (vars s)))
          (before ++ "Color: " ++ color ++ JSString.LF ++ after)%string
    /\ (JSString.only_whitespace value -> color = "Not specified"%string)
    /\ (~ JSString.only_whitespace value -> color = JSString.trim value).
Proof.
  intros value Hlink.
  destruct (is_null (currentMesh (vars s)) || (modelVolumeCm3 (vars s) <=? 0)) eqn:H1.
  { pose proof (update_no_model s H1) as Hd. unfold display in Hd.
    injection Hd as _ Hl _. rewrite Hl in Hlink. discriminate Hlink. }
  destruct (negb (JSString.truthy (option_value (selected (materialInput (page s)))))
            || (density_of host (selected (materialInput (page s))) <=? 0)) eqn:H2.
  { pose proof (update_no_material s H1 H2) as Hd. unfold display in Hd.
    injection Hd as _ Hl _. rewrite Hl in Hlink. discriminate Hlink. }
  pose proof (update_estimate s H1 H2) as Hd. unfold display in Hd.
  injection Hd as _ Hl _. rewrite Hl in Hlink. injection Hlink as <-.
  exists (color_of value).
  eexists ("Hello," ++ JSString.LF ++ JSString.LF
           ++ "Please find the details for a 3D printing quote request below:"
           ++ JSString.LF ++ JSString.LF
           ++ "File Name: " ++ loadedFileName (vars s) ++ JSString.LF)%string.
  eexists. split; [ | apply color_of_cases].
  unfold quote_body. rewrite !append_assoc. reflexivity.
Qed.

(** ** C10: the material guard *)

(** C10, amended.  Once a mesh is loaded whose volume does not compare
    [<= 0], [updateCostAndEmail] shows the prompt for a valid material, and
    removes the link, if and only if the value of the selected option is
    empty or its parsed density compares [<= 0]; with any other density,
    NaN included, it computes the mass and the cost. *)
Theorem C10_material_guard (s : State) :
  let volume := modelVolumeCm3 (vars s) in
  let option := selected (materialInput (page s)) in
  let density := density_of host option in
  let fileName := loadedFileName (vars s) in
  let s' := updateCostAndEmail host s in
  currentMesh (vars s) <> None ->
  (volume <=? 0) = false ->
  (costResult (page s') = prompt_material host
   <-> option_value option = EmptyString \/ (density <=? 0) = true)
  /\ (option_value option = EmptyString \/ (density <=? 0) = true ->
      emailLink (page s') = {| href := None; class_disabled := true |}
      /\ emailStatus (page s') = EmptyString)
  /\ (option_value option <> EmptyString -> (density <=? 0) = false ->
      costResult (page s')
      = estimate_html host volume (option_value option) density (volume * density)
          (volume * density * COST_PER_GRAM)
      /\ href (emailLink (page s'))
         = Some (mailto (quote_subject fileName)
                   (quote_body host fileName (color_of (input_value (colorInput (page s))))
                      (option_value option) volume (volume * density)
                      (volume * density * COST_PER_GRAM)))).
Proof.
  intros volume option density fileName s' Hmesh Hvol.
  assert (H1 : is_null (currentMesh (vars s)) || (volume <=? 0) = false).
  { rewrite Hvol. destruct (currentMesh (vars s)); [reflexivity | congruence]. }
  assert (Hguard : negb (JSString.truthy (option_value option)) || (density <=? 0) = true
                   <-> option_value option = EmptyString \/ (density <=? 0) = true).
  { rewrite orb_true_iff, negb_true_iff.
    destruct (option_value option); simpl; intuition congruence. }
  destruct (negb (JSString.truthy (option_value option)) || (density <=? 0)) eqn:H2.
  - pose proof (update_no_material s H1 H2) as Hd. unfold display in Hd.
    injection Hd as Hc Hl Hs. fold s' in Hc, Hl, Hs.
    split; [split; [intros _; apply Hguard; reflexivity | intros _; exact Hc] | ].
    split; [intros _; split; assumption | ].
    intros Hname Hdens. exfalso.
    destruct (proj1 Hguard eq_refl) as [E | E]; congruence.
  - pose proof (update_estimate s H1 H2) as Hd. unfold display in Hd.
    injection Hd as Hc Hl _. fold s' in Hc, Hl.
    assert (Hno : ~ (option_value option = EmptyString \/ (density <=? 0) = true)).
    { intros H. apply Hguard in H. discriminate H. }
    split; [split; [ | tauto] | ].
    + intros Hp. exfalso. rewrite Hc in Hp.
      exact (estimate_is_no_prompt _ _ _ _ _ _ Hp).
    + split; [tauto | ]. intros _ _. rewrite Hc, Hl. split; reflexivity.
Qed.

End Claims.


(** ** The claims on the sample page *)

Module OnSample.

Local Open Scope float_scope.

(** C2 fails on a flat model: a mesh is loaded and PLA is selected, of
    positive density, and no mass or cost is computed; the page shows the
    prompt for an upload. *)
Lemma C2_counterexample :
  let s := Sample.plate_quoted in
  let density := density_of Sample.host (selected (materialInput (page s))) in
  let massGrams := modelVolumeCm3 (vars s) * density in
  currentMesh (vars s) <> None
  /\ option_value (selected (materialInput (page s))) = "PLA"%string
  /\ (0 <? density) = true
  /\ costResult (page (updateCostAndEmail Sample.host s)) = prompt_upload Sample.host
  /\ costResult (page (updateCostAndEmail Sample.host s))
     <> estimate_html Sample.host (modelVolumeCm3 (vars s)) "PLA" density massGrams
          (massGrams * 10).
Proof.
  vm_compute. repeat split; discriminate.
Qed.

(** C2, amended, on the sample page: the cube and PLA. *)
Lemma C2_witness :
  let s := Sample.quoted in
  let density := density_of Sample.host (selected (materialInput (page s))) in
  let massGrams := modelVolumeCm3 (vars s) * density in
  (currentMesh (vars s) <> None
   /\ (modelVolumeCm3 (vars s) <=? 0) = false
   /\ option_value (selected (materialInput (page s))) <> EmptyString
   /\ (0 <? density) = true)
  /\ costResult (page (updateCostAndEmail Sample.host s))
     = estimate_html Sample.host (modelVolumeCm3 (vars s)) "PLA" density massGrams
         (massGrams * 10).
Proof.
  intros s density massGrams.
  assert (H1 : currentMesh (vars s) <> None) by (vm_compute; discriminate).
  assert (Hv : (modelVolumeCm3 (vars s) <=? 0) = false) by (vm_compute; reflexivity).
  assert (H2 : option_value (selected (materialInput (page s))) <> EmptyString)
    by (vm_compute; discriminate).
  assert (H3 : (0 <? density) = true) by (vm_compute; reflexivity).
  split; [split; [exact H1 | split; [exact Hv | split; [exact H2 | exact H3]]] | ].
  exact (C2_mass_and_cost Sample.host s H1 Hv H2 H3).
Defined.

(** C3 fails on a file of NaN coordinates: the volume is NaN, and so are
    the mass and the cost that the page shows once PLA is selected. *)
Lemma C3_counterexample :
  let s := Sample.nan_quoted in
  let volume := modelVolumeCm3 (vars s) in
  let density := density_of Sample.host (selected (materialInput (page s))) in
  (0 <=? volume) = false
  /\ (0 <=? volume * density) = false
  /\ (0 <=? volume * density * COST_PER_GRAM) = false
  /\ costResult (page s)
     = estimate_html Sample.host volume "PLA" density (volume * density)
         (volume * density * COST_PER_GRAM).
Proof. vm_compute. repeat split. Qed.

(** C3, amended, on the sample page: the estimate for the cube in PLA. *)
Lemma C3_witness :
  let s := Sample.quoted in
  href (emailLink (page s)) <> None
  /\ JSNumber.not_negative (modelVolumeCm3 (vars s))
  /\ JSNumber.not_negative
       (modelVolumeCm3 (vars s) * density_of Sample.host (selected (materialInput (page s)))).
Proof.
  cbv zeta. unfold Sample.quoted.
  set (s := run Sample.host (initial Sample.host) _).
  assert (H : href (emailLink (page s)) <> None) by (vm_compute; discriminate).
  split; [exact H | ].
  destruct (C3_never_negative Sample.host (Sample.cube_loaded ++ [MaterialSelected Sample.PLA]))
    as (Hv & Hm).
  split; [exact Hv | ]. apply (Hm H).
Defined.

(** C6 on the sample page: the file chosen is [cube.stl], and neither the
    subject nor the body of the link names it. *)
Theorem C6_file_name_missing :
  loadedFileName (vars Sample.quoted) = EmptyString
  /\ href (emailLink (page Sample.quoted))
     = Some "mailto:your-print-service@example.com?subject=3D%20Print%20Quote%20Request%20-%20&body=Hello%2C%0A%0APlease%20find%20the%20details%20for%20a%203D%20printing%20quote%20request%20below%3A%0A%0AFile%20Name%3A%20%0AColor%3A%20Not%20specified%0AMaterial%3A%20PLA%0AEstimated%20Volume%3A%200.40%20cm%C2%B3%20(approx.)%0AEstimated%20Mass%3A%200.50%20g%20(approx.)%0AEstimated%20Cost%3A%20%E2%82%B94.96%20(approx.)%0A%0A(Remember%20to%20attach%20the%20STL%20file%3A%20)%0A%0AThank%20you."%string.
Proof. vm_compute. split; reflexivity. Qed.

(** C7 on the sample page: a second file is chosen while the cube is
    displayed. *)
Lemma C7_witness :
  let s := run Sample.host (initial Sample.host) Sample.cube_loaded in
  let s' := step Sample.host s (FileChosen (Some Sample.cube_stl)) in
  exists m,
    currentMesh (vars s) = Some m
    /\ disposed (effects s')
       = (disposed (effects s)
          ++ [Three.GeometryOf (Three.mesh_id m); Three.MaterialOf (Three.mesh_id m)])%list
    /\ currentMesh (vars s') = None
    /\ renderer (vars s') = renderer (vars s).
Proof.
  intros s s'.
  destruct (currentMesh (vars s)) as [m | ] eqn:E; [ | vm_compute in E; discriminate E].
  exists m. split; [reflexivity | ].
  destruct (C7_one_object_released Sample.host Sample.cube_loaded Sample.cube_stl m E)
    as (H1 & H2 & _ & H3 & _).
  split; [exact H1 | split; [exact H2 | exact H3]].
Defined.

(** C8 fails on a file of NaN coordinates: a mesh is loaded, its volume is
    not strictly positive, and [updateCostAndEmail] sets the [href]. *)
Lemma C8_counterexample :
  let s := Sample.nan_quoted in
  currentMesh (vars s) <> None
  /\ (0 <? modelVolumeCm3 (vars s)) = false
  /\ href (emailLink (page (updateCostAndEmail Sample.host s))) <> None
  /\ href (emailLink (page s)) <> None.
Proof. vm_compute. repeat split; discriminate. Qed.

(** C8, amended, on the sample page: before any upload there is no link;
    with the cube in PLA there is one. *)
Lemma C8_witness :
  let s := initial Sample.host in
  (is_null (currentMesh (vars s)) || (modelVolumeCm3 (vars s) <=? 0) = true
   /\ emailLink (page (updateCostAndEmail Sample.host s))
      = {| href := None; class_disabled := true |})
  /\ (href (emailLink (page Sample.quoted)) <> None
      /\ (modelVolumeCm3 (vars Sample.quoted) <=? 0) = false).
Proof.
  cbv zeta. unfold Sample.quoted. set (s := initial Sample.host).
  set (events := (Sample.cube_loaded ++ [MaterialSelected Sample.PLA])%list).
  assert (H1 : is_null (currentMesh (vars s)) || (modelVolumeCm3 (vars s) <=? 0) = true)
    by (vm_compute; reflexivity).
  assert (H2 : href (emailLink (page (run Sample.host (initial Sample.host) events))) <> None)
    by (vm_compute; discriminate).
  destruct (C8_no_link_without_estimate Sample.host) as (Ha & Hb).
  split; [split; [exact H1 | apply (Ha s H1)] | split; [exact H2 | ]].
  apply (Hb events H2).
Defined.

(** C9 on the sample page: the colour input is empty. *)
Lemma C9_witness :
  let s := Sample.quoted in
  exists h color before after,
    href (emailLink (page (updateCostAndEmail Sample.host s))) = Some h
    /\ h = mailto (quote_subject (loadedFileName (vars s)))
             (before ++ "Color: " ++ color ++ JSString.LF ++ after)%string
    /\ color = "Not specified"%string.
Proof.
  intros s.
  destruct (href (emailLink (page (updateCostAndEmail Sample.host s)))) as [h | ] eqn:E;
    [ | vm_compute in E; discriminate E].
  destruct (C9_color_field Sample.host s h E) as (color & before & after & Hh & Hw & _).
  exists h, color, before, after. split; [reflexivity | split; [exact Hh | ]].
  apply Hw. constructor.
Defined.

(** C10 fails on a flat model: the value of the selected option is empty,
    and the page shows the prompt for an upload, not the one for a
    material. *)
Lemma C10_counterexample :
  let s := Sample.plate_loaded in
  currentMesh (vars s) <> None
  /\ option_value (selected (materialInput (page s))) = EmptyString
  /\ costResult (page (updateCostAndEmail Sample.host s)) = prompt_upload Sample.host
  /\ costResult (page (updateCostAndEmail Sample.host s)) <> prompt_material Sample.host.
Proof.
  vm_compute. repeat split; discriminate.
Qed.

(** C10, amended, on the sample page: the cube, with PLA and with the
    option of value [""]. *)
Lemma C10_witness :
  let s := Sample.quoted in
  (currentMesh (vars s) <> None /\ (modelVolumeCm3 (vars s) <=? 0) = false)
  /\ (costResult (page (updateCostAndEmail Sample.host s)) = prompt_material Sample.host
      <-> option_value (selected (materialInput (page s))) = EmptyString
          \/ (density_of Sample.host (selected (materialInput (page s))) <=? 0) = true).
Proof.
  intros s.
  assert (H1 : currentMesh (vars s) <> None) by (vm_compute; discriminate).
  assert (H2 : (modelVolumeCm3 (vars s) <=? 0) = false) by (vm_compute; reflexivity).
  split; [split; [exact H1 | exact H2] | ].
  apply (C10_material_guard Sample.host s H1 H2).
Defined.

(** *** The built-ins on examples *)

Example toFixed2_rounds : toFixed2 Sample.host 0.4 = "0.40"%string.
Proof. vm_compute. reflexivity. Qed.

Example toFixed2_below_half : toFixed2 Sample.host 1.005 = "1.00"%string.
Proof. vm_compute. reflexivity. Qed.

Example toFixed2_negative : toFixed2 Sample.host (-2.345) = "-2.35"%string.
Proof. vm_compute. reflexivity. Qed.

Example toFixed2_nan : toFixed2 Sample.host nan = "NaN"%string.
Proof. vm_compute. reflexivity. Qed.

Example toString_integer : toString Sample.host 10 = "10"%string.
Proof. vm_compute. reflexivity. Qed.

Example trim_spaces : JSString.trim "  red " = "red"%string.
Proof. vm_compute. reflexivity. Qed.

Example encode_space : JSString.encodeURIComponent "a b" = "a%20b"%string.
Proof. vm_compute. reflexivity. Qed.

Example cube_volume : modelVolumeCm3 (vars Sample.quoted) = 0.4.
Proof. vm_compute. reflexivity. Qed.

End OnSample.

(** * More facts *)

(** ** More on floating-point numbers *)

Module MoreFloatFacts.

Import JSNumber.
Local Open Scope float_scope.

Lemma abs_not_negative (a : float) : not_negative (abs a).
Proof.
  rewrite FloatFacts.not_negative_sf, abs_spec. destruct (Prim2SF a); reflexivity.
Qed.

(** The opposite of a number below zero is not below zero. *)
Lemma opp_not_negative (a : float) : (a <? 0) = true -> not_negative (- a).
Proof.
  rewrite FloatFacts.not_negative_sf, FloatFacts.ltb_zero_sf, opp_spec.
  destruct (Prim2SF a) as [s | s | | s m e]; try destruct s; simpl; congruence.
Qed.

Lemma SFadd_sign (a b : spec_float) :
  sf_not_negative a = true -> sf_not_negative b = true ->
  sf_not_negative (SF64add a b) = true.
Proof.
  destruct a as [sa | sa | | sa ma ea], b as [sb | sb | | sb mb eb]; simpl;
    intros Ha Hb; try reflexivity;
    try (apply negb_true_iff in Ha; subst sa);
    try (apply negb_true_iff in Hb; subst sb);
    try reflexivity; try (destruct sa, sb; reflexivity).
  apply FloatFacts.binary_normalize_sign. simpl. lia.
Qed.

Lemma add_not_negative (a b : float) :
  not_negative a -> not_negative b -> not_negative (a + b).
Proof. rewrite !FloatFacts.not_negative_sf, add_spec. apply SFadd_sign. Qed.

(** A number that is not below zero is not below a zero or NaN either. *)
Lemma not_below_zero (a b : float) :
  not_negative a -> (b <? 0) = false -> (0 <? b) = false -> (a <? b) = false.
Proof.
  rewrite FloatFacts.not_negative_sf, !ltb_spec, FloatFacts.Prim2SF_zero.
  destruct (Prim2SF a) as [sa | sa | | sa ma ea], (Prim2SF b) as [sb | sb | | sb mb eb];
    try destruct sa; try destruct sb; cbv; congruence.
Qed.

End MoreFloatFacts.

(** ** More invariants of the script *)

Section MoreInvariants.

Context (host : Host).

Local Open Scope float_scope.

(** *** [updateCostAndEmail] leaves the other invariants alone *)

Lemma widgets_ok_update (s : State) :
  widgets_ok (updateCostAndEmail host s) <-> widgets_ok s.
Proof.
  unfold widgets_ok. destruct (update_page host s) as (_ & Hv & Hm & Hc & Hi).
  rewrite update_vars, update_effects, Hv, Hm, Hc, Hi. reflexivity.
Qed.

Lemma viewport_ok_update (s : State) :
  viewport_ok (updateCostAndEmail host s) <-> viewport_ok s.
Proof.
  unfold viewport_ok. destruct (update_page host s) as (_ & Hv & _).
  rewrite update_vars, Hv. reflexivity.
Qed.

Lemma settings_ok_update (s : State) :
  settings_ok (updateCostAndEmail host s) <-> settings_ok s.
Proof. unfold settings_ok. rewrite update_vars. reflexivity. Qed.

Lemma scene_ok_update (s : State) :
  scene_ok (updateCostAndEmail host s) <-> scene_ok s.
Proof. unfold scene_ok. rewrite update_vars. reflexivity. Qed.

Lemma disposal_of_update (ids : list nat) (s : State) :
  disposal_of ids (updateCostAndEmail host s) <-> disposal_of ids s.
Proof.
  unfold disposal_of, scene_meshes. rewrite update_vars, update_effects. reflexivity.
Qed.

Lemma disposal_ok_update (s : State) :
  disposal_ok (updateCostAndEmail host s) <-> disposal_ok s.
Proof.
  unfold disposal_ok. split; intros (ids & H); exists ids; apply disposal_of_update, H.
Qed.


(** *** The widgets *)

Lemma onload_widgets (s : State) (g : Three.BufferGeometry) :
  context_ok s -> widgets_ok s ->
  exists s1, reader_onload host (Some g) s = Returned (updateCostAndEmail host s1)
             /\ widgets_ok s1.
Proof.
  open_state s. unfold context_ok, widgets_ok at 1. simpl.
  destruct sc, cam, ren, ctl; simpl; try tauto; intros Hc Hw;
    unfold_onload; simpl;
    (eexists; split; [reflexivity | ]); unfold widgets_ok; simpl; intuition congruence.
Qed.

Lemma widgets_reset (s : State) :
  context_ok s ->
  resizeListener (effects s) = negb (is_null (renderer (vars s))) ->
  animating (effects s) = negb (is_null (renderer (vars s))) ->
  has_canvas (viewer (page s)) = negb (is_null (renderer (vars s))) ->
  widgets_ok (final (resetState host s)).
Proof.
  open_state s. unfold context_ok, widgets_ok, resetState. simpl.
  destruct sc, cam, ren, ctl, mesh; simpl; try tauto; intuition congruence.
Qed.

Lemma widgets_step (s : State) (e : Event) :
  context_ok s -> widgets_ok s -> widgets_ok (step host s e).
Proof.
  intros Hc Hw. pose proof Hw as (_ & _ & _ & H1 & H2 & H3).
  destruct e as [[file | ] | [g | ] | | value | option | w h | ]; unfold step, handle.
  - apply widgets_reset; [exact Hc | exact H1 | exact H2 | exact H3].
  - exact Hw.
  - destruct (onload_widgets s g Hc Hw) as (s1 & -> & H). apply widgets_ok_update, H.
  - apply widgets_reset; [exact Hc | exact H1 | exact H2 | exact H3].
  - apply widgets_reset; [exact Hc | exact H1 | exact H2 | exact H3].
  - apply widgets_ok_update. exact Hw.
  - apply widgets_ok_update. exact Hw.
  - revert Hc Hw. clear. open_state s. unfold context_ok, widgets_ok, onWindowResize.
    simpl. destruct resize, sc, cam, ren, ctl; simpl; try tauto; intuition congruence.
  - change (widgets_ok (step host s AnimationFrame)).
    destruct (frame_spec host s)
      as (Hp & (_ & Hren & _ & Hmesh & _) & (_ & _ & _ & _ & Hrl) & Han & _).
    destruct Hw as (W1 & W2 & W3 & W4 & W5 & W6).
    unfold widgets_ok. rewrite Hp, Hren, Hmesh, Hrl, Han, W5.
    split; [exact W1 | split; [exact W2 | split; [exact W3 | split; [exact W4 | ]]]].
    split; [ | exact W6]. destruct (is_null (renderer (vars s))); reflexivity.
Qed.

(** *** The viewport and the settings *)

Lemma onload_viewport (s : State) (g : Three.BufferGeometry) :
  context_ok s -> viewport_ok s -> settings_ok s ->
  exists s1, reader_onload host (Some g) s = Returned (updateCostAndEmail host s1)
             /\ viewport_ok s1 /\ settings_ok s1.
Proof.
  open_state s. unfold context_ok, viewport_ok at 1, settings_ok at 1. simpl.
  destruct sc, cam as [cam | ], ren as [ren | ], ctl as [ctl | ]; simpl; try tauto;
    intros Hc Hv (Hs1 & Hs2 & Hs3);
    unfold_onload; simpl;
    (eexists; split; [reflexivity | ]); unfold viewport_ok, settings_ok; simpl.
  - specialize (Hv cam ren eq_refl eq_refl). specialize (Hs1 cam eq_refl).
    specialize (Hs2 ren eq_refl). specialize (Hs3 ctl eq_refl).
    repeat split; intros; repeat match goal with H : Some _ = Some _ |- _ =>
      injection H as <- end; simpl; tauto.
  - repeat split; intros; repeat match goal with H : Some _ = Some _ |- _ =>
      injection H as <- end; reflexivity.
Qed.

Lemma viewport_reset (s : State) :
  context_ok s -> viewport_ok s -> settings_ok s ->
  viewport_ok (final (resetState host s)) /\ settings_ok (final (resetState host s)).
Proof.
  open_state s. unfold context_ok, viewport_ok, settings_ok, resetState. simpl.
  destruct sc, cam, ren, ctl, mesh; simpl; tauto.
Qed.

Lemma viewport_step (s : State) (e : Event) :
  context_ok s -> widgets_ok s -> viewport_ok s -> settings_ok s ->
  viewport_ok (step host s e) /\ settings_ok (step host s e).
Proof.
  intros Hc Hw Hv Hs.
  destruct e as [[file | ] | [g | ] | | value | option | w h | ]; unfold step, handle.
  - apply viewport_reset; [exact Hc | exact Hv | exact Hs].
  - split; [exact Hv | exact Hs].
  - destruct (onload_viewport s g Hc Hv Hs) as (s1 & -> & H1 & H2).
    split; [apply viewport_ok_update, H1 | apply settings_ok_update, H2].
  - apply viewport_reset; [exact Hc | exact Hv | exact Hs].
  - apply viewport_reset; [exact Hc | exact Hv | exact Hs].
  - split; [apply viewport_ok_update, Hv | apply settings_ok_update, Hs].
  - split; [apply viewport_ok_update, Hv | apply settings_ok_update, Hs].
  - destruct Hw as (_ & _ & _ & Hw & _). revert Hc Hw Hv Hs. clear. open_state s.
    unfold context_ok, viewport_ok, settings_ok, onWindowResize. simpl.
    destruct resize, sc, cam, ren, ctl; simpl; intros Hc Hw Hv (Hs1 & Hs2 & Hs3);
      try tauto; try discriminate Hw;
      try specialize (Hs1 _ eq_refl); try specialize (Hs2 _ eq_refl);
      try specialize (Hs3 _ eq_refl);
      repeat split; intros; try discriminate;
      repeat match goal with H : Some _ = Some _ |- _ => injection H as <- end;
      simpl; tauto.
  - change (viewport_ok (step host s AnimationFrame)
            /\ settings_ok (step host s AnimationFrame)).
    destruct (frame_spec host s) as (Hp & (_ & Hren & Hctl & _) & _ & _ & Hcam).
    unfold viewport_ok, settings_ok in *. rewrite Hp, Hren, Hctl.
    destruct Hs as (S1 & S2 & S3).
    destruct (camera (vars s)) as [cam | ],
      (camera (vars (step host s AnimationFrame))) as [cam' | ]; try tauto.
    destruct Hcam as (_ & Hf & Ha & Hn & _).
    split; [intros c r [= <-] Hr; rewrite Ha; apply (Hv cam r eq_refl Hr) | ].
    split; [intros c [= <-]; rewrite Hf, Hn; apply (S1 cam eq_refl) | ].
    split; assumption.
Qed.


(** *** The scene *)

Lemma remove_keeps_lights (m : Three.Mesh) (sc : Three.Scene) (meshes : list Three.Object3D) :
  Three.children sc = (lights ++ meshes)%list -> forallb is_mesh_object meshes = true ->
  Three.children (Three.remove m sc)
  = (lights ++ filter (fun o => negb (Three.is_mesh (Three.mesh_id m) o)) meshes)%list
  /\ forallb is_mesh_object
       (filter (fun o => negb (Three.is_mesh (Three.mesh_id m) o)) meshes) = true.
Proof.
  intros Hc Hm. split.
  - unfold Three.remove. simpl Three.children. rewrite Hc, filter_app. reflexivity.
  - apply forallb_forall. intros o Ho. apply filter_In in Ho.
    rewrite forallb_forall in Hm. apply Hm, Ho.
Qed.

Lemma scene_reset (s : State) :
  context_ok s -> scene_ok s -> scene_ok (final (resetState host s)).
Proof.
  intros Hc Hs. destruct (reset_spec host s Hc) as ((_ & _ & _ & Hsc) & _).
  unfold scene_ok. rewrite Hsc. clear Hsc. unfold scene_ok in Hs.
  destruct (currentMesh (vars s)) as [m | ]; [ | exact Hs].
  destruct (scene (vars s)) as [sc | ]; [ | discriminate].
  intros sc' [= <-]. destruct (Hs sc eq_refl) as (Hb & meshes & Hl & Hm).
  split; [exact Hb | ].
  destruct (remove_keeps_lights m sc meshes Hl Hm) as (H1 & H2). eauto.
Qed.

Lemma onload_scene (s : State) (g : Three.BufferGeometry) :
  context_ok s -> scene_ok s ->
  exists s1, reader_onload host (Some g) s = Returned (updateCostAndEmail host s1)
             /\ scene_ok s1.
Proof.
  open_state s. unfold context_ok, scene_ok at 1. simpl.
  destruct sc as [sc | ], cam, ren, ctl; simpl; try tauto; intros Hc Hs;
    unfold_onload; simpl;
    (eexists; split; [reflexivity | ]); unfold scene_ok; simpl; intros sc' [= <-].
  - destruct (Hs sc eq_refl) as (Hb & meshes & Hl & Hm). split; [exact Hb | ].
    eexists. unfold Three.add. simpl. rewrite Hl. simpl.
    split; [reflexivity | ]. rewrite forallb_app, Hm. reflexivity.
  - split; [reflexivity | ]. eexists. unfold Three.add. simpl.
    split; [reflexivity | reflexivity].
Qed.

Lemma scene_step (s : State) (e : Event) :
  context_ok s -> scene_ok s -> scene_ok (step host s e).
Proof.
  intros Hc Hs.
  destruct e as [[file | ] | [g | ] | | value | option | w h | ]; unfold step, handle.
  - apply scene_reset; [exact Hc | exact Hs].
  - exact Hs.
  - destruct (onload_scene s g Hc Hs) as (s1 & -> & H). apply scene_ok_update, H.
  - apply scene_reset; [exact Hc | exact Hs].
  - apply scene_reset; [exact Hc | exact Hs].
  - apply scene_ok_update. exact Hs.
  - apply scene_ok_update. exact Hs.
  - simpl final. destruct (resizeListener _); [ | exact Hs].
    unfold onWindowResize. simpl.
    destruct (camera (vars s)); [ | exact Hs]. destruct (renderer (vars s)); exact Hs.
  - change (scene_ok (step host s AnimationFrame)).
    destruct (frame_spec host s) as (_ & (Hsc & _) & _).
    unfold scene_ok. rewrite Hsc. exact Hs.
Qed.

(** *** The meshes released *)

Lemma released_app (l1 l2 : list nat) : released (l1 ++ l2) = (released l1 ++ released l2)%list.
Proof. apply flat_map_app. Qed.

Lemma disposal_reset (s : State) :
  context_ok s -> meshes_ok s -> disposal_ok s -> disposal_ok (final (resetState host s)).
Proof.
  intros Hc Hm (ids & Hd & Hnd & Hout & Hall & Hnext).
  destruct (reset_spec host s Hc) as ((_ & _ & _ & Hsc) & (Hdis & _ & Hid & _) & _).
  unfold disposal_ok, disposal_of, scene_meshes. rewrite Hsc, Hdis, Hid. clear Hsc Hdis Hid.
  unfold scene_meshes in Hout, Hall. destruct Hm as [Hs Hcur].
  destruct (currentMesh (vars s)) as [m | ].
  - destruct (Hcur m eq_refl) as (sc & Esc & Hin). rewrite Esc in *. simpl.
    destruct (Hs sc eq_refl) as [Hnds Hlt].
    assert (Hmid : In (Three.mesh_id m) (mesh_ids sc)).
    { unfold mesh_ids. apply in_flat_map. exists (Three.MeshObject m).
      split; [exact Hin | left; reflexivity]. }
    exists (ids ++ [Three.mesh_id m])%list. rewrite released_app, Hd.
    split; [reflexivity | ]. rewrite mesh_ids_remove.
    split; [ | split; [ | split]].
    + apply NoDup_app; [exact Hnd | repeat constructor; simpl; tauto | ].
      intros id Hi [<- | []]. exact (Hout _ Hi Hmid).
    + intros id Hi Hf. apply filter_In in Hf. destruct Hf as [Hf Hne].
      apply in_app_iff in Hi. destruct Hi as [Hi | [<- | []]].
      * exact (Hout _ Hi Hf).
      * rewrite Nat.eqb_refl in Hne. discriminate Hne.
    + intros id. rewrite Hall, filter_In, in_app_iff. simpl.
      destruct (Nat.eqb_spec id (Three.mesh_id m)) as [-> | Hne]; simpl;
        intuition congruence.
    + exact Hnext.
  - rewrite app_nil_r. exists ids.
    split; [exact Hd | split; [exact Hnd | split; [exact Hout | ]]].
    split; [exact Hall | exact Hnext].
Qed.

Lemma onload_disposal (s : State) (g : Three.BufferGeometry) :
  context_ok s ->
  exists s1 k, reader_onload host (Some g) s = Returned (updateCostAndEmail host s1)
    /\ disposed (effects s1) = disposed (effects s)
    /\ scene_meshes s1 = (scene_meshes s ++ [k])%list
    /\ nextId (effects s1) = S k
    /\ k = (if is_null (scene (vars s)) then nextId (effects s) + 4 else nextId (effects s))%nat
    /\ is_null (scene (vars s1)) = false.
Proof.
  open_state s. unfold context_ok. simpl.
  destruct sc as [sc | ], cam, ren, ctl; simpl; try tauto; intros Hc;
    unfold_onload; simpl;
    (eexists; eexists; split; [reflexivity | ]); unfold scene_meshes; simpl;
    rewrite ?mesh_ids_add; simpl; repeat split; reflexivity.
Qed.

Lemma disposal_step (s : State) (e : Event) :
  context_ok s -> meshes_ok s -> disposal_ok s -> disposal_ok (step host s e).
Proof.
  intros Hc Hm Hd.
  destruct e as [[file | ] | [g | ] | | value | option | w h | ]; unfold step, handle.
  - apply disposal_reset; [exact Hc | exact Hm | exact Hd].
  - exact Hd.
  - destruct (onload_disposal s g Hc) as (s1 & k & -> & H1 & H2 & H3 & H4 & H5).
    apply disposal_ok_update. destruct Hd as (ids & Hd & Hnd & Hout & Hall & Hnext).
    exists ids. unfold disposal_of. rewrite H1, H2, H3, H5.
    assert (Hk : (4 <= k)%nat /\ forall id, (4 <= id < k)%nat
                   <-> In id (scene_meshes s) \/ In id ids).
    { subst k. destruct (is_null (scene (vars s))).
      - split; [lia | ]. intros id. rewrite <- Hall, Hnext. lia.
      - split; [lia | ]. exact Hall. }
    destruct Hk as [Hk4 Hk].
    split; [exact Hd | split; [exact Hnd | split; [ | split]]].
    + intros id Hi Hin. apply in_app_iff in Hin. destruct Hin as [Hin | [<- | []]].
      * exact (Hout _ Hi Hin).
      * assert (4 <= k < k)%nat by (apply Hk; right; exact Hi). lia.
    + intros id. rewrite in_app_iff. simpl. specialize (Hk id).
      destruct (Nat.eq_dec k id) as [-> | Hne]; [intuition lia | ].
      split.
      * intros H. assert (H' : (4 <= id < k)%nat) by lia. apply Hk in H'. tauto.
      * intros [[H | [H | []]] | H]; try congruence;
          (assert (4 <= id < k)%nat by (apply Hk; tauto)); lia.
    + lia.
  - apply disposal_reset; [exact Hc | exact Hm | exact Hd].
  - apply disposal_reset; [exact Hc | exact Hm | exact Hd].
  - apply disposal_ok_update. exact Hd.
  - apply disposal_ok_update. exact Hd.
  - simpl final. destruct (resizeListener _); [ | exact Hd].
    unfold onWindowResize. simpl.
    destruct (camera (vars s)); [ | exact Hd]. destruct (renderer (vars s)); exact Hd.
  - change (disposal_ok (step host s AnimationFrame)).
    destruct (frame_spec host s) as (_ & (Hsc & _) & (_ & Hnx & Hdis & _) & _).
    unfold disposal_ok, disposal_of, scene_meshes. rewrite Hsc, Hnx, Hdis. exact Hd.
Qed.

End MoreInvariants.

(** ** Parsed reads, the display, events that load nothing *)

Section MoreScriptFacts.

Context (host : Host).

Local Open Scope float_scope.

(** *** What a parsed read leaves as it was *)

Lemma onload_spec (s : State) (g : Three.BufferGeometry) :
  context_ok s ->
  exists s1 m,
    reader_onload host (Some g) s = Returned (updateCostAndEmail host s1)
    /\ (currentMesh (vars s1) = Some m /\ Three.geometry m = g
        /\ Three.mesh_id m
           = (if is_null (scene (vars s)) then nextId (effects s) + 4
              else nextId (effects s))%nat
        /\ modelVolumeCm3 (vars s1) = estimate_volume (Three.getSize (Three.boundingBox g))
        /\ loadedFileName (vars s1) = loadedFileName (vars s)
        /\ forall sc, scene (vars s) = Some sc ->
             scene (vars s1) = Some (Three.add (Three.MeshObject m) sc))
    /\ (console_errors (effects s1) = console_errors (effects s)
        /\ disposed (effects s1) = disposed (effects s)
        /\ nextId (effects s1) = S (Three.mesh_id m))
    /\ (fileInfo (page s1) = fileInfo (page s)
        /\ colorInput (page s1)
           = {| input_value := input_value (colorInput (page s)); input_disabled := false |}
        /\ materialInput (page s1)
           = {| selected := selected (materialInput (page s)); select_disabled := false |}).
Proof.
  open_state s. unfold context_ok. simpl.
  destruct sc, cam, ren, ctl; simpl; try tauto; intros Hc;
    unfold_onload; simpl;
    (eexists; eexists; split; [reflexivity | ]); simpl;
    (split; [ | split]); repeat split; try reflexivity;
    intros sc' H; try discriminate H; injection H as <-; reflexivity.
Qed.

(** The camera and the controls after a parsed read. *)
Lemma onload_camera (s : State) (g : Three.BufferGeometry) :
  context_ok s -> settings_ok s ->
  let box := Three.boundingBox g in
  let center := Three.getCenter box in
  let size := Three.getSize box in
  let maxDim := JSNumber.max3 (Three.x size) (Three.y size) (Three.z size) in
  let cameraZ := abs (maxDim / 2 / Math_tan host (75 * (JSNumber.PI / 180) / 2)) * 1.5 in
  let minZ := Three.z (Three.min box) in
  exists s1 cam ctl,
    reader_onload host (Some g) s = Returned (updateCostAndEmail host s1)
    /\ camera (vars s1) = Some cam /\ controls (vars s1) = Some ctl
    /\ Three.lookAt cam = Some center /\ Three.target ctl = center
    /\ Three.position cam
       = OrbitControls_update host ctl
           (Three.vec3 (Three.x center) (Three.y center) (Three.z center + cameraZ))
    /\ Three.far cam = (if minZ <? 0 then - minZ + cameraZ else cameraZ - minZ) * 3.
Proof.
  open_state s. unfold context_ok, settings_ok. simpl.
  destruct sc, cam as [cam | ], ren, ctl; simpl; try tauto; intros Hc (Hs & _);
    try (destruct (Hs cam eq_refl) as [Hfov _]);
    unfold_onload; simpl;
    try rewrite Hfov;
    (eexists; eexists; eexists; split; [reflexivity | ]); simpl;
    repeat split; reflexivity.
Qed.

(** *** The larger invariant *)

Lemma more_invariant_step (s : State) (e : Event) :
  more_invariant host s -> more_invariant host (step host s e).
Proof.
  intros (Hi & Hw & Hv & Hs & Hsc & Hd).
  pose proof Hi as (Hc & _ & _ & Hm & _).
  split; [apply invariant_step, Hi | ].
  split; [apply widgets_step; assumption | ].
  destruct (viewport_step host s e Hc Hw Hv Hs) as [Hv' Hs'].
  split; [exact Hv' | ]. split; [exact Hs' | ].
  split; [apply scene_step; assumption | ].
  apply disposal_step; assumption.
Qed.

Lemma more_invariant_initial : more_invariant host (initial host).
Proof.
  split; [apply invariant_initial | ].
  unfold widgets_ok, viewport_ok, settings_ok, scene_ok, disposal_ok.
  repeat split; try discriminate; try (left; reflexivity).
  exists []. split; [reflexivity | split; [constructor | split; [intros id [] | ]]].
  split; [ | reflexivity]. intros id. simpl. lia.
Qed.

Lemma more_invariant_run (s : State) (events : list Event) :
  more_invariant host s -> more_invariant host (run host s events).
Proof.
  revert s. induction events as [ | e events IH]; intros s Hs; [exact Hs | ].
  apply IH, more_invariant_step, Hs.
Qed.

Lemma more_invariant_reachable (events : list Event) :
  more_invariant host (run host (initial host) events).
Proof. apply more_invariant_run, more_invariant_initial. Qed.

(** *** The three outcomes of [updateCostAndEmail] *)

Lemma update_cases (s : State) :
  let volume := modelVolumeCm3 (vars s) in
  let option := selected (materialInput (page s)) in
  let density := density_of host option in
  let massGrams := volume * density in
  let estimatedCost := massGrams * COST_PER_GRAM in
  let fileName := loadedFileName (vars s) in
  (is_null (currentMesh (vars s)) || (volume <=? 0) = true
   /\ display (updateCostAndEmail host s)
      = (prompt_upload host, {| href := None; class_disabled := true |}, EmptyString))
  \/ (is_null (currentMesh (vars s)) || (volume <=? 0) = false
      /\ negb (JSString.truthy (option_value option)) || (density <=? 0) = true
      /\ display (updateCostAndEmail host s)
         = (prompt_material host, {| href := None; class_disabled := true |}, EmptyString))
  \/ (is_null (currentMesh (vars s)) || (volume <=? 0) = false
      /\ negb (JSString.truthy (option_value option)) || (density <=? 0) = false
      /\ display (updateCostAndEmail host s)
         = (estimate_html host volume (option_value option) density massGrams estimatedCost,
            {| href := Some (mailto (quote_subject fileName)
                               (quote_body host fileName
                                  (color_of (input_value (colorInput (page s))))
                                  (option_value option) volume massGrams estimatedCost));
               class_disabled := false |},
            "Ready to generate email draft."%string)).
Proof.
  unfold display, updateCostAndEmail.
  destruct (_ || _); [left; split; reflexivity | right].
  destruct (_ || _); [left | right]; repeat split.
Qed.

(** What [updateCostAndEmail] gives again on a display that is up to
    date. *)
Lemma in_sync_fixed (s : State) : in_sync host s -> updateCostAndEmail host s = s.
Proof.
  unfold in_sync, display. intros H.
  pose proof (update_vars host s) as Hv. pose proof (update_effects host s) as He.
  destruct (update_page host s) as (H1 & H2 & H3 & H4 & H5).
  destruct (updateCostAndEmail host s) as [v [i vw msg c m cost l st] e].
  destruct s as [v0 [i0 vw0 msg0 c0 m0 cost0 l0 st0] e0].
  simpl in *. congruence.
Qed.

(** *** Events that load nothing *)

Lemma loads_nothing_step (s : State) (e : Event) :
  loads_nothing e = true ->
  let s' := step host s e in
  (scene (vars s') = scene (vars s) /\ controls (vars s') = controls (vars s)
   /\ currentMesh (vars s') = currentMesh (vars s)
   /\ modelVolumeCm3 (vars s') = modelVolumeCm3 (vars s)
   /\ loadedFileName (vars s') = loadedFileName (vars s))
  /\ effects s' = effects s
  /\ fileInfo (page s') = fileInfo (page s)
  /\ viewerMessage (page s') = viewerMessage (page s)
  /\ input_disabled (colorInput (page s')) = input_disabled (colorInput (page s))
  /\ select_disabled (materialInput (page s')) = select_disabled (materialInput (page s)).
Proof.
  destruct e as [[file | ] | [g | ] | | value | option | w h | ]; try discriminate; intros _;
    unfold step, handle; simpl final.
  - rewrite update_vars, update_effects.
    destruct (update_page host (upd_page (upd_colorInput (with_value value)) s))
      as (H1 & _ & H3 & H4 & H5).
    rewrite H1, H3, H4, H5. repeat split.
  - rewrite update_vars, update_effects.
    destruct (update_page host (upd_page (upd_materialInput (with_selected option)) s))
      as (H1 & _ & H3 & H4 & H5).
    rewrite H1, H3, H4, H5. repeat split.
  - destruct (resizeListener _); [ | repeat split].
    unfold onWindowResize. simpl.
    destruct (camera (vars s)); [ | repeat split].
    destruct (renderer (vars s)); repeat split.
Qed.

End MoreScriptFacts.

(** ** Escaped text *)

Module EscapeFacts.

Import JSString.

Lemma all_chars_app (p : ascii -> bool) (a b : string) :
  all_chars p (a ++ b) = all_chars p a && all_chars p b.
Proof.
  induction a as [ | c a IH]; simpl; [reflexivity | ]. rewrite IH, andb_assoc. reflexivity.
Qed.

Lemma occurrences_app (c : ascii) (a b : string) :
  occurrences c (a ++ b) = (occurrences c a + occurrences c b)%nat.
Proof. induction a as [ | d a IH]; simpl; [reflexivity | ]. rewrite IH. lia. Qed.

Lemma hex_digit_unreserved (n : N) : unreserved (hex_digit n) = true.
Proof.
  unfold hex_digit. generalize (N.to_nat n) as k. intros k.
  do 16 (destruct k as [ | k]; [reflexivity | ]). reflexivity.
Qed.

Lemma encoded_chars (s : string) : all_chars escaped_char (encodeURIComponent s) = true.
Proof.
  induction s as [ | a s IH]; [reflexivity | ]. simpl encodeURIComponent.
  destruct (unreserved a) eqn:E.
  - simpl. unfold escaped_char at 1. rewrite E. exact IH.
  - cbn [all_chars]. rewrite IH. unfold escaped_char.
    rewrite !hex_digit_unreserved. reflexivity.
Qed.

(** A character that is not one of an escaped text does not occur in it. *)
Lemma absent_char (p : ascii -> bool) (c : ascii) (s : string) :
  p c = false -> all_chars p s = true -> occurrences c s = 0%nat.
Proof.
  intros Hc. induction s as [ | a s IH]; simpl; [reflexivity | ].
  intros H. apply andb_true_iff in H. destruct H as [Ha Hs].
  destruct (Ascii.eqb_spec a c) as [-> | _]; [congruence | ]. apply IH, Hs.
Qed.

End EscapeFacts.

(** * More of the script

    Properties of the parts of the script that the claims leave out: the
    listener of read errors, [onWindowResize], [animate],
    [fitCameraToObject], [enableInputsAndCalc], the lights and the settings
    of [initThreeJS], and of how the listeners compose. *)

Section Extras.

Context (host : Host).

Local Open Scope float_scope.

(** ** Listeners *)

(** X1.  The listeners that do not call [updateCostAndEmail] never end
    with an exception: in every state the events lead to, the listeners of
    a file choice, of a failed parse, of a failed read, of a resize and of
    a frame return.  [renderer.render] in [resetState] never meets a
    missing renderer, and the [catch] of [reader.onload] never throws
    again. *)
Theorem listeners_return (events : list Event) (e : Event) :
  let s := run host (initial host) events in
  estimates e = false -> exists s', handle host e s = Returned s'.
Proof.
  intros s He. destruct (invariant_reachable host events) as (Hc & _). fold s in Hc.
  destruct e as [[file | ] | [g | ] | | value | option | w h | ]; try discriminate He;
    unfold handle.
  - eexists. unfold fileInput_change. apply reset_returns. exact Hc.
  - eexists. reflexivity.
  - eexists. unfold reader_onload, onload_try, onload_catch. apply reset_returns. exact Hc.
  - eexists. unfold reader_onerror. apply reset_returns. exact Hc.
  - eexists. reflexivity.
  - eexists. reflexivity.
Qed.

(** X2.  The colour input and the material select are enabled exactly
    while a mesh is loaded: [enableInputsAndCalc] runs only after
    [currentMesh] is set, and [resetState] disables both whenever it
    unsets it. *)
Theorem inputs_enabled_with_mesh (events : list Event) :
  let s := run host (initial host) events in
  input_disabled (colorInput (page s)) = is_null (currentMesh (vars s))
  /\ select_disabled (materialInput (page s)) = is_null (currentMesh (vars s)).
Proof.
  intros s. destruct (more_invariant_reachable host events) as (_ & (H1 & H2 & _) & _).
  split; [exact H1 | exact H2].
Qed.

(** X3.  [resetState] is idempotent: on a state whose rendering context is
    whole or absent, a second call right after the first changes nothing. *)
Theorem reset_twice (s : State) :
  context_ok s ->
  final (resetState host (final (resetState host s))) = final (resetState host s).
Proof.
  open_state s. unfold context_ok, resetState. simpl.
  destruct sc, cam, ren, ctl, mesh; simpl; try tauto; intros; reflexivity.
Qed.

(** X4.  When a read fails, [reader.onerror] logs the error, writes
    ['File:  - Read Error'] to [#fileInfo] (with an empty file name) and
    resets the rest: no mesh, volume 0, the upload prompt, no link, inputs
    emptied and disabled.  Its text ['Error reading file.'] does not
    outlast the listener: [resetState] writes over [#viewerMessage].  The
    scene, the camera, the renderer and the controls stay. *)
Theorem read_error_resets (events : list Event) :
  let s := run host (initial host) events in
  let s' := step host s FileReadError in
  (fileInfo (page s') = "File:  - Read Error"%string
   /\ console_errors (effects s')
      = (console_errors (effects s) ++ ["Error reading file"%string])%list
   /\ viewerMessage (page s')
      = if is_null (renderer (vars s)) then upload_invitation else EmptyString)
  /\ (currentMesh (vars s') = None /\ modelVolumeCm3 (vars s') = 0)
  /\ (display s' = (prompt_upload host, {| href := None; class_disabled := true |}, EmptyString)
      /\ colorInput (page s') = {| input_value := EmptyString; input_disabled := true |}
      /\ materialInput (page s') = {| selected := placeholder host; select_disabled := true |})
  /\ (identities s' = identities s /\ initCalls (effects s') = initCalls (effects s)).
Proof.
  intros s s'.
  destruct (invariant_reachable host events) as (Hc & Hn & _ & Hm & _). fold s in Hc, Hn, Hm.
  unfold s', step, handle, reader_onerror.
  set (s2 := upd_page _ (upd_page _ (upd_effects _ s))).
  assert (Hc2 : context_ok s2) by exact Hc.
  destruct (reset_spec host s2 Hc2)
    as ((Hcam & Hren & Hctl & Hsc) & (_ & Hi & _ & He) & Hd & Hci & Hmi & Hf & Hmsg).
  destruct (reset_vars host s2 Hc2) as (Hv & _ & Hmesh).
  split; [split; [ | split; [exact He | exact Hmsg]] | ].
  - rewrite Hf. unfold s2. simpl. rewrite Hn. reflexivity.
  - split; [split; [exact Hmesh | exact Hv] | ].
    split; [split; [exact Hd | split; [exact Hci | exact Hmi]] | ].
    split; [ | exact Hi].
    unfold identities. rewrite Hcam, Hren, Hctl, Hsc.
    change (vars s2) with (vars s).
    destruct (currentMesh (vars s)), (scene (vars s)); reflexivity.
Qed.

Lemma keeps_fileInfo_step (s : State) (e : Event) :
  context_ok s -> keeps_fileInfo e = true -> fileInfo (page (step host s e)) = fileInfo (page s).
Proof.
  intros Hc He.
  destruct e as [[file | ] | [g | ] | | value | option | w h | ]; try discriminate He.
  - reflexivity.
  - unfold step, handle.
    destruct (onload_spec host s g Hc) as (s1 & m & -> & _ & _ & Hf & _).
    simpl final. destruct (update_page host s1) as (H & _). rewrite H. exact Hf.
  - apply (loads_nothing_step host s (ColorEdited value) eq_refl).
  - apply (loads_nothing_step host s (MaterialSelected option) eq_refl).
  - apply (loads_nothing_step host s (WindowResized w h) eq_refl).
  - destruct (frame_spec host s) as (H & _). rewrite H. reflexivity.
Qed.

(** X5.  Once a file is chosen, [#fileInfo] names it, with its size in MB
    to two decimals, and keeps doing so until another file is chosen or a
    read fails: a read that the loader parses, the inputs and resizes leave
    it alone.  (The variable [loadedFileName] is emptied at once; the text
    of [#fileInfo] is not.) *)
Theorem file_info_names_file (events : list Event) (file : File) (later : list Event) :
  forallb keeps_fileInfo later = true ->
  fileInfo (page (run host (initial host) (events ++ FileChosen (Some file) :: later)))
  = ("File: " ++ file_name file ++ " ("
     ++ toFixed2 host (file_size file / 1024 / 1024) ++ " MB)")%string.
Proof.
  intros Hl. rewrite run_app.
  pose proof (invariant_reachable host events) as Hi.
  set (s := run host (initial host) events) in *.
  change (run host s (FileChosen (Some file) :: later))
    with (run host (step host s (FileChosen (Some file))) later).
  pose proof (invariant_step host s (FileChosen (Some file)) Hi) as Hi'.
  assert (Hf : fileInfo (page (step host s (FileChosen (Some file))))
               = ("File: " ++ file_name file ++ " ("
                  ++ toFixed2 host (file_size file / 1024 / 1024) ++ " MB)")%string).
  { destruct Hi as (Hc & _). unfold step, handle, fileInput_change.
    set (s2 := upd_page _ (upd_page _ (upd_vars _ s))).
    assert (Hc2 : context_ok s2) by exact Hc.
    destruct (reset_spec host s2 Hc2) as (_ & _ & _ & _ & _ & H & _). exact H. }
  revert Hi' Hf. generalize (step host s (FileChosen (Some file))). clear s Hi.
  induction later as [ | e later IH]; intros s Hi Hf; [exact Hf | ].
  simpl in Hl. apply andb_true_iff in Hl. destruct Hl as [He Hl].
  apply (IH Hl).
  - apply invariant_step, Hi.
  - rewrite keeps_fileInfo_step; [exact Hf | apply Hi | exact He].
Qed.

(** X6.  The text of [#viewerMessage] is ['Please upload an STL file to
    view.'] or empty in every state a listener leaves, and it is the former
    while there is no renderer: ['Loading model...'] and the two error
    texts are written over by [resetState] before their listener ends. *)
Theorem viewer_message_texts (events : list Event) :
  let s := run host (initial host) events in
  (viewerMessage (page s) = upload_invitation \/ viewerMessage (page s) = EmptyString)
  /\ (is_null (renderer (vars s)) = true -> viewerMessage (page s) = upload_invitation)
  /\ viewerMessage (page s) <> "Loading model..."%string
  /\ viewerMessage (page s) <> "Error reading file."%string
  /\ viewerMessage (page s)
     <> "Error loading STL file. Please check the file format."%string.
Proof.
  intros s. destruct (more_invariant_reachable host events) as (_ & (_ & _ & H & _) & _).
  fold s in H. unfold upload_invitation in *.
  split; [tauto | ]. split.
  - intros Hr. destruct H as [H | [_ H]]; [exact H | ].
    destruct (renderer (vars s)); [discriminate Hr | congruence].
  - repeat split; intros E; rewrite E in H; destruct H as [H | [H _]]; discriminate H.
Qed.

(** X7.  Whenever there is a renderer, it has the size of [#viewer] and
    the camera has its aspect ratio: [initThreeJS] sets them and installs
    [onWindowResize], which sets them again at every resize of the window
    (the size of [#viewer] is taken to change with the window only). *)
Theorem renderer_fits_viewer (events : list Event) (cam : Three.PerspectiveCamera)
  (ren : Three.WebGLRenderer) :
  let s := run host (initial host) events in
  camera (vars s) = Some cam -> renderer (vars s) = Some ren ->
  Three.width ren = clientWidth (viewer (page s))
  /\ Three.height ren = clientHeight (viewer (page s))
  /\ Three.aspect cam = clientWidth (viewer (page s)) / clientHeight (viewer (page s)).
Proof.
  intros s Hcam Hren.
  destruct (more_invariant_reachable host events) as (_ & _ & H & _).
  exact (H cam ren Hcam Hren).
Qed.

(** ** The camera *)

(** X8.  After a read that the loader parses, the controls turn around the
    centre of the model's bounding box and the camera has been turned to
    it; the camera is put on the line through the centre along z, at the
    distance that a field of view of 75 degrees and the offset 1.5 give,
    and stands where [controls.update()] takes it from there. *)
Theorem camera_aims_at_model (events : list Event) (g : Three.BufferGeometry) :
  let s' := run host (initial host) (events ++ [FileRead (Some g)]) in
  let box := Three.boundingBox g in
  let center := Three.getCenter box in
  let size := Three.getSize box in
  let maxDim := JSNumber.max3 (Three.x size) (Three.y size) (Three.z size) in
  let cameraZ := abs (maxDim / 2 / Math_tan host (75 * (JSNumber.PI / 180) / 2)) * 1.5 in
  exists cam ctl,
    camera (vars s') = Some cam /\ controls (vars s') = Some ctl
    /\ Three.lookAt cam = Some center /\ Three.target ctl = center
    /\ Three.position cam
       = OrbitControls_update host ctl
           (Three.vec3 (Three.x center) (Three.y center) (Three.z center + cameraZ)).
Proof.
  intros s' box center size maxDim cameraZ. unfold s'. rewrite run_app.
  destruct (more_invariant_reachable host events) as ((Hc & _) & _ & _ & Hs & _).
  set (s := run host (initial host) events) in *.
  change (run host s [FileRead (Some g)]) with (final (reader_onload host (Some g) s)).
  destruct (onload_camera host s g Hc Hs) as (s1 & cam & ctl & -> & H1 & H2 & H3 & H4 & H5 & _).
  simpl final. rewrite update_vars. exists cam, ctl.
  split; [exact H1 | split; [exact H2 | split; [exact H3 | split; [exact H4 | exact H5]]]].
Qed.

(** X9.  For a model whose bounding box does not start above the plane
    z = 0 (as for every box that [geometry.center()] has centred), the far
    plane that [fitCameraToObject] gives the camera is not negative. *)
Theorem far_plane_not_negative (events : list Event) (g : Three.BufferGeometry) :
  let s' := run host (initial host) (events ++ [FileRead (Some g)]) in
  (0 <? Three.z (Three.min (Three.boundingBox g))) = false ->
  exists cam, camera (vars s') = Some cam /\ JSNumber.not_negative (Three.far cam).
Proof.
  intros s' Hz. unfold s'. rewrite run_app.
  destruct (more_invariant_reachable host events) as ((Hc & _) & _ & _ & Hs & _).
  set (s := run host (initial host) events) in *.
  change (run host s [FileRead (Some g)]) with (final (reader_onload host (Some g) s)).
  destruct (onload_camera host s g Hc Hs) as (s1 & cam & ctl & -> & H1 & _ & _ & _ & _ & H6).
  simpl final. rewrite update_vars. exists cam. split; [exact H1 | ]. rewrite H6.
  set (cameraZ := abs _ * 1.5).
  assert (HZ : JSNumber.not_negative cameraZ).
  { apply FloatFacts.mul_not_negative; [apply MoreFloatFacts.abs_not_negative | ].
    right. reflexivity. }
  apply FloatFacts.mul_not_negative; [ | right; reflexivity].
  destruct (Three.z (Three.min (Three.boundingBox g)) <? 0) eqn:E.
  - apply MoreFloatFacts.add_not_negative;
      [apply MoreFloatFacts.opp_not_negative, E | exact HZ].
  - apply FloatFacts.sub_not_negative, MoreFloatFacts.not_below_zero; assumption.
Qed.

(** ** Models without volume *)

Lemma loads_nothing_run (s : State) (later : list Event) :
  forallb loads_nothing later = true ->
  currentMesh (vars (run host s later)) = currentMesh (vars s)
  /\ modelVolumeCm3 (vars (run host s later)) = modelVolumeCm3 (vars s).
Proof.
  revert s. induction later as [ | e later IH]; intros s Hl; [split; reflexivity | ].
  simpl in Hl. apply andb_true_iff in Hl. destruct Hl as [He Hl].
  destruct (loads_nothing_step host s e He) as ((_ & _ & H1 & H2 & _) & _).
  destruct (IH (step host s e) Hl) as [H3 H4]. simpl run.
  split; [rewrite H3; exact H1 | rewrite H4; exact H2].
Qed.

(** X10.  A model whose volume estimate compares [<= 0] (a flat one, or a
    file without triangles) is loaded and displayed and the inputs are
    enabled, yet whatever colour and material are then entered, the page
    keeps asking for an upload and offers no link. *)
Theorem flat_model_never_quoted (events : list Event) (g : Three.BufferGeometry)
  (later : list Event) :
  let s := run host (initial host) (events ++ FileRead (Some g) :: later) in
  (estimate_volume (Three.getSize (Three.boundingBox g)) <=? 0) = true ->
  forallb loads_nothing later = true ->
  currentMesh (vars s) <> None
  /\ input_disabled (colorInput (page s)) = false
  /\ select_disabled (materialInput (page s)) = false
  /\ display s = (prompt_upload host, {| href := None; class_disabled := true |}, EmptyString).
Proof.
  intros s Hv Hl.
  destruct (more_invariant_reachable host (events ++ FileRead (Some g) :: later))
    as ((_ & _ & Hsync & _) & (Hw1 & Hw2 & _) & _).
  fold s in Hsync, Hw1, Hw2.
  assert (H : exists m, currentMesh (vars s) = Some m
                        /\ modelVolumeCm3 (vars s)
                           = estimate_volume (Three.getSize (Three.boundingBox g))).
  { unfold s. rewrite run_app.
    destruct (invariant_reachable host events) as (Hc & _).
    set (s0 := run host (initial host) events) in *.
    change (run host s0 (FileRead (Some g) :: later))
      with (run host (final (reader_onload host (Some g) s0)) later).
    destruct (onload_spec host s0 g Hc) as (s1 & m & -> & (Hm & _ & _ & Hvol & _) & _).
    simpl final. destruct (loads_nothing_run (updateCostAndEmail host s1) later Hl) as [H1 H2].
    rewrite H1, H2, update_vars. eauto. }
  destruct H as (m & Hm & Hvol).
  rewrite Hw1, Hw2, Hm. repeat split; try discriminate.
  rewrite <- Hsync.
  destruct (update_cases host s) as [(_ & H) | [(H & _) | (H & _)]]; [exact H | | ];
    rewrite Hvol, Hv, orb_true_r in H; discriminate H.
Qed.

(** ** The link *)

Lemma link_of_update (s : State) (h : string) :
  href (emailLink (page (updateCostAndEmail host s))) = Some h ->
  exists subject body, h = mailto subject body.
Proof.
  intros H.
  destruct (update_cases host s) as [(_ & E) | [(_ & _ & E) | (_ & _ & E)]];
    unfold display in E; injection E as _ E _; rewrite E in H; simpl in H;
    try discriminate H.
  injection H as <-. eauto.
Qed.

(** X11.  Whatever the colour typed and the [value] of the option
    selected, the link is the address of [TARGET_EMAIL] followed by a
    [subject] and a [body] and nothing else: both are escaped, so that the
    link has exactly one [?], one [&] and two [=]. *)
Theorem link_has_two_fields (events : list Event) (h : string) :
  let s := run host (initial host) events in
  href (emailLink (page s)) = Some h ->
  exists subject body,
    h = ("mailto:your-print-service@example.com?subject=" ++ subject
         ++ "&body=" ++ body)%string
    /\ all_chars escaped_char subject = true /\ all_chars escaped_char body = true
    /\ occurrences "?" h = 1%nat /\ occurrences "&" h = 1%nat
    /\ occurrences "=" h = 2%nat.
Proof.
  intros s H.
  destruct (invariant_reachable host events) as (_ & _ & Hsync & _). fold s in Hsync.
  unfold in_sync, display in Hsync. injection Hsync as _ Hl _. rewrite <- Hl in H.
  destruct (link_of_update s h H) as (subject & body & ->).
  exists (JSString.encodeURIComponent subject), (JSString.encodeURIComponent body).
  pose proof (EscapeFacts.encoded_chars subject) as Hs.
  pose proof (EscapeFacts.encoded_chars body) as Hb.
  split; [reflexivity | ]. split; [exact Hs | ]. split; [exact Hb | ].
  unfold mailto, TARGET_EMAIL.
  change ("mailto:" ++ "your-print-service@example.com" ++ "?subject="
          ++ JSString.encodeURIComponent subject ++ "&body="
          ++ JSString.encodeURIComponent body)%string
    with (("mailto:your-print-service@example.com?subject="
           ++ JSString.encodeURIComponent subject)
          ++ "&body=" ++ JSString.encodeURIComponent body)%string.
  rewrite !EscapeFacts.occurrences_app.
  rewrite (EscapeFacts.absent_char escaped_char "?" _ eq_refl Hs),
    (EscapeFacts.absent_char escaped_char "&" _ eq_refl Hs),
    (EscapeFacts.absent_char escaped_char "=" _ eq_refl Hs),
    (EscapeFacts.absent_char escaped_char "?" _ eq_refl Hb),
    (EscapeFacts.absent_char escaped_char "&" _ eq_refl Hb),
    (EscapeFacts.absent_char escaped_char "=" _ eq_refl Hb).
  repeat split.
Qed.

(** ** Meshes and their release *)

Lemma orphan_reset (m : Three.Mesh) (s : State) :
  context_ok s -> orphan m s -> orphan m (final (resetState host s)).
Proof.
  intros Hc ((sc & Hsc & Hin) & Hcur & Hg & Hm).
  destruct (reset_spec host s Hc) as ((_ & _ & _ & Hsc') & (Hd & _) & _).
  destruct (reset_vars host s Hc) as (_ & _ & Hmesh).
  unfold orphan. rewrite Hsc', Hd, Hmesh, Hsc. clear Hsc' Hd Hmesh.
  destruct (currentMesh (vars s)) as [c | ].
  - specialize (Hcur c eq_refl).
    split; [ | split; [discriminate | ]].
    + eexists. split; [reflexivity | ]. unfold Three.remove. simpl Three.children.
      apply filter_In. split; [exact Hin | ]. simpl.
      destruct (Nat.eqb_spec (Three.mesh_id m) (Three.mesh_id c)); [congruence | reflexivity].
    + rewrite !in_app_iff. simpl. split; intros [H | [H | [H | []]]];
        try tauto; try discriminate H; injection H as H; congruence.
  - rewrite app_nil_r. split; [eauto | split; [discriminate | tauto]].
Qed.

Lemma orphan_step (m : Three.Mesh) (s : State) (e : Event) :
  context_ok s -> meshes_ok s -> orphan m s -> orphan m (step host s e).
Proof.
  intros Hc Hm Ho.
  destruct e as [[file | ] | [g | ] | | value | option | w h | ].
  - apply orphan_reset; [exact Hc | exact Ho].
  - exact Ho.
  - unfold step, handle.
    destruct (onload_spec host s g Hc)
      as (s1 & m1 & -> & (Hm1 & _ & Hid & _ & _ & Hsc1) & (_ & Hd & _) & _).
    simpl final. destruct Ho as ((sc & Hsc & Hin) & _ & Hg & Hmat).
    unfold orphan. rewrite update_vars, update_effects, Hm1, Hd, (Hsc1 sc Hsc).
    rewrite Hsc in Hid. simpl in Hid.
    split; [ | split; [ | tauto]].
    + eexists. split; [reflexivity | ]. unfold Three.add. simpl Three.children.
      apply in_app_iff. left. exact Hin.
    + intros c [= <-]. rewrite Hid.
      destruct Hm as [Hs _]. destruct (Hs sc Hsc) as [_ Hlt].
      assert (Three.mesh_id m < nextId (effects s))%nat; [ | lia].
      apply Hlt. unfold mesh_ids. apply in_flat_map. exists (Three.MeshObject m).
      split; [exact Hin | left; reflexivity].
  - apply orphan_reset; [exact Hc | exact Ho].
  - apply orphan_reset; [exact Hc | exact Ho].
  - destruct (loads_nothing_step host s (ColorEdited value) eq_refl)
      as ((H1 & _ & H2 & _) & H3 & _).
    unfold orphan. rewrite H1, H2, H3. exact Ho.
  - destruct (loads_nothing_step host s (MaterialSelected option) eq_refl)
      as ((H1 & _ & H2 & _) & H3 & _).
    unfold orphan. rewrite H1, H2, H3. exact Ho.
  - destruct (loads_nothing_step host s (WindowResized w h) eq_refl)
      as ((H1 & _ & H2 & _) & H3 & _).
    unfold orphan. rewrite H1, H2, H3. exact Ho.
  - destruct (frame_spec host s) as (_ & (H1 & _ & _ & H2 & _) & (_ & _ & H3 & _) & _).
    unfold orphan. rewrite H1, H2, H3. exact Ho.
Qed.

Lemma in_released (d : Three.Disposable) (ids : list nat) :
  In d (released ids)
  <-> exists id, In id ids /\ (d = Three.GeometryOf id \/ d = Three.MaterialOf id).
Proof.
  unfold released. rewrite in_flat_map. split; intros (id & Hi & H); exists id;
    (split; [exact Hi | ]); simpl in *; intuition.
Qed.

Lemma NoDup_released (ids : list nat) : NoDup ids -> NoDup (released ids).
Proof.
  induction 1 as [ | id ids Hn Hnd IH]; simpl; [constructor | ].
  constructor; [ | constructor; [ | exact IH]].
  - intros [H | H]; [discriminate H | ].
    apply in_released in H. destruct H as (id' & Hi & [[= <-] | H]); [tauto | discriminate H].
  - intros H. apply in_released in H.
    destruct H as (id' & Hi & [H | [= <-]]); [discriminate H | tauto].
Qed.

Lemma orphan_run (m : Three.Mesh) (later : list Event) (s : State) :
  invariant host s -> orphan m s -> orphan m (run host s later).
Proof.
  revert s. induction later as [ | e later IH]; intros s Hi Ho; [exact Ho | ].
  simpl run. apply IH; [apply invariant_step, Hi | ].
  destruct Hi as (Hc & _ & _ & Hm & _). apply orphan_step; assumption.
Qed.

(** A read that the loader parses while a mesh is current leaves that mesh
    in the scene, no longer current. *)
Lemma orphan_made (s : State) (m : Three.Mesh) (g : Three.BufferGeometry) :
  more_invariant host s -> currentMesh (vars s) = Some m ->
  orphan m (step host s (FileRead (Some g))).
Proof.
  intros ((Hc & _ & _ & Hm & _) & _ & _ & _ & _ & (ids & Hd & _ & Hout & _)) Hcur.
  destruct Hm as [Hs Hin]. destruct (Hin m Hcur) as (sc & Hsc & Hch).
  destruct (Hs sc Hsc) as [_ Hlt].
  assert (Hid : In (Three.mesh_id m) (mesh_ids sc)).
  { unfold mesh_ids. apply in_flat_map. exists (Three.MeshObject m).
    split; [exact Hch | left; reflexivity]. }
  unfold step, handle.
  destruct (onload_spec host s g Hc)
    as (s1 & m1 & -> & (Hm1 & _ & Hid1 & _ & _ & Hsc1) & (_ & Hdis & _) & _).
  simpl final. unfold orphan. rewrite update_vars, update_effects, Hm1, Hdis, (Hsc1 sc Hsc).
  rewrite Hsc in Hid1. simpl in Hid1.
  split; [ | split].
  - eexists. split; [reflexivity | ]. unfold Three.add. simpl Three.children.
    apply in_app_iff. left. exact Hch.
  - intros c [= <-]. rewrite Hid1. specialize (Hlt _ Hid). lia.
  - rewrite Hd. split; intros H; apply in_released in H;
      destruct H as (id & Hi & [E | E]); try discriminate E; injection E as <-;
      apply (Hout _ Hi); unfold scene_meshes; rewrite Hsc; exact Hid.
Qed.

(** X12.  When a read that the loader parses ends while a mesh is current
    (two reads in a row, with no choice of a file in between), that mesh
    stays in the scene for ever, is no longer the current one and is never
    released: [resetState] removes and disposes of [currentMesh] only. *)
Theorem orphan_mesh_stays (events later : list Event) (m : Three.Mesh)
  (g : Three.BufferGeometry) :
  let s := run host (initial host) events in
  currentMesh (vars s) = Some m ->
  orphan m (run host s (FileRead (Some g) :: later)).
Proof.
  intros s Hcur. pose proof (more_invariant_reachable host events) as Hi. fold s in Hi.
  simpl run. apply orphan_run.
  - apply invariant_step, Hi.
  - apply orphan_made; assumption.
Qed.

(** X13.  What was released was released once, geometry and material
    together, and only after the mesh had left the scene: no mesh in the
    scene, and so not the current one, has been disposed of. *)
Theorem released_once (events : list Event) :
  let s := run host (initial host) events in
  exists ids,
    disposed (effects s) = released ids
    /\ NoDup (disposed (effects s))
    /\ (forall id, In id ids -> ~ In id (scene_meshes s))
    /\ (forall m, currentMesh (vars s) = Some m -> ~ In (Three.mesh_id m) ids).
Proof.
  intros s.
  destruct (more_invariant_reachable host events)
    as ((_ & _ & _ & (_ & Hcur) & _) & _ & _ & _ & _ & (ids & Hd & Hnd & Hout & _)).
  fold s in Hcur, Hd, Hout. exists ids.
  split; [exact Hd | ]. split; [rewrite Hd; apply NoDup_released, Hnd | ].
  split; [exact Hout | ].
  intros m Hm Hin. destruct (Hcur m Hm) as (sc & Hsc & Hc).
  apply (Hout _ Hin). unfold scene_meshes. rewrite Hsc.
  unfold mesh_ids. apply in_flat_map. exists (Three.MeshObject m).
  split; [exact Hc | left; reflexivity].
Qed.

Lemma step_nextId (s : State) (e : Event) :
  context_ok s ->
  nextId (effects (step host s e))
  = (if parsed e then S (if is_null (scene (vars s)) then nextId (effects s) + 4
                        else nextId (effects s))
     else nextId (effects s))
  /\ is_null (scene (vars (step host s e)))
     = (if parsed e then false else is_null (scene (vars s))).
Proof.
  intros Hc.
  assert (Hreset : forall s2, context_ok s2 ->
            nextId (effects s2) = nextId (effects s) -> scene (vars s2) = scene (vars s) ->
            nextId (effects (final (resetState host s2))) = nextId (effects s)
            /\ is_null (scene (vars (final (resetState host s2)))) = is_null (scene (vars s))).
  { intros s2 Hc2 H1 H2.
    destruct (reset_spec host s2 Hc2) as ((_ & _ & _ & Hsc) & (_ & _ & Hid & _) & _).
    rewrite Hid, Hsc, H1, H2.
    split; [reflexivity | ]. destruct (currentMesh (vars s2)), (scene (vars s)); reflexivity. }
  destruct e as [[file | ] | [g | ] | | value | option | w h | ]; simpl parsed.
  - apply Hreset; [exact Hc | reflexivity | reflexivity].
  - split; reflexivity.
  - unfold step, handle.
    destruct (onload_disposal host s g Hc) as (s1 & k & -> & _ & _ & H3 & H4 & H5).
    simpl final. rewrite update_vars, update_effects, H3, H4, H5. split; reflexivity.
  - apply Hreset; [exact Hc | reflexivity | reflexivity].
  - apply Hreset; [exact Hc | reflexivity | reflexivity].
  - destruct (loads_nothing_step host s (ColorEdited value) eq_refl) as ((H1 & _) & H2 & _).
    rewrite H1, H2. split; reflexivity.
  - destruct (loads_nothing_step host s (MaterialSelected option) eq_refl)
      as ((H1 & _) & H2 & _).
    rewrite H1, H2. split; reflexivity.
  - destruct (loads_nothing_step host s (WindowResized w h) eq_refl) as ((H1 & _) & H2 & _).
    rewrite H1, H2. split; reflexivity.
  - destruct (frame_spec host s) as (_ & (H1 & _) & (_ & H2 & _) & _).
    rewrite H1, H2. split; reflexivity.
Qed.

Lemma none_parsed (events : list Event) :
  existsb parsed events = false -> filter parsed events = [].
Proof.
  induction events as [ | e events IH]; simpl; [reflexivity | ].
  destruct (parsed e); simpl; [discriminate | exact IH].
Qed.

(** The identities taken so far: four by [initThreeJS], one by each mesh. *)
Lemma run_nextId (events : list Event) :
  let s := run host (initial host) events in
  is_null (scene (vars s)) = negb (existsb parsed events)
  /\ nextId (effects s)
     = (if existsb parsed events then 4 + List.length (filter parsed events) else 0)%nat.
Proof.
  induction events as [ | e events IH] using rev_ind; [split; reflexivity | ].
  cbv zeta in *. rewrite run_app. destruct IH as [IH1 IH2].
  destruct (invariant_reachable host events) as (Hc & _).
  destruct (step_nextId (run host (initial host) events) e Hc) as [H1 H2].
  change (run host (run host (initial host) events) [e])
    with (step host (run host (initial host) events) e).
  rewrite H1, H2, IH1, IH2, existsb_app, filter_app, length_app. simpl.
  destruct (parsed e); simpl; rewrite ?orb_true_r, ?orb_false_r, ?app_nil_r.
  - destruct (existsb parsed events) eqn:E; simpl; [split; [reflexivity | lia] | ].
    rewrite (none_parsed events E). split; reflexivity.
  - destruct (existsb parsed events); split; reflexivity || (simpl; lia).
Qed.

(** X14.  No mesh is lost: each read that the loader parses creates one
    mesh, and every mesh created so far is in the scene or was released,
    geometry and material. *)
Theorem meshes_accounted (events : list Event) :
  let s := run host (initial host) events in
  exists ids,
    disposed (effects s) = released ids
    /\ List.length (filter parsed events)
       = (List.length (scene_meshes s) + List.length ids)%nat.
Proof.
  intros s.
  destruct (more_invariant_reachable host events)
    as ((_ & _ & _ & (Hs & _) & _) & _ & _ & _ & _ & (ids & Hd & Hnd & Hout & Hall & _)).
  destruct (run_nextId events) as [Hnull Hnext].
  fold s in Hs, Hd, Hout, Hall, Hnull, Hnext. exists ids. split; [exact Hd | ].
  assert (Hnds : NoDup (scene_meshes s)).
  { unfold scene_meshes. destruct (scene (vars s)) as [sc | ]; [ | constructor].
    apply (Hs sc eq_refl). }
  assert (Hboth : NoDup (scene_meshes s ++ ids)).
  { apply NoDup_app; [exact Hnds | exact Hnd | ]. intros id H1 H2. exact (Hout id H2 H1). }
  rewrite <- length_app.
  assert (Hlen : List.length (scene_meshes s ++ ids) = (nextId (effects s) - 4)%nat).
  { transitivity (List.length (seq 4 (nextId (effects s) - 4))); [ | apply length_seq].
    apply Nat.le_antisymm; apply NoDup_incl_length;
      try exact Hboth; try apply seq_NoDup; intros id Hid.
    - apply in_seq. apply in_app_iff in Hid. apply Hall in Hid. lia.
    - apply in_seq in Hid. apply in_app_iff, Hall. lia. }
  rewrite Hlen, Hnext. destruct (existsb parsed events) eqn:E; [lia | ].
  rewrite (none_parsed events E). reflexivity.
Qed.

(** ** The inputs and the display *)

(** X15.  In every state the events lead to, [#costResult] is up to date:
    it shows the prompt for an upload when there is no mesh or the volume
    compares [<= 0], the prompt for a material when the value of the
    selected option is empty or its density compares [<= 0], and otherwise
    the estimate for the stored volume and the selected material. *)
Theorem estimate_is_up_to_date (events : list Event) :
  let s := run host (initial host) events in
  let volume := modelVolumeCm3 (vars s) in
  let option := selected (materialInput (page s)) in
  let density := density_of host option in
  costResult (page s)
  = if is_null (currentMesh (vars s)) || (volume <=? 0) then prompt_upload host
    else if negb (JSString.truthy (option_value option)) || (density <=? 0)
         then prompt_material host
         else estimate_html host volume (option_value option) density (volume * density)
                (volume * density * COST_PER_GRAM).
Proof.
  intros s volume option density.
  destruct (invariant_reachable host events) as (_ & _ & Hsync & _). fold s in Hsync.
  unfold in_sync in Hsync.
  destruct (update_cases host s) as [(Hg & H) | [(Hg & Hg' & H) | (Hg & Hg' & H)]];
    rewrite Hsync in H; unfold display in H; injection H as H _ _;
    fold volume in Hg; try fold option density in Hg'; rewrite Hg, ?Hg'; exact H.
Qed.

(** X16.  Editing the colour never changes the estimate shown in
    [#costResult], nor the variables of the script, nor what it has
    released or logged. *)
Theorem color_edit_keeps_estimate (events : list Event) (value : string) :
  let s := run host (initial host) events in
  let s' := step host s (ColorEdited value) in
  costResult (page s') = costResult (page s)
  /\ vars s' = vars s /\ effects s' = effects s
  /\ materialInput (page s') = materialInput (page s)
  /\ fileInfo (page s') = fileInfo (page s).
Proof.
  intros s s'.
  destruct (invariant_reachable host events) as (_ & _ & Hsync & _). fold s in Hsync.
  unfold in_sync in Hsync. unfold s', step, handle. simpl final.
  set (s1 := upd_page _ s). rewrite update_vars, update_effects.
  destruct (update_page host s1) as (Hf & _ & _ & _ & Hm). rewrite Hf, Hm.
  assert (H : costResult (page (updateCostAndEmail host s1))
              = costResult (page (updateCostAndEmail host s))).
  { unfold updateCostAndEmail. change (vars s1) with (vars s).
    change (materialInput (page s1)) with (materialInput (page s)).
    destruct (_ || _); [reflexivity | ]. destruct (_ || _); simpl; reflexivity. }
  unfold display in Hsync. injection Hsync as H1 _ _. rewrite H1 in H.
  split; [exact H | ]. split; [reflexivity | ]. split; [reflexivity | ].
  split; reflexivity.
Qed.

(** X17.  The three attributes of the link agree in every state the events
    lead to: without an [href] the link has the class ['disabled'] and the
    status line is empty; with an [href] the link is enabled and the status
    line says that the draft is ready.  While [#costResult] shows one of
    the two prompts, there is no [href]. *)
Theorem link_state_consistent (events : list Event) :
  let s := run host (initial host) events in
  match href (emailLink (page s)) with
  | None =>
      class_disabled (emailLink (page s)) = true /\ emailStatus (page s) = EmptyString
  | Some _ =>
      class_disabled (emailLink (page s)) = false
      /\ emailStatus (page s) = "Ready to generate email draft."%string
      /\ costResult (page s) <> prompt_upload host
      /\ costResult (page s) <> prompt_material host
  end.
Proof.
  intros s.
  destruct (invariant_reachable host events) as (_ & _ & Hsync & _). fold s in Hsync.
  unfold in_sync in Hsync.
  destruct (update_cases host s) as [(_ & H) | [(_ & _ & H) | (_ & _ & H)]];
    rewrite Hsync in H; unfold display in H; injection H as H1 H2 H3;
    rewrite H2; simpl; [split; [reflexivity | exact H3] .. | ].
  rewrite H1. split; [reflexivity | ]. split; [exact H3 | ].
  unfold prompt_upload, prompt_material. split; apply estimate_is_no_prompt.
Qed.

(** X18.  Right after a file is chosen and read, no estimate is shown,
    whatever was selected before: [resetState] has put the select back to
    the option of value [''], so that the first calculation ends in a
    prompt, for a material when the volume estimate is positive or NaN. *)
Theorem fresh_model_asks_for_material (events : list Event) (file : File)
  (g : Three.BufferGeometry) :
  let s := run host (initial host) (events ++ [FileChosen (Some file); FileRead (Some g)]) in
  (input_value (colorInput (page s)) = EmptyString
   /\ selected (materialInput (page s)) = placeholder host)
  /\ display s
     = (if estimate_volume (Three.getSize (Three.boundingBox g)) <=? 0
        then prompt_upload host else prompt_material host,
        {| href := None; class_disabled := true |}, EmptyString).
Proof.
  intros s. unfold s. rewrite run_app.
  pose proof (invariant_reachable host events) as Hi.
  set (s0 := run host (initial host) events) in *.
  change (run host s0 [FileChosen (Some file); FileRead (Some g)])
    with (final (reader_onload host (Some g) (step host s0 (FileChosen (Some file))))).
  pose proof (invariant_step host s0 (FileChosen (Some file)) Hi) as (Hc1 & _).
  assert (Hin : colorInput (page (step host s0 (FileChosen (Some file))))
                = {| input_value := EmptyString; input_disabled := true |}
                /\ materialInput (page (step host s0 (FileChosen (Some file))))
                   = {| selected := placeholder host; select_disabled := true |}).
  { destruct Hi as (Hc & _). unfold step, handle, fileInput_change.
    set (s2 := upd_page _ (upd_page _ (upd_vars _ s0))).
    assert (Hc2 : context_ok s2) by exact Hc.
    destruct (reset_spec host s2 Hc2) as (_ & _ & _ & H1 & H2 & _). split; assumption. }
  destruct Hin as [Hcol Hmat].
  destruct (onload_spec host _ g Hc1)
    as (s1 & m & -> & (Hm & _ & _ & Hv & _) & _ & (_ & Hci & Hmi)).
  simpl final. destruct (update_page host s1) as (_ & _ & _ & Hp1 & Hp2).
  rewrite Hp1, Hp2, Hci, Hmi, Hcol, Hmat. split; [split; reflexivity | ].
  destruct (update_cases host s1) as [(Hg & H) | [(Hg & _ & H) | (_ & Hg & _)]].
  - rewrite H. rewrite Hm, Hv in Hg. simpl in Hg. rewrite Hg. reflexivity.
  - rewrite H. rewrite Hm, Hv in Hg. simpl in Hg. rewrite Hg. reflexivity.
  - rewrite Hmi, Hmat in Hg. discriminate Hg.
Qed.

(** ** The scene, the settings, the animation *)

(** X19.  Whenever there is a scene, it has the grey background and holds
    the two lights that [initThreeJS] added, followed by meshes only:
    [scene.remove] takes meshes away and never a light. *)
Theorem scene_keeps_lights (events : list Event) (sc : Three.Scene) :
  let s := run host (initial host) events in
  scene (vars s) = Some sc ->
  Three.background sc = 0xeeeeee%Z
  /\ exists meshes,
       Three.children sc = (lights ++ meshes)%list
       /\ forallb is_mesh_object meshes = true.
Proof.
  intros s H. destruct (more_invariant_reachable host events) as (_ & _ & _ & _ & Hs & _).
  exact (Hs sc H).
Qed.

(** X20.  The camera, the renderer and the controls keep what
    [initThreeJS] gave them: a field of view of 75 degrees and a near plane
    at 0.1, antialiasing, damping of factor 0.25, no panning in screen
    space, and a polar angle of at most a quarter turn.  Neither
    [onWindowResize] nor [fitCameraToObject] changes them. *)
Theorem settings_are_kept (events : list Event) (cam : Three.PerspectiveCamera)
  (ren : Three.WebGLRenderer) (ctl : Three.OrbitControls) :
  let s := run host (initial host) events in
  camera (vars s) = Some cam -> renderer (vars s) = Some ren -> controls (vars s) = Some ctl ->
  (Three.fov cam = 75 /\ Three.near cam = 0.1)
  /\ Three.antialias ren = true
  /\ (Three.enableDamping ctl = true /\ Three.dampingFactor ctl = 0.25
      /\ Three.screenSpacePanning ctl = false
      /\ Three.maxPolarAngle ctl = JSNumber.PI / 2).
Proof.
  intros s Hcam Hren Hctl.
  destruct (more_invariant_reachable host events) as (_ & _ & _ & (H1 & H2 & H3) & _).
  split; [exact (H1 cam Hcam) | split; [exact (H2 ren Hren) | exact (H3 ctl Hctl)]].
Qed.

(** X22.  The animation never stops once [initThreeJS] has started it: in
    every state the events lead to, a call of [animate] is due exactly when
    there is a renderer, so that the guard of [animate] lets every frame
    ask for the next one; before the first model no frame is asked for.
    The listener of resizes and the canvas are there exactly then too. *)
Theorem loop_runs_with_renderer (events : list Event) :
  let s := run host (initial host) events in
  animating (effects s) = negb (is_null (renderer (vars s)))
  /\ animating (effects (step host s AnimationFrame)) = animating (effects s)
  /\ animating (effects (animate host s)) = negb (is_null (renderer (vars s)))
  /\ resizeListener (effects s) = negb (is_null (renderer (vars s)))
  /\ has_canvas (viewer (page s)) = negb (is_null (renderer (vars s))).
Proof.
  intros s.
  destruct (more_invariant_reachable host events) as (_ & (_ & _ & _ & H1 & H2 & H3) & _).
  fold s in H1, H2, H3.
  destruct (frame_spec host s) as (_ & _ & _ & Hf & _).
  split; [exact H2 | ]. split; [rewrite Hf, H2; apply andb_diag | ].
  split; [ | split; [exact H1 | exact H3]].
  revert H2. clear. open_state s. unfold animate, controls_update. simpl.
  destruct ren, ctl, cam; simpl; intros H; try exact H; reflexivity.
Qed.

(** ** Uploads that do not overlap *)

Lemma onload_meshes (s : State) (g : Three.BufferGeometry) :
  context_ok s ->
  exists s1 m,
    reader_onload host (Some g) s = Returned (updateCostAndEmail host s1)
    /\ currentMesh (vars s1) = Some m
    /\ scene_meshes s1 = (scene_meshes s ++ [Three.mesh_id m])%list.
Proof.
  open_state s. unfold context_ok. simpl.
  destruct sc as [sc | ], cam, ren, ctl; simpl; try tauto; intros Hc;
    unfold_onload; simpl;
    (eexists; eexists; split; [reflexivity | ]); unfold scene_meshes; simpl;
    rewrite ?mesh_ids_add; simpl; split; reflexivity.
Qed.

Lemma reset_meshes (s : State) :
  context_ok s -> scene_meshes s = current_meshes s ->
  scene_meshes (final (resetState host s)) = []
  /\ currentMesh (vars (final (resetState host s))) = None.
Proof.
  intros Hc H. destruct (reset_spec host s Hc) as ((_ & _ & _ & Hsc) & _).
  destruct (reset_vars host s Hc) as (_ & _ & Hm). split; [ | exact Hm].
  unfold scene_meshes, current_meshes in *. rewrite Hsc. clear Hsc Hm.
  destruct (currentMesh (vars s)) as [m | ]; [ | exact H].
  destruct (scene (vars s)) as [sc | ]; [ | reflexivity]. simpl.
  rewrite mesh_ids_remove, H. simpl. rewrite Nat.eqb_refl. reflexivity.
Qed.

Lemma no_overlap_run (events : list Event) (s : State) (pending : bool) :
  invariant host s -> scene_meshes s = current_meshes s ->
  (pending = true -> currentMesh (vars s) = None) ->
  no_overlap pending events = true ->
  scene_meshes (run host s events) = current_meshes (run host s events).
Proof.
  revert s pending. induction events as [ | e events IH]; intros s pending Hi Hs Hp Hn;
    [exact Hs | ].
  pose proof (invariant_step host s e Hi) as Hi'. pose proof Hi as (Hc & _).
  simpl run.
  destruct e as [[file | ] | [g | ] | | value | option | w h | ]; simpl in Hn;
    try (apply andb_true_iff in Hn; destruct Hn as [Hn1 Hn]).
  - apply (IH _ true Hi'); [ | | exact Hn];
      unfold step, handle, fileInput_change;
      set (s2 := upd_page _ (upd_page _ (upd_vars _ s)));
      destruct (reset_meshes s2 Hc Hs) as [H1 H2].
    + unfold current_meshes. rewrite H1, H2. reflexivity.
    + intros _. exact H2.
  - apply (IH _ pending Hi'); assumption.
  - subst pending. specialize (Hp eq_refl).
    apply (IH _ false Hi'); [ | discriminate | exact Hn].
    unfold step, handle.
    destruct (onload_meshes s g Hc) as (s1 & m & -> & H1 & H2).
    simpl final. unfold scene_meshes, current_meshes in *.
    rewrite update_vars, H1, H2, Hs, Hp. reflexivity.
  - apply (IH _ false Hi'); [ | discriminate | exact Hn].
    unfold step, handle, reader_onload, onload_try, onload_catch.
    set (s2 := upd_page _ (upd_page _ (upd_effects _ s))).
    destruct (reset_meshes s2 Hc Hs) as [H1 H2].
    unfold current_meshes. rewrite H1, H2. reflexivity.
  - apply (IH _ false Hi'); [ | discriminate | exact Hn].
    unfold step, handle, reader_onerror.
    set (s2 := upd_page _ (upd_page _ (upd_effects _ s))).
    destruct (reset_meshes s2 Hc Hs) as [H1 H2].
    unfold current_meshes. rewrite H1, H2. reflexivity.
  - destruct (loads_nothing_step host s (ColorEdited value) eq_refl) as ((H1 & _ & H2 & _) & _).
    apply (IH _ pending Hi'); unfold scene_meshes, current_meshes in *;
      rewrite ?H1, ?H2; assumption.
  - destruct (loads_nothing_step host s (MaterialSelected option) eq_refl)
      as ((H1 & _ & H2 & _) & _).
    apply (IH _ pending Hi'); unfold scene_meshes, current_meshes in *;
      rewrite ?H1, ?H2; assumption.
  - destruct (loads_nothing_step host s (WindowResized w h) eq_refl)
      as ((H1 & _ & H2 & _) & _).
    apply (IH _ pending Hi'); unfold scene_meshes, current_meshes in *;
      rewrite ?H1, ?H2; assumption.
  - destruct (frame_spec host s) as (_ & (H1 & _ & _ & H2 & _) & _).
    apply (IH _ pending Hi'); unfold scene_meshes, current_meshes in *;
      rewrite ?H1, ?H2; assumption.
Qed.

(** X23.  When uploads do not overlap (a file is chosen only once the read
    of the one before has ended), the scene never holds a mesh besides the
    current one: every earlier mesh has been removed. *)
Theorem one_model_at_a_time (events : list Event) :
  let s := run host (initial host) events in
  no_overlap false events = true ->
  scene_meshes s = current_meshes s.
Proof.
  intros s H. apply (no_overlap_run events (initial host) false).
  - apply invariant_initial.
  - reflexivity.
  - discriminate.
  - exact H.
Qed.

(** X24.  In every state the events lead to, there is a link only when a
    mesh is loaded, its volume does not compare [<= 0], the value of the
    selected option is not empty and its density does not compare
    [<= 0]. *)
Theorem link_needs_estimate (events : list Event) :
  let s := run host (initial host) events in
  let option := selected (materialInput (page s)) in
  href (emailLink (page s)) <> None ->
  currentMesh (vars s) <> None /\ (modelVolumeCm3 (vars s) <=? 0) = false
  /\ option_value option <> EmptyString /\ (density_of host option <=? 0) = false.
Proof.
  intros s option Hl.
  destruct (invariant_reachable host events) as (_ & _ & Hsync & _). fold s in Hsync.
  unfold in_sync in Hsync.
  destruct (update_cases host s) as [(_ & H) | [(_ & _ & H) | (Hg & Hg' & _)]];
    try (rewrite Hsync in H; unfold display in H; injection H as _ H _;
         rewrite H in Hl; simpl in Hl; congruence).
  fold option in Hg'. apply orb_false_iff in Hg, Hg'.
  destruct Hg as [Hm Hv], Hg' as [Hn Hd].
  split; [destruct (currentMesh (vars s)); [discriminate | discriminate Hm] | ].
  split; [exact Hv | ]. split; [ | exact Hd].
  intros E. rewrite E in Hn. discriminate Hn.
Qed.

(** X25.  Choosing a file twice in a row leaves the page and the variables
    as choosing it once does; what the second choice adds is a second
    read. *)
Theorem choose_twice (events : list Event) (file : File) :
  let s := run host (initial host) events in
  let s1 := step host s (FileChosen (Some file)) in
  step host s1 (FileChosen (Some file)) = s1.
Proof.
  intros s s1. destruct (invariant_reachable host events) as (Hc & _). fold s in Hc.
  unfold s1. clear s1. revert Hc. generalize s. clear s. intros s.
  open_state s. unfold step, handle, fileInput_change, resetState, context_ok. simpl.
  destruct sc, cam, ren, ctl, mesh; simpl; try tauto; intros; reflexivity.
Qed.

End Extras.

(** ** On the sample page *)

Module MoreOnSample.

Local Open Scope float_scope.

(** X1 on the sample page: the parse of a second file fails while the cube
    is displayed. *)
Lemma listeners_return_witness :
  exists s',
    handle Sample.host (FileRead None)
      (run Sample.host (initial Sample.host) Sample.cube_loaded)
    = Returned s'.
Proof.
  exact (listeners_return Sample.host Sample.cube_loaded (FileRead None) eq_refl).
Defined.

(** X3 on the sample page: the cube is displayed. *)
Lemma reset_twice_witness :
  let s := run Sample.host (initial Sample.host) Sample.cube_loaded in
  context_ok s
  /\ currentMesh (vars s) <> None
  /\ final (resetState Sample.host (final (resetState Sample.host s)))
     = final (resetState Sample.host s).
Proof.
  intros s.
  assert (H : context_ok s) by (vm_compute; reflexivity).
  split; [exact H | ]. split; [vm_compute; discriminate | ].
  apply (reset_twice Sample.host s H).
Defined.

(** X5 on the sample page: a file of 2.5 MB is chosen and read, and a
    material is selected. *)
Lemma file_info_witness :
  fileInfo (page (run Sample.host (initial Sample.host)
                    ([] ++ FileChosen (Some MoreSamples.bracket_stl)
                        :: [FileRead (Some Sample.cube); MaterialSelected Sample.PLA])))
  = "File: bracket.stl (2.50 MB)"%string.
Proof.
  exact (file_info_names_file Sample.host [] MoreSamples.bracket_stl
           [FileRead (Some Sample.cube); MaterialSelected Sample.PLA] eq_refl).
Defined.

(** X7 on the sample page: the window is resized once the cube is
    displayed. *)
Lemma renderer_fits_witness :
  let s := run Sample.host (initial Sample.host)
             (Sample.cube_loaded ++ [WindowResized 1024 768]) in
  exists cam ren,
    camera (vars s) = Some cam /\ renderer (vars s) = Some ren
    /\ Three.width ren = 1024 /\ Three.height ren = 768
    /\ Three.aspect cam = 1024 / 768.
Proof.
  intros s.
  destruct (camera (vars s)) as [cam | ] eqn:Ec; [ | vm_compute in Ec; discriminate Ec].
  destruct (renderer (vars s)) as [ren | ] eqn:Er; [ | vm_compute in Er; discriminate Er].
  exists cam, ren. split; [reflexivity | split; [reflexivity | ]].
  exact (renderer_fits_viewer Sample.host (Sample.cube_loaded ++ [WindowResized 1024 768])
           cam ren Ec Er).
Defined.

(** X9 on the sample page: the cube. *)
Lemma far_plane_witness :
  exists cam,
    camera (vars (run Sample.host (initial Sample.host)
                    ([FileChosen (Some Sample.cube_stl)] ++ [FileRead (Some Sample.cube)])))
    = Some cam
    /\ JSNumber.not_negative (Three.far cam).
Proof.
  exact (far_plane_not_negative Sample.host [FileChosen (Some Sample.cube_stl)] Sample.cube
           eq_refl).
Defined.

(** X10 on the sample page: a file without triangles, then a material and
    a colour. *)
Lemma flat_model_witness :
  let s := run Sample.host (initial Sample.host)
             ([FileChosen (Some Sample.cube_stl)]
              ++ FileRead (Some MoreSamples.no_triangle)
                 :: [MaterialSelected Sample.PLA; ColorEdited "red"]) in
  currentMesh (vars s) <> None
  /\ input_disabled (colorInput (page s)) = false
  /\ select_disabled (materialInput (page s)) = false
  /\ display s
     = (prompt_upload Sample.host, {| href := None; class_disabled := true |}, EmptyString).
Proof.
  exact (flat_model_never_quoted Sample.host [FileChosen (Some Sample.cube_stl)]
           MoreSamples.no_triangle [MaterialSelected Sample.PLA; ColorEdited "red"]
           eq_refl eq_refl).
Defined.

(** X11 on the sample page: the cube in PLA, and a colour that spells out
    further fields of a link. *)
Lemma link_fields_witness :
  let s := run Sample.host (initial Sample.host)
             (Sample.cube_loaded
              ++ [MaterialSelected Sample.PLA; ColorEdited MoreSamples.sly_color]) in
  exists h,
    href (emailLink (page s)) = Some h
    /\ occurrences "?" h = 1%nat /\ occurrences "&" h = 1%nat /\ occurrences "=" h = 2%nat.
Proof.
  intros s.
  destruct (href (emailLink (page s))) as [h | ] eqn:E; [ | vm_compute in E; discriminate E].
  exists h. split; [reflexivity | ].
  destruct (link_has_two_fields Sample.host
              (Sample.cube_loaded
               ++ [MaterialSelected Sample.PLA; ColorEdited MoreSamples.sly_color]) h E)
    as (subject & body & _ & _ & _ & H1 & H2 & H3).
  split; [exact H1 | split; [exact H2 | exact H3]].
Defined.

(** X12 on the sample page: two files are chosen before either read ends.
    The mesh of the first read stays in the scene, unreleased, when the
    second read ends and through the next upload. *)
Lemma orphan_witness :
  let s := run Sample.host (initial Sample.host) MoreSamples.first_of_two_reads in
  let later := [FileChosen (Some Sample.cube_stl); FileRead (Some Sample.cube);
                FileChosen (Some Sample.cube_stl)] in
  currentMesh (vars s) = Some MoreSamples.first_cube
  /\ orphan MoreSamples.first_cube
       (run Sample.host s (FileRead (Some Sample.plate) :: later)).
Proof.
  intros s later.
  assert (H : currentMesh (vars s) = Some MoreSamples.first_cube)
    by (vm_compute; reflexivity).
  split; [exact H | ].
  exact (orphan_mesh_stays Sample.host MoreSamples.first_of_two_reads later
           MoreSamples.first_cube Sample.plate H).
Defined.

(** X19 on the sample page: the cube is displayed. *)
Lemma scene_lights_witness :
  let s := run Sample.host (initial Sample.host) Sample.cube_loaded in
  exists sc meshes,
    scene (vars s) = Some sc
    /\ Three.children sc = (lights ++ meshes)%list
    /\ forallb is_mesh_object meshes = true.
Proof.
  intros s.
  destruct (scene (vars s)) as [sc | ] eqn:E; [ | vm_compute in E; discriminate E].
  destruct (scene_keeps_lights Sample.host Sample.cube_loaded sc E) as (_ & meshes & H1 & H2).
  exists sc, meshes. split; [reflexivity | split; [exact H1 | exact H2]].
Defined.

(** X20 on the sample page: the cube is displayed and the window resized. *)
Lemma settings_witness :
  let s := run Sample.host (initial Sample.host)
             (Sample.cube_loaded ++ [WindowResized 1024 768]) in
  exists cam ren ctl,
    (camera (vars s) = Some cam /\ renderer (vars s) = Some ren
     /\ controls (vars s) = Some ctl)
    /\ Three.fov cam = 75 /\ Three.antialias ren = true /\ Three.dampingFactor ctl = 0.25.
Proof.
  intros s.
  destruct (camera (vars s)) as [cam | ] eqn:Ec; [ | vm_compute in Ec; discriminate Ec].
  destruct (renderer (vars s)) as [ren | ] eqn:Er; [ | vm_compute in Er; discriminate Er].
  destruct (controls (vars s)) as [ctl | ] eqn:El; [ | vm_compute in El; discriminate El].
  exists cam, ren, ctl. split; [repeat split | ].
  destruct (settings_are_kept Sample.host (Sample.cube_loaded ++ [WindowResized 1024 768])
              cam ren ctl Ec Er El) as ((H1 & _) & H2 & _ & H3 & _).
  split; [exact H1 | split; [exact H2 | exact H3]].
Defined.

(** X23 on the sample page: two uploads, one after the other; the scene
    holds the second mesh only. *)
Lemma one_model_witness :
  let s := run Sample.host (initial Sample.host) MoreSamples.two_uploads in
  no_overlap false MoreSamples.two_uploads = true
  /\ scene_meshes s = current_meshes s
  /\ current_meshes s = [5%nat].
Proof.
  intros s. split; [reflexivity | ]. split; [ | vm_compute; reflexivity].
  exact (one_model_at_a_time Sample.host MoreSamples.two_uploads eq_refl).
Defined.

(** X24 on the sample page: the cube in PLA. *)
Lemma link_needs_estimate_witness :
  let s := run Sample.host (initial Sample.host)
             (Sample.cube_loaded ++ [MaterialSelected Sample.PLA]) in
  href (emailLink (page s)) <> None
  /\ currentMesh (vars s) <> None
  /\ option_value (selected (materialInput (page s))) <> EmptyString.
Proof.
  intros s.
  assert (H : href (emailLink (page s)) <> None) by (vm_compute; discriminate).
  split; [exact H | ].
  destruct (link_needs_estimate Sample.host
              (Sample.cube_loaded ++ [MaterialSelected Sample.PLA]) H)
    as (H1 & _ & H2 & _).
  split; [exact H1 | exact H2].
Defined.

End MoreOnSample.
